(** * Lossless PNG strategy selection: [ga2-q2/compress.py]

    A shallow embedding of [ultra_compress_lossless] and the properties
    of its candidate selection, verification, budget evaluation and
    persistence.

    The image library (PIL) is external to the repository: it is an
    interface here ([ImageLib]), and every general theorem holds for all
    of its implementations.  Two small implementations at the end of the
    model ([RefLib], [CorruptLib]) make closed runs possible.

    The working directory is a finite map from paths to byte contents,
    so that the fixed scratch-file names of the program, and what
    happens when the caller's paths coincide with them, are part of the
    model.  Which other directories exist is a parameter as well: the
    destination is opened for writing where the caller says, and that
    fails when its directory is missing.  Console output is an output list of structured lines; the
    decorative rules ([print("="*60)] and blank lines) are left out, and
    the compression ratio is kept as the exact rational that Python
    then rounds and formats. *)

From Stdlib Require Import ZArith QArith Qround Strings.Byte.
From stdpp Require Import base option list strings gmap fin_maps pretty sorting.

Local Open Scope string_scope.
Local Open Scope list_scope.
Local Open Scope Z_scope.

(** ** Data *)

(** An element of [list(img.getdata())]: an [int] for single-band
    images, a tuple for multi-band ones.  An [int] never equals a
    tuple. *)
Inductive pixel :=
  | PInt (v : Z)
  | PTuple (bands : list Z).

#[global] Instance pixel_eq_dec : EqDecision pixel.
Proof. solve_decision. Defined.

Abbreviation bytes := (list byte).

(** [PIL.Image.Image], as far as the program looks at it.  [mode] is the
    library's mode string (['L'], ['P'], ['RGB'], ['RGBA'], ['CMYK'],
    ...). *)
Record image := Image {
  mode : string;
  width : Z;
  height : Z;
  pixels : list pixel;
  palette : list (list Z);
}.

(** [best_size] starts as [float('inf')] and then holds [int]s. *)
Inductive pynum :=
  | Int (z : Z)
  | PosInf.

#[global] Instance pynum_eq_dec : EqDecision pynum.
Proof. solve_decision. Defined.

(** [a < b] *)
Definition py_lt (a b : pynum) : bool :=
  match a, b with
  | Int x, Int y => bool_decide (x < y)
  | Int _, PosInf => true
  | PosInf, _ => false
  end.

(** [a - b] with an [int] on the right *)
Definition py_sub (a : pynum) (b : Z) : pynum :=
  match a with
  | Int x => Int (x - b)
  | PosInf => PosInf
  end.

(** An entry of the list [strategies]: [(filepath, size, method)]. *)
Record candidate := Candidate {
  cand_file : string;
  cand_size : Z;
  cand_method : string;
}.

#[global] Instance candidate_eq_dec : EqDecision candidate.
Proof. solve_decision. Defined.

(** Console lines that carry information. *)
Inductive line :=
  | POriginal (original_size : Z) (w h : Z) (m : string) (target : Z)
  | PUnique (n : Z)
  | PPaletteOk
  | PStrategy (k : Z)
  | PResult (size : Z)
  | PLossless
  | PFailed
  | PBits (bits size : Z)
  | PMethod (size : Z) (method : string)
  | PBest (best : pynum)
  | PSuccess (best : pynum) (target : Z)
  | PRatio (percent : Q)
  | PRatioInf
  | PSaved (output_path : string)
  | PAllIdentical (npixels : Z)
  | PCannot (best : pynum) (target : Z) (short_by : pynum).

#[global] Instance Q_eq_dec : EqDecision Q.
Proof. solve_decision. Defined.

#[global] Instance line_eq_dec : EqDecision line.
Proof. solve_decision. Defined.

Inductive exn :=
  | FileNotFoundError
  | CodecError
  | TypeError
  | ZeroDivisionError.

(** The working directory and the local variables that the strategies
    update. *)
Record state := State {
  files : gmap string bytes;
  best_size : pynum;
  best_file : option string;
  strategies : list candidate;
}.

Definition set_files (f : gmap string bytes → gmap string bytes) (s : state) : state :=
  {| files := f (files s); best_size := best_size s;
     best_file := best_file s; strategies := strategies s |}.

(** ** The external image library and the directories

    What the program does not define itself: the four calls of the image
    library, and which directories exist.  The program creates no
    directory, so the latter does not change during a run. *)

Class ImageLib := {
  (** [img.save(path, 'PNG', optimize=True, compress_level=9)], with
      [bits=b] when given: the bytes written, or [None] when it
      raises. *)
  png_save : image → option Z → option bytes;
  (** [Image.open(path)] followed by loading the data, as a function of
      the file's content; [None] when it raises. *)
  png_open : bytes → option image;
  (** [img.convert('P', palette=Image.ADAPTIVE, colors=n)] *)
  convert_adaptive : image → Z → option image;
  (** [img.convert(mode)] *)
  convert : image → string → option image;
  (** [os.path.isdir(os.path.dirname(path))], for a [path] that has a
      directory part: whether the directory that [path] lies in
      exists. *)
  dir_exists : string → bool;
}.

(** ** Computations: state, exceptions, console output *)

Inductive result (A : Type) :=
  | Ok (a : A)
  | Raise (e : exn).
Arguments Ok {A} a.
Arguments Raise {A} e.

Definition M (A : Type) : Type := state → result A * state * list line.

#[global] Instance M_ret : MRet M := λ A a s, (Ok a, s, []).

#[global] Instance M_bind : MBind M := λ A B k m s,
  match m s with
  | (Ok a, s1, o1) =>
      match k a s1 with
      | (r, s2, o2) => (r, s2, o1 ++ o2)
      end
  | (Raise e, s1, o1) => (Raise e, s1, o1)
  end.

Definition raise {A} (e : exn) : M A := λ s, (Raise e, s, []).

(** [try: m  except: pass] *)
Definition try_pass (m : M unit) : M unit := λ s,
  match m s with
  | (_, s1, o1) => (Ok tt, s1, o1)
  end.

Definition print (l : line) : M unit := λ s, (Ok tt, s, [l]).

Definition when (b : bool) (m : M unit) : M unit := if b then m else mret tt.

(** [for x in xs: body x] *)
Fixpoint for_each {A} (xs : list A) (body : A → M unit) : M unit :=
  match xs with
  | [] => mret tt
  | x :: xs' => body x;; for_each xs' body
  end.

Definition result_of {A} (x : result A * state * list line) : result A := x.1.1.
Definition state_of {A} (x : result A * state * list line) : state := x.1.2.
Definition output_of {A} (x : result A * state * list line) : list line := x.2.

(** ** File-system and library calls *)

(** [os.path.getsize(path)] *)
Definition getsize (path : string) : M Z := λ s,
  match files s !! path with
  | Some bs => (Ok (Z.of_nat (length bs)), s, [])
  | None => (Raise FileNotFoundError, s, [])
  end.

(** [os.path.exists(path)] *)
Definition path_exists (path : string) : M bool := λ s,
  (Ok (bool_decide (is_Some (files s !! path))), s, []).

(** [os.remove(path)] *)
Definition os_remove (path : string) : M unit := λ s,
  match files s !! path with
  | Some _ => (Ok tt, set_files (delete path) s, [])
  | None => (Raise FileNotFoundError, s, [])
  end.

Section Program.
Context {lib : ImageLib}.

(** [img.save(path, 'PNG', optimize=True, compress_level=9 [, bits=b])].
    A save that raises leaves the directory as it was. *)
Definition img_save (img : image) (path : string) (bits : option Z) : M unit := λ s,
  match png_save img bits with
  | Some bs => (Ok tt, set_files <[path := bs]> s, [])
  | None => (Raise CodecError, s, [])
  end.

(** [Image.open(path)], loaded *)
Definition image_open (path : string) : M image := λ s,
  match files s !! path with
  | Some bs =>
      match png_open bs with
      | Some v => (Ok v, s, [])
      | None => (Raise CodecError, s, [])
      end
  | None => (Raise FileNotFoundError, s, [])
  end.

Definition img_convert_adaptive (img : image) (colors : Z) : M image := λ s,
  match convert_adaptive img colors with
  | Some p => (Ok p, s, [])
  | None => (Raise CodecError, s, [])
  end.

Definition img_convert (img : image) (m : string) : M image := λ s,
  match convert img m with
  | Some p => (Ok p, s, [])
  | None => (Raise CodecError, s, [])
  end.

(** [open(path, 'rb')]: the file must exist *)
Definition open_rb (path : string) : M unit := λ s,
  match files s !! path with
  | Some _ => (Ok tt, s, [])
  | None => (Raise FileNotFoundError, s, [])
  end.

(** Whether [path] has a directory part, that is, contains a separator:
    [os.path.dirname(path) != ''] *)
Fixpoint has_dirname (path : string) : bool :=
  match path with
  | EmptyString => false
  | String c rest => bool_decide (String c "" = "/") || has_dirname rest
  end.

(** Whether [open(path, 'wb')] can create the file: the name is not
    empty, and the file lies in the working directory or in another
    directory that exists. *)
Definition can_create (path : string) : bool :=
  bool_decide (path ≠ "") && (negb (has_dirname path) || dir_exists path).

(** [open(path, 'wb')]: creates or truncates; without the directory it
    raises and leaves the files as they are *)
Definition open_wb (path : string) : M unit := λ s,
  if can_create path then (Ok tt, set_files <[path := []]> s, [])
  else (Raise FileNotFoundError, s, []).

(** [src.read()] on a handle opened at the start of the file *)
Definition read_all (path : string) : M bytes := λ s,
  (Ok (default [] (files s !! path)), s, []).

(** [dst.write(data)] on a freshly truncated file *)
Definition write_all (path : string) (data : bytes) : M unit := λ s,
  (Ok tt, set_files <[path := data]> s, []).

(** ** The program *)

Definition get_strategies : M (list candidate) := λ s, (Ok (strategies s), s, []).
Definition get_best_size : M pynum := λ s, (Ok (best_size s), s, []).
Definition get_best_file : M (option string) := λ s, (Ok (best_file s), s, []).

(** Lines 34-37 *)
Definition init_locals : M unit := λ s,
  (Ok tt, {| files := files s; best_size := PosInf; best_file := None;
             strategies := [] |}, []).

(** What follows each successful verification:
<<
    strategies.append((temp, size, method))
    if size < best_size:
        best_size = size
        best_file = temp
>> *)
Definition record_candidate (temp : string) (size : Z) (method : string) : M unit := λ s,
  let appended := strategies s ++ [Candidate temp size method] in
  if py_lt (Int size) (best_size s) then
    (Ok tt, {| files := files s; best_size := Int size; best_file := Some temp;
               strategies := appended |}, [])
  else
    (Ok tt, {| files := files s; best_size := best_size s;
               best_file := best_file s; strategies := appended |}, []).

(** [len(set(original_pixels))] *)
Definition unique_colors (original_pixels : list pixel) : Z :=
  Z.of_nat (length (remove_dups original_pixels)).

(** [unique_colors <= 256 and img.mode in ('RGB', 'RGBA', 'L')] *)
Definition palette_applicable (img : image) : bool :=
  bool_decide (unique_colors (pixels img) ≤ 256)
  && bool_decide (mode img ∈ ["RGB"; "RGBA"; "L"]).

Definition temp1 : string := "temp_method1.png".
Definition temp2 : string := "temp_method2.png".
Definition temp3 (filter_type : Z) : string :=
  "temp_filter_" +:+ pretty filter_type +:+ ".png".
Definition temp4 (bits : Z) : string :=
  "temp_bits_" +:+ pretty bits +:+ ".png".

(** Strategy 1: direct PNG optimization (lines 39-56) *)
Definition strategy1 (img : image) : M unit :=
  print (PStrategy 1);;
  img_save img temp1 None;;
  size1 ← getsize temp1;
  print (PResult size1);;
  verify1 ← image_open temp1;
  if bool_decide (pixels verify1 = pixels img) then
    print PLossless;;
    record_candidate temp1 size1 "PNG compress_level=9"
  else
    print PFailed;;
    os_remove temp1.

(** Strategy 2: palette mode (lines 58-84) *)
Definition strategy2 (img : image) : M unit :=
  when (palette_applicable img) (
    print (PStrategy 2);;
    palette_img ← (if bool_decide (mode img = "RGBA")
                   then img_convert_adaptive img (unique_colors (pixels img))
                   else img_convert_adaptive img (unique_colors (pixels img)));
    img_save palette_img temp2 None;;
    size2 ← getsize temp2;
    print (PResult size2);;
    opened ← image_open temp2;
    verify2 ← img_convert opened (mode img);
    if bool_decide (pixels verify2 = pixels img) then
      print PLossless;;
      record_candidate temp2 size2
        ("Palette mode (" +:+ pretty (unique_colors (pixels img)) +:+ " colors)")
    else
      print PFailed;;
      there ← path_exists temp2;
      when there (os_remove temp2)).

(** One iteration of the loop of strategy 3 (lines 89-102) *)
Definition filter_attempt (img : image) (filter_type : Z) : M unit :=
  try_pass (
    img_save img (temp3 filter_type) None;;
    size3 ← getsize (temp3 filter_type);
    verify3 ← image_open (temp3 filter_type);
    when (bool_decide (pixels verify3 = pixels img))
      (record_candidate (temp3 filter_type) size3
         ("PNG filter " +:+ pretty filter_type))).

(** Strategy 3: PNG filters (lines 86-102) *)
Definition strategy3 (img : image) : M unit :=
  print (PStrategy 3);;
  for_each [0; 1; 2; 3; 4] (filter_attempt img).

(** One iteration of the loop of strategy 4 (lines 110-123) *)
Definition bits_attempt (img : image) (gray_levels bits : Z) : M unit :=
  when (bool_decide (gray_levels ≤ 2 ^ bits)) (
    img_save img (temp4 bits) (Some bits);;
    size4 ← getsize (temp4 bits);
    verify4 ← image_open (temp4 bits);
    when (bool_decide (pixels verify4 = pixels img)) (
      print (PBits bits size4);;
      record_candidate (temp4 bits) size4 (pretty bits +:+ "-bit grayscale"))).

(** Strategy 4: reduced bit depth (lines 104-123) *)
Definition strategy4 (img : image) : M unit :=
  when (bool_decide (mode img = "L")) (
    print (PStrategy 4);;
    for_each [4; 2; 1] (bits_attempt img (unique_colors (pixels img)))).

(** Lines 39-123 *)
Definition collect (img : image) : M unit :=
  strategy1 img;; strategy2 img;; strategy3 img;; strategy4 img.

(** [sorted(strategies, key=lambda x: x[1])]: stable, by size *)
Fixpoint insert_by_size (c : candidate) (l : list candidate) : list candidate :=
  match l with
  | [] => [c]
  | d :: l' =>
      if bool_decide (cand_size c < cand_size d) then c :: d :: l'
      else d :: insert_by_size c l'
  end.

Definition sorted_by_size (l : list candidate) : list candidate :=
  foldl (λ acc c, insert_by_size c acc) [] l.

(** Lines 139-141 *)
Definition copy_best (output_path : string) : M unit :=
  best ← get_best_file;
  match best with
  | None => raise TypeError
  | Some src =>
      open_rb src;;
      open_wb output_path;;
      data ← read_all src;
      write_all output_path data
  end.

(** [(1 - best_size/original_size)*100], before rounding *)
Definition ratio_percent (best original_size : Z) : Q :=
  ((1 - inject_Z best / inject_Z original_size) * 100)%Q.

(** The success branch (lines 138-159) *)
Definition report_success (img : image) (original_size : Z)
    (output_path : string) (target_bytes : Z) : M (option string * pynum) :=
  copy_best output_path;;
  best ← get_best_size;
  print (PSuccess best target_bytes);;
  (if bool_decide (original_size = 0) then raise ZeroDivisionError
   else print (match best with
               | Int b => PRatio (ratio_percent b original_size)
               | PosInf => PRatioInf
               end));;
  print (PSaved output_path);;
  print (PAllIdentical (Z.of_nat (length (pixels img))));;
  tried ← get_strategies;
  best_f ← get_best_file;
  for_each tried (λ c,
    try_pass (
      if bool_decide (Some (cand_file c) ≠ best_f) then
        there ← path_exists (cand_file c);
        when there (os_remove (cand_file c))
      else mret tt));;
  mret (Some output_path, best).

(** The other branch (lines 160-185) *)
Definition report_cannot (target_bytes : Z) : M (option string * pynum) :=
  best ← get_best_size;
  print (PCannot best target_bytes (py_sub best target_bytes));;
  tried ← get_strategies;
  for_each tried (λ c,
    try_pass (
      there ← path_exists (cand_file c);
      when there (os_remove (cand_file c))));;
  mret (None, best).

(** Lines 125-185 *)
Definition report (img : image) (original_size : Z)
    (output_path : string) (target_bytes : Z) : M (option string * pynum) :=
  tried ← get_strategies;
  when (bool_decide (tried ≠ []))
    (for_each (sorted_by_size tried)
       (λ c, print (PMethod (cand_size c) (cand_method c))));;
  best ← get_best_size;
  print (PBest best);;
  if py_lt best (Int target_bytes) then
    report_success img original_size output_path target_bytes
  else
    report_cannot target_bytes.

(** Lines 14-185: the function once the input file has been opened *)
Definition compress_image (img : image) (original_size : Z)
    (output_path : string) (target_bytes : Z) : M (option string * pynum) :=
  print (POriginal original_size (width img) (height img) (mode img) target_bytes);;
  print (PUnique (unique_colors (pixels img)));;
  when (palette_applicable img) (print PPaletteOk);;
  init_locals;;
  collect img;;
  report img original_size output_path target_bytes.

Definition ultra_compress_lossless (input_path output_path : string)
    (target_bytes : Z) : M (option string * pynum) :=
  img ← image_open input_path;
  original_size ← getsize input_path;
  compress_image img original_size output_path target_bytes.

End Program.

(** ** Predicates of the specification *)

(** The scratch files in the order in which the program uses them *)
Definition scratch : list string :=
  [temp1; temp2; temp3 0; temp3 1; temp3 2; temp3 3; temp3 4;
   temp4 4; temp4 2; temp4 1].

Definition filter_files : list string := temp3 <$> [0; 1; 2; 3; 4].

(** [best] is the first candidate of minimal size in [l] *)
Definition first_minimum (l : list candidate) (i : nat) (best : candidate) : Prop :=
  l !! i = Some best
  ∧ (∀ d, d ∈ l → cand_size best ≤ cand_size d)
  ∧ (∀ j d, (j < i)%nat → l !! j = Some d → cand_size best < cand_size d).

(** The running best agrees with the list of verified candidates *)
Definition selected (s : state) : Prop :=
  match best_file s with
  | None => strategies s = [] ∧ best_size s = PosInf
  | Some f =>
      ∃ i best, first_minimum (strategies s) i best
                ∧ cand_file best = f ∧ best_size s = Int (cand_size best)
  end.

(** What is printed before the strategies (lines 14-32) *)
Definition header (img : image) (original_size target_bytes : Z) : list line :=
  [POriginal original_size (width img) (height img) (mode img) target_bytes;
   PUnique (unique_colors (pixels img))]
  ++ (if palette_applicable img then [PPaletteOk] else []).

Definition size_of (bs : bytes) : Z := Z.of_nat (length bs).

(** Two computations that give the same result and final state from
    every state; their output may differ. *)
Definition same_effect {A} (m m' : M A) : Prop :=
  ∀ s, result_of (m s) = result_of (m' s) ∧ state_of (m s) = state_of (m' s).

(** The state after [record_candidate] *)
Definition recorded (c : candidate) (s : state) : state :=
  state_of (record_candidate (cand_file c) (cand_size c) (cand_method c) s).

Section Verification.
Context {lib : ImageLib} (img : image).

(** [wp m Q s]: the run of [m] from [s] ends in a result, state and
    output that satisfy [Q] *)
Definition wp {A} (m : M A) (Q : result A → state → list line → Prop)
    (s : state) : Prop :=
  Q (result_of (m s)) (state_of (m s)) (output_of (m s)).

(** [m] returns normally, prints nothing, and at most removes files
    that satisfy [P]. *)
Definition removal (P : string → Prop) (m : M unit) : Prop :=
  ∀ s, wp m (λ r s' o,
    r = Ok tt ∧ o = [] ∧
    ∃ g, s' = set_files (λ _, g) s ∧ g ⊆ files s
         ∧ ∀ p, ¬ P p → g !! p = files s !! p) s.

(** The check of strategies 1, 3 and 4 on the content of a scratch file *)
Definition raw_verified (bs : bytes) : Prop :=
  ∃ v, png_open bs = Some v ∧ pixels v = pixels img.

(** The check of strategy 2 *)
Definition palette_verified (bs : bytes) : Prop :=
  ∃ v v', png_open bs = Some v ∧ convert v (mode img) = Some v'
          ∧ pixels v' = pixels img.

Definition verified (f : string) (bs : bytes) : Prop :=
  if decide (f = temp2) then palette_verified bs else raw_verified bs.

(** A ranked candidate's scratch file holds verified bytes of the
    recorded size; the files of strategies 1 and 3 hold the output of the
    plain save call. *)
Definition candidate_ok (s : state) (c : candidate) : Prop :=
  ∃ bs, files s !! cand_file c = Some bs
        ∧ cand_size c = size_of bs
        ∧ verified (cand_file c) bs
        ∧ (cand_file c ∈ temp1 :: filter_files → png_save img None = Some bs).

(** What one attempt on the scratch file [f] can do to the state: leave
    [f] in any condition and nothing else changed, or write verified
    bytes to [f] and record them. *)
Inductive touched (f : string) (s s' : state) : Prop :=
  | touched_file g :
      (∀ p, p ≠ f → g !! p = files s !! p) →
      s' = set_files (λ _, g) s →
      touched f s s'
  | touched_recorded bs method :
      verified f bs →
      (f ∈ temp1 :: filter_files → png_save img None = Some bs) →
      s' = recorded (Candidate f (size_of bs) method) (set_files <[f := bs]> s) →
      touched f s s'.

(** The state after [k] scratch files have been dealt with, starting
    from the directory [fs0] *)
Record inv (fs0 : gmap string bytes) (k : nat) (s : state) : Prop := {
  inv_selected : selected s;
  inv_order : sublist (cand_file <$> strategies s) (take k scratch);
  inv_candidates : Forall (candidate_ok s) (strategies s);
  inv_frame : ∀ p, p ∉ scratch → files s !! p = fs0 !! p;
  inv_direct : ∀ bs, (1 ≤ k)%nat → png_save img None = Some bs → raw_verified bs →
               Candidate temp1 (size_of bs) "PNG compress_level=9" ∈ strategies s;
}.

(** Running [m] from a state where [k] scratch files are done leaves
    [k'] done when it returns, and some number when it raises. *)
Definition advances (fs : gmap string bytes) (m : M unit) (k k' : nat) : Prop :=
  ∀ s, inv fs k s →
       wp m (λ r s' _, match r with
                       | Ok _ => inv fs k' s'
                       | Raise _ => ∃ j, inv fs j s'
                       end) s.

End Verification.

(** ** Two implementations of the library interface

    [RefLib] stores an image uncompressed: a four-byte header (mode tag,
    width, height, palette length), the palette as RGBA quadruples, then
    the samples.  It writes the modes PNG can hold and refuses the
    others, ignores [bits] (as the library does for images that are not
    palette images), and builds an exact palette from the distinct pixel
    values.
    [CorruptLib] writes like [RefLib] and decodes every file to an empty
    image.
    With both the working directory has no subdirectories and no other
    directory exists. *)

Module Ref.

Definition byte_of_Z (z : Z) : option byte :=
  if bool_decide (0 ≤ z < 256) then Byte.of_N (Z.to_N z) else None.

Definition Z_of_byte (b : byte) : Z := Z.of_N (Byte.to_N b).

(** Tag and number of samples per pixel of the writable modes *)
Definition mode_tag (m : string) : option (Z * nat) :=
  if bool_decide (m = "P") then Some (0, 1%nat)
  else if bool_decide (m = "L") then Some (1, 1%nat)
  else if bool_decide (m = "RGB") then Some (3, 3%nat)
  else if bool_decide (m = "RGBA") then Some (4, 4%nat)
  else None.

Definition tag_mode (t : Z) : option (string * nat) :=
  if bool_decide (t = 0) then Some ("P", 1%nat)
  else if bool_decide (t = 1) then Some ("L", 1%nat)
  else if bool_decide (t = 3) then Some ("RGB", 3%nat)
  else if bool_decide (t = 4) then Some ("RGBA", 4%nat)
  else None.

Definition samples (bands : nat) (p : pixel) : option (list Z) :=
  match p with
  | PInt v => if bool_decide (bands = 1%nat) then Some [v] else None
  | PTuple l =>
      if bool_decide (bands ≠ 1%nat ∧ length l = bands) then Some l else None
  end.

Definition save (img : image) (bits : option Z) : option bytes :=
  '(tag, bands) ← mode_tag (mode img);
  guard (Z.of_nat (length (pixels img)) = width img * height img);;
  guard (Forall (λ e, length e = 4%nat) (palette img));;
  header ← mapM byte_of_Z [tag; width img; height img;
                           Z.of_nat (length (palette img))];
  pal ← mapM byte_of_Z (concat (palette img));
  data ← mapM (samples bands) (pixels img);
  body ← mapM byte_of_Z (concat data);
  Some (header ++ pal ++ body).

(** [count] consecutive groups of [n] elements *)
Fixpoint chunks (n count : nat) (l : list Z) : list (list Z) :=
  match count with
  | O => []
  | S c => take n l :: chunks n c (drop n l)
  end.

Definition open (bs : bytes) : option image :=
  match Z_of_byte <$> bs with
  | tag :: w :: h :: np :: rest =>
      '(m, bands) ← tag_mode tag;
      let plen := (4 * Z.to_nat np)%nat in
      let data := drop plen rest in
      guard (plen ≤ length rest)%nat;;
      guard (Z.of_nat (length data) = Z.of_nat bands * (w * h));;
      Some {| mode := m; width := w; height := h;
              pixels := if bool_decide (bands = 1%nat) then PInt <$> data
                        else PTuple <$> chunks bands (Z.to_nat (w * h)) data;
              palette := chunks 4 (Z.to_nat np) (take plen rest) |}
  | _ => None
  end.

Definition rgba_of_pixel (p : pixel) : list Z :=
  match p with
  | PInt v => [v; v; v; 255]
  | PTuple [r; g; b] => [r; g; b; 255]
  | PTuple l => l
  end.

(** Position of [p] in [l], 0 when absent *)
Fixpoint index_of (p : pixel) (l : list pixel) : Z :=
  match l with
  | [] => 0
  | q :: l' => if bool_decide (p = q) then 0
               else if bool_decide (p ∈ l') then 1 + index_of p l' else 0
  end.

Definition to_palette (img : image) (colors : Z) : option image :=
  guard (mode img ∈ ["L"; "RGB"; "RGBA"]);;
  guard (1 ≤ colors ≤ 256);;
  let table := take (Z.to_nat colors) (remove_dups (pixels img)) in
  Some {| mode := "P"; width := width img; height := height img;
          pixels := (λ p, PInt (index_of p table)) <$> pixels img;
          palette := rgba_of_pixel <$> table |}.

Definition of_rgba (m : string) (e : list Z) : option pixel :=
  match e with
  | [r; g; b; a] =>
      if bool_decide (m = "L") then Some (PInt ((299 * r + 587 * g + 114 * b) / 1000))
      else if bool_decide (m = "RGB") then Some (PTuple [r; g; b])
      else if bool_decide (m = "RGBA") then Some (PTuple [r; g; b; a])
      else None
  | _ => None
  end.

Definition to_mode (img : image) (m : string) : option image :=
  if bool_decide (mode img = m) then Some img
  else if bool_decide (mode img = "P") then
    px ← mapM (λ p, match p with
                    | PInt i => palette img !! Z.to_nat i ≫= of_rgba m
                    | PTuple _ => None
                    end) (pixels img);
    Some {| mode := m; width := width img; height := height img;
            pixels := px; palette := [] |}
  else None.

End Ref.

Definition RefLib : ImageLib := {|
  png_save := Ref.save;
  png_open := Ref.open;
  convert_adaptive := Ref.to_palette;
  convert := Ref.to_mode;
  dir_exists := λ _, false;
|}.

Definition CorruptLib : ImageLib := {|
  png_save := Ref.save;
  png_open := λ _, Some (Image "L" 0 0 [] []);
  convert_adaptive := Ref.to_palette;
  convert := Ref.to_mode;
  dir_exists := λ _, false;
|}.

(** The local variables as lines 34-37 leave them *)
Definition start (fs : gmap string bytes) : state :=
  {| files := fs; best_size := PosInf; best_file := None; strategies := [] |}.

Definition gray1 : image := Image "L" 1 1 [PInt 7] [].
Definition rgb8 : image :=
  Image "RGB" 4 2 [PTuple [255;0;0]; PTuple [0;0;255]; PTuple [255;0;0]; PTuple [0;0;255];
                   PTuple [255;0;0]; PTuple [0;0;255]; PTuple [255;0;0]; PTuple [0;0;255]] [].


(** An RGB image of 20 x 15 pixels with 300 distinct colours *)
Definition rgb300 : image :=
  Image "RGB" 20 15
    ((λ i : nat, PTuple [Z.of_nat (i / 256); Z.of_nat (i mod 256); 0]) <$> seq 0 300)
    [].

(** An image in a mode that PNG cannot hold *)
Definition cmyk1 : image := Image "CMYK" 1 1 [PTuple [0; 0; 0; 0]] [].

(** ** Further predicates *)

(** The lines of the listing of line 133 *)
Definition listing (l : list candidate) : list line :=
  (λ c, PMethod (cand_size c) (cand_method c)) <$> sorted_by_size l.

(** [m] raises only exceptions that satisfy [E]. *)
Definition raises_only {A} (E : exn → Prop) (m : M A) : Prop :=
  ∀ s, wp m (λ r _ _, ∀ e, r = Raise e → E e) s.

(** [m] only appends candidates to [strategies], and only candidates
    whose scratch file satisfies [F]. *)
Definition only_ranks (F : string → Prop) (m : M unit) : Prop :=
  ∀ s, wp m (λ _ s' _,
    ∃ new, strategies s' = strategies s ++ new
           ∧ ∀ c, c ∈ new → F (cand_file c)) s.

(** The scratch files that the strategies applicable to [img] use *)
Definition may_rank (img : image) (f : string) : Prop :=
  f = temp1
  ∨ (f = temp2 ∧ unique_colors (pixels img) ≤ 256
     ∧ mode img ∈ ["RGB"; "RGBA"; "L"])
  ∨ f ∈ filter_files
  ∨ ∃ b, b ∈ [4; 2; 1] ∧ f = temp4 b ∧ mode img = "L"
         ∧ unique_colors (pixels img) ≤ 2 ^ b.

(** [m] leaves the file [p] as it is. *)
Definition keeps (p : string) {A} (m : M A) : Prop :=
  ∀ s, wp m (λ _ s' _, files s' !! p = files s !! p) s.

(** Two states with the same local variables whose directories hold the
    same content at the files in [P], at the files of the ranked
    candidates and at the best file. *)
Definition agree (P : string → Prop) (s1 s2 : state) : Prop :=
  best_size s1 = best_size s2 ∧ best_file s1 = best_file s2
  ∧ strategies s1 = strategies s2
  ∧ ∀ f, P f ∨ f ∈ cand_file <$> strategies s1 ∨ best_file s1 = Some f →
         files s1 !! f = files s2 !! f.

(** [m] reads the directory at such files only: from states that agree
    it gives the same result and the same output, in states that agree. *)
Definition oblivious {A} (P : string → Prop) (m : M A) : Prop :=
  ∀ s1 s2, agree P s1 s2 →
    result_of (m s1) = result_of (m s2)
    ∧ output_of (m s1) = output_of (m s2)
    ∧ agree P (state_of (m s1)) (state_of (m s2)).

(** [m] never prints the line [l]. *)
Definition never_prints {A} (l : line) (m : M A) : Prop :=
  ∀ s, l ∉ output_of (m s).

(** ** The script (lines 188-196) *)

Definition input_file : string := "download.png".
Definition output_file : string := "compressed_lossless_under_400.png".

(** How the script ends: with the run of the function, or with the two
    messages of lines 195-196 *)
Inductive main_outcome :=
  | Ran (x : result (option string * pynum) * state * list line)
  | NotFound (messages : list string) (s : state).

Section Script.
Context {lib : ImageLib}.

(** Lines 188-196 *)
Definition main (s : state) : main_outcome :=
  if bool_decide (is_Some (files s !! input_file)) then
    Ran (ultra_compress_lossless input_file output_file 400 s)
  else
    NotFound ["Error: '" +:+ input_file +:+ "' not found!";
              "Save your image as 'image.png' in the same directory."] s.

End Script.

(** * The latency endpoint: [eshopco-latency/api/latency.py]

    The telemetry file is not part of the sources: the records it holds
    are a parameter, each with the three keys the handler reads.
    Numbers are Python floats; their comparison and the two numpy
    reductions are an interface. *)

Class PyFloat := {
  num : Type;
  (** [a > b] *)
  py_gt : num → num → bool;
  (** [float(np.mean(xs))] *)
  np_mean : list num → num;
  (** [float(np.percentile(xs, q))] *)
  np_percentile : list num → Z → num;
}.

Section Latency.
Context {fl : PyFloat}.

(** An entry of [telemetry] *)
Record telemetry_record := TelemetryRecord {
  region : string;
  latency_ms : num;
  uptime_pct : num;
}.

(** [LatencyRequest] *)
Record LatencyRequest := {
  regions : list string;
  threshold_ms : num;
}.

(** A value of [response] *)
Record region_stats := RegionStats {
  avg_latency : num;
  p95_latency : num;
  avg_uptime : num;
  breaches : Z;
}.

(** [[r for r in telemetry if r["region"] == region]] *)
Definition records_of (telemetry : list telemetry_record) (r : string)
    : list telemetry_record :=
  filter (λ rec, region rec = r) telemetry.

(** Lines 43-49 *)
Definition stats_of (records : list telemetry_record) (threshold : num)
    : region_stats :=
  let latencies := latency_ms <$> records in
  let uptimes := uptime_pct <$> records in
  let breaches := Z.of_nat (length (filter (λ l, py_gt l threshold = true) latencies)) in
  {| avg_latency := np_mean latencies;
     p95_latency := np_percentile latencies 95;
     avg_uptime := np_mean uptimes;
     breaches := breaches |}.

(** The handler (lines 30-51) *)
Definition latency (telemetry : list telemetry_record) (req : LatencyRequest)
    : gmap string region_stats :=
  foldl (λ response r,
           let records := records_of telemetry r in
           match records with
           | [] => response
           | _ :: _ => <[r := stats_of records (threshold_ms req)]> response
           end)
        ∅ (regions req).

End Latency.

(** Exact rationals in place of floats, for closed runs: the mean is the
    exact quotient and the percentile interpolates linearly between the
    two nearest ranks, as numpy does by default. *)
Module RefFloat.

Definition mean (xs : list Q) : Q :=
  (foldr Qplus 0 xs / inject_Z (Z.of_nat (length xs)))%Q.

Definition le (a b : Q) : Prop := Qle_bool a b = true.

#[global] Instance le_dec a b : Decision (le a b).
Proof. unfold le. apply _. Defined.

Definition percentile (xs : list Q) (q : Z) : Q :=
  let sorted := merge_sort le xs in
  let h := (inject_Z (Z.of_nat (length xs) - 1) * (inject_Z q / 100))%Q in
  let lo := Z.to_nat (Qfloor h) in
  let a := nth lo sorted 0%Q in
  let b := nth (S lo) sorted a in
  (a + (h - inject_Z (Qfloor h)) * (b - a))%Q.

End RefFloat.

Definition QFloat : PyFloat := {|
  num := Q;
  py_gt := λ a b, negb (Qle_bool a b);
  np_mean := RefFloat.mean;
  np_percentile := RefFloat.percentile;
|}.

Definition sample_telemetry : list (telemetry_record (fl:=QFloat)) :=
  [TelemetryRecord (fl:=QFloat) "apac" 100%Q 99%Q;
   TelemetryRecord (fl:=QFloat) "emea" 150%Q 97%Q;
   TelemetryRecord (fl:=QFloat) "apac" 200%Q 98%Q].

(** * Properties *)

(** ** The monad *)

Lemma run_bind {A B} (m : M A) (k : A → M B) (s : state) :
  (m ≫= k) s =
  match m s with
  | (Ok a, s1, o1) => (result_of (k a s1), state_of (k a s1), o1 ++ output_of (k a s1))
  | (Raise e, s1, o1) => (Raise e, s1, o1)
  end.
Proof.
  unfold mbind, M_bind, result_of, state_of, output_of.
  destruct (m s) as [[[a|e] s1] o1]; [|done].
  by destruct (k a s1) as [[r s2] o2].
Qed.

Lemma py_lt_Int (a b : Z) : py_lt (Int a) (Int b) = bool_decide (a < b).
Proof. done. Qed.

(** ** Selection *)

Lemma selected_start fs : selected (start fs).
Proof. done. Qed.

Lemma recorded_files c s : files (recorded c s) = files s.
Proof.
  unfold recorded, record_candidate, state_of.
  by destruct (py_lt _ _).
Qed.

Lemma recorded_strategies c s : strategies (recorded c s) = strategies s ++ [c].
Proof.
  unfold recorded, record_candidate, state_of.
  destruct c; by destruct (py_lt _ _).
Qed.

Lemma first_minimum_snoc_keep l i best c :
  first_minimum l i best → cand_size best ≤ cand_size c →
  first_minimum (l ++ [c]) i best.
Proof.
  intros (Hi & Hmin & Hfirst) Hle. split_and!.
  - by apply lookup_app_l_Some.
  - intros d [Hd | ->%list_elem_of_singleton]%elem_of_app; auto.
  - intros j d Hj Hd. apply (Hfirst j d Hj).
    apply lookup_lt_Some in Hi.
    rewrite lookup_app_l in Hd; [done | lia].
Qed.

Lemma first_minimum_snoc_new l i best c :
  first_minimum l i best → cand_size c < cand_size best →
  first_minimum (l ++ [c]) (length l) c.
Proof.
  intros (Hi & Hmin & Hfirst) Hlt. split_and!.
  - by rewrite lookup_app_r, Nat.sub_diag.
  - intros d [Hd | ->%list_elem_of_singleton]%elem_of_app; [|lia].
    specialize (Hmin d Hd). lia.
  - intros j d Hj Hd. rewrite lookup_app_l in Hd by done.
    apply list_elem_of_lookup_2 in Hd. specialize (Hmin d Hd). lia.
Qed.

Lemma selected_recorded c s : selected s → selected (recorded c s).
Proof.
  unfold selected, recorded, record_candidate, state_of.
  destruct c as [f sz nm]; cbn [cand_file cand_size cand_method].
  destruct (best_file s) as [g|] eqn:Hbf.
  - intros (i & best & Hmin & Hg & Hsz). rewrite Hsz, py_lt_Int.
    case_bool_decide; cbn [fst snd best_file best_size strategies].
    + exists (length (strategies s)), (Candidate f sz nm).
      split_and!; [|done..]. by eapply first_minimum_snoc_new.
    + exists i, best. split_and!; [|done..].
      apply first_minimum_snoc_keep; [done | simpl; lia].
  - intros [Hnil Hinf]. rewrite Hinf, Hnil.
    cbn [py_lt fst snd best_file best_size strategies app].
    exists 0%nat, (Candidate f sz nm). split_and!; [|done..].
    split_and!; [done | | intros; lia].
    by intros d ->%list_elem_of_singleton.
Qed.

(** ** Weakest preconditions *)

Lemma wp_bind {A B} (m : M A) (k : A → M B) Q s :
  wp m (λ r s1 o1,
    match r with
    | Ok a => wp (k a) (λ r2 s2 o2, Q r2 s2 (o1 ++ o2)) s1
    | Raise e => Q (Raise e) s1 o1
    end) s →
  wp (m ≫= k) Q s.
Proof.
  unfold wp. rewrite run_bind.
  by destruct (m s) as [[[a|e] s1] o1].
Qed.

Lemma wp_ret {A} (a : A) (Q : result A → state → list line → Prop) s :
  Q (Ok a) s [] → wp (mret a) Q s.
Proof. done. Qed.

Lemma wp_raise {A} e (Q : result A → state → list line → Prop) s :
  Q (Raise e) s [] → wp (raise e) Q s.
Proof. done. Qed.

Lemma wp_print l (Q : result unit → state → list line → Prop) s :
  Q (Ok tt) s [l] → wp (print l) Q s.
Proof. done. Qed.

Lemma wp_try_pass m (Q : result unit → state → list line → Prop) s :
  wp m (λ _ s1 o1, Q (Ok tt) s1 o1) s → wp (try_pass m) Q s.
Proof.
  unfold wp, try_pass, result_of, state_of, output_of.
  by destruct (m s) as [[r s1] o1].
Qed.

Lemma wp_getsize path (Q : result Z → state → list line → Prop) s :
  (∀ bs, files s !! path = Some bs → Q (Ok (size_of bs)) s []) →
  (files s !! path = None → Q (Raise FileNotFoundError) s []) →
  wp (getsize path) Q s.
Proof.
  unfold wp, getsize, result_of, state_of, output_of.
  intros Hsome Hnone.
  destruct (files s !! path) as [bs|]; [by apply Hsome | by apply Hnone].
Qed.

Lemma wp_path_exists path (Q : result bool → state → list line → Prop) s :
  Q (Ok (bool_decide (is_Some (files s !! path)))) s [] →
  wp (path_exists path) Q s.
Proof. done. Qed.

Lemma wp_os_remove path (Q : result unit → state → list line → Prop) s :
  (is_Some (files s !! path) → Q (Ok tt) (set_files (delete path) s) []) →
  (files s !! path = None → Q (Raise FileNotFoundError) s []) →
  wp (os_remove path) Q s.
Proof.
  unfold wp, os_remove, result_of, state_of, output_of.
  destruct (files s !! path); eauto.
Qed.

Lemma wp_record_candidate temp size method
    (Q : result unit → state → list line → Prop) s :
  Q (Ok tt) (recorded (Candidate temp size method) s) [] →
  wp (record_candidate temp size method) Q s.
Proof.
  unfold wp, recorded, record_candidate, result_of, state_of, output_of.
  cbn [cand_file cand_size cand_method]. by destruct (py_lt _ _).
Qed.

Lemma wp_mono {A} (m : M A) (Q Q' : result A → state → list line → Prop) s :
  wp m Q s → (∀ r s' o, Q r s' o → Q' r s' o) → wp m Q' s.
Proof. unfold wp. auto. Qed.

Section Calls.
Context {lib : ImageLib}.

Lemma wp_img_save img path bits (Q : result unit → state → list line → Prop) s :
  (∀ bs, png_save img bits = Some bs →
         Q (Ok tt) (set_files <[path := bs]> s) []) →
  (png_save img bits = None → Q (Raise CodecError) s []) →
  wp (img_save img path bits) Q s.
Proof.
  unfold wp, img_save, result_of, state_of, output_of.
  intros Hsome Hnone.
  destruct (png_save img bits) as [x|]; [by apply Hsome | by apply Hnone].
Qed.

Lemma wp_image_open path (Q : result image → state → list line → Prop) s :
  (∀ bs v, files s !! path = Some bs → png_open bs = Some v → Q (Ok v) s []) →
  (∀ bs, files s !! path = Some bs → png_open bs = None →
         Q (Raise CodecError) s []) →
  (files s !! path = None → Q (Raise FileNotFoundError) s []) →
  wp (image_open path) Q s.
Proof.
  unfold wp, image_open, result_of, state_of, output_of.
  intros Hok Hbad Hnone.
  destruct (files s !! path) as [bs|]; [|by apply Hnone].
  destruct (png_open bs) as [v|] eqn:Hv; [by apply (Hok bs) | by apply (Hbad bs)].
Qed.

Lemma wp_img_convert_adaptive img colors
    (Q : result image → state → list line → Prop) s :
  (∀ p, convert_adaptive img colors = Some p → Q (Ok p) s []) →
  (convert_adaptive img colors = None → Q (Raise CodecError) s []) →
  wp (img_convert_adaptive img colors) Q s.
Proof.
  unfold wp, img_convert_adaptive, result_of, state_of, output_of.
  intros Hsome Hnone.
  destruct (convert_adaptive img colors) as [x|]; [by apply Hsome | by apply Hnone].
Qed.

Lemma wp_img_convert img m (Q : result image → state → list line → Prop) s :
  (∀ p, convert img m = Some p → Q (Ok p) s []) →
  (convert img m = None → Q (Raise CodecError) s []) →
  wp (img_convert img m) Q s.
Proof.
  unfold wp, img_convert, result_of, state_of, output_of.
  intros Hsome Hnone.
  destruct (convert img m) as [x|]; [by apply Hsome | by apply Hnone].
Qed.

End Calls.

Lemma wp_get_strategies (Q : result (list candidate) → state → list line → Prop) s :
  Q (Ok (strategies s)) s [] → wp get_strategies Q s.
Proof. done. Qed.

Lemma wp_get_best_size (Q : result pynum → state → list line → Prop) s :
  Q (Ok (best_size s)) s [] → wp get_best_size Q s.
Proof. done. Qed.

Lemma wp_get_best_file (Q : result (option string) → state → list line → Prop) s :
  Q (Ok (best_file s)) s [] → wp get_best_file Q s.
Proof. done. Qed.

Lemma wp_open_rb path (Q : result unit → state → list line → Prop) s :
  (is_Some (files s !! path) → Q (Ok tt) s []) →
  (files s !! path = None → Q (Raise FileNotFoundError) s []) →
  wp (open_rb path) Q s.
Proof.
  unfold wp, open_rb, result_of, state_of, output_of. intros Hsome Hnone.
  destruct (files s !! path); [by apply Hsome | by apply Hnone].
Qed.

Lemma wp_open_wb {lib : ImageLib} path
    (Q : result unit → state → list line → Prop) s :
  (can_create path = true → Q (Ok tt) (set_files <[path := []]> s) []) →
  (can_create path = false → Q (Raise FileNotFoundError) s []) →
  wp (open_wb path) Q s.
Proof. unfold wp, open_wb. destruct (can_create path); auto. Qed.

Lemma wp_read_all path (Q : result bytes → state → list line → Prop) s :
  Q (Ok (default [] (files s !! path))) s [] → wp (read_all path) Q s.
Proof. done. Qed.

Lemma wp_write_all path data (Q : result unit → state → list line → Prop) s :
  Q (Ok tt) (set_files <[path := data]> s) [] → wp (write_all path data) Q s.
Proof. done. Qed.

Lemma set_files_id s : set_files (λ _, files s) s = s.
Proof. by destruct s. Qed.

Ltac wp_call :=
  lazymatch goal with
  | |- wp (mbind _ _) _ _ => apply wp_bind
  | |- wp (mret _) _ _ => apply wp_ret
  | |- wp (raise _) _ _ => apply wp_raise
  | |- wp (print _) _ _ => apply wp_print
  | |- wp (try_pass _) _ _ => apply wp_try_pass
  | |- wp (getsize _) _ _ => apply wp_getsize; intros
  | |- wp (path_exists _) _ _ => apply wp_path_exists
  | |- wp (os_remove _) _ _ => apply wp_os_remove; intros
  | |- wp (record_candidate _ _ _) _ _ => apply wp_record_candidate
  | |- wp (img_save _ _ _) _ _ => apply wp_img_save; intros
  | |- wp (image_open _) _ _ => apply wp_image_open; intros
  | |- wp (img_convert_adaptive _ _) _ _ => apply wp_img_convert_adaptive; intros
  | |- wp (img_convert _ _) _ _ => apply wp_img_convert; intros
  | |- wp get_strategies _ _ => apply wp_get_strategies
  | |- wp get_best_size _ _ => apply wp_get_best_size
  | |- wp get_best_file _ _ => apply wp_get_best_file
  | |- wp (open_rb _) _ _ => apply wp_open_rb; intros
  | |- wp (open_wb _) _ _ => apply wp_open_wb; intros
  | |- wp (read_all _) _ _ => apply wp_read_all
  | |- wp (write_all _ _) _ _ => apply wp_write_all
  | |- wp (when ?b _) _ _ => unfold when at 1; destruct b eqn:?
  | |- wp (if ?b then _ else _) _ _ => destruct b eqn:?
  end.

Ltac wp_run :=
  repeat (wp_call; cbn [files set_files] in *; simplify_map_eq; cbn beta iota).

(** ** One attempt on one scratch file *)

Lemma scratch_NoDup : NoDup scratch.
Proof. apply (bool_decide_unpack _). by vm_compute. Qed.

Section Attempts.
Context {lib : ImageLib} (img : image).

Lemma touched_same f s : touched img f s s.
Proof. apply (touched_file img f s s (files s)); [done | by rewrite set_files_id]. Qed.

Lemma touched_write f bs s : touched img f s (set_files <[f := bs]> s).
Proof.
  apply (touched_file img f s _ (<[f := bs]> (files s))); [|done].
  intros p Hp. by rewrite lookup_insert_ne.
Qed.

Lemma touched_delete f bs s :
  touched img f s (set_files (delete f) (set_files <[f := bs]> s)).
Proof.
  apply (touched_file img f s _ (delete f (<[f := bs]> (files s)))); [|done].
  intros p Hp. by rewrite lookup_delete_ne, lookup_insert_ne.
Qed.

Lemma strategy1_touched s :
  wp (strategy1 img) (λ _ s' _,
    touched img temp1 s s'
    ∧ ∀ bs, png_save img None = Some bs → raw_verified img bs →
            Candidate temp1 (size_of bs) "PNG compress_level=9" ∈ strategies s') s.
Proof.
  unfold strategy1. wp_run.
  - apply bool_decide_eq_true in Heqb. split.
    + eapply touched_recorded; [|done..].
      unfold verified. rewrite decide_False by done. by exists v.
    + intros bs0 ? _. simplify_eq. rewrite recorded_strategies.
      apply elem_of_app. right. by apply list_elem_of_singleton.
  - apply bool_decide_eq_false in Heqb. split; [apply touched_delete|].
    intros bs0 ? (v0 & ? & ?). by simplify_eq.
  - split; [apply touched_write|].
    intros bs0 ? (v0 & ? & ?). by simplify_eq.
  - split; [apply touched_same|]. intros bs0 ?. by simplify_eq.
Qed.

Lemma temp2_not_plain : temp2 ∉ temp1 :: filter_files.
Proof. apply (bool_decide_unpack _). by vm_compute. Qed.

Lemma strategy2_touched s :
  wp (strategy2 img) (λ _ s' _, touched img temp2 s s') s.
Proof.
  unfold strategy2.
  wp_run; try apply touched_same; try apply touched_write;
    try apply touched_delete.
  all: apply bool_decide_eq_true in Heqb1.
  all: eapply touched_recorded; [|by intros ?%temp2_not_plain|done].
  all: unfold verified; rewrite decide_True by done; by exists v, p0.
Qed.

Lemma filter_attempt_touched k s :
  temp3 k ≠ temp2 →
  wp (filter_attempt img k) (λ r s' _, r = Ok tt ∧ touched img (temp3 k) s s') s.
Proof.
  intros Hk. unfold filter_attempt.
  wp_run; (split; [done|]); try apply touched_same; try apply touched_write.
  apply bool_decide_eq_true in Heqb.
  eapply touched_recorded; [|done..].
  unfold verified. rewrite decide_False by done. by exists v.
Qed.

Lemma bits_attempt_touched levels b s :
  temp4 b ≠ temp2 → temp4 b ∉ temp1 :: filter_files →
  wp (bits_attempt img levels b) (λ _ s' _, touched img (temp4 b) s s') s.
Proof.
  intros Hb Hplain. unfold bits_attempt.
  wp_run; try apply touched_same; try apply touched_write.
  apply bool_decide_eq_true in Heqb1.
  eapply touched_recorded; [|done..].
  unfold verified. rewrite decide_False by done. by exists v.
Qed.

(** ** The invariant of candidate generation *)

Lemma selected_set_files g s : selected (set_files g s) ↔ selected s.
Proof. done. Qed.

Lemma inv_start fs : inv img fs 0 (start fs).
Proof.
  split; [apply selected_start | apply sublist_nil_l | by constructor | done |].
  intros; lia.
Qed.

Lemma inv_touched fs k f s s' :
  scratch !! k = Some f →
  inv img fs k s →
  touched img f s s' →
  (k = 0%nat → ∀ bs, png_save img None = Some bs → raw_verified img bs →
     Candidate temp1 (size_of bs) "PNG compress_level=9" ∈ strategies s') →
  inv img fs (S k) s'.
Proof.
  intros Hf [Hsel Hord Hcand Hframe Hdir] Htouched Hfirst.
  assert (Hfresh : ∀ c, c ∈ strategies s → cand_file c ≠ f).
  { intros c Hc Heq.
    assert (Hin : f ∈ take k scratch).
    { eapply elem_of_sublist; [|done].
      rewrite <- Heq. by apply list_elem_of_fmap_2. }
    apply list_elem_of_lookup in Hin as [j Hj].
    pose proof (lookup_lt_Some _ _ _ Hj) as Hlt. rewrite length_take in Hlt.
    rewrite lookup_take_lt in Hj by lia.
    pose proof (NoDup_lookup _ _ _ _ scratch_NoDup Hj Hf). lia. }
  assert (Hnot : f ∈ scratch) by (by eapply list_elem_of_lookup_2).
  destruct Htouched as [g Hg -> | bs method Hver Hplain ->].
  - split; cbn [files strategies set_files].
    + done.
    + rewrite (take_S_r _ _ _ Hf). by apply sublist_inserts_r.
    + apply Forall_forall. intros c Hc.
      rewrite Forall_forall in Hcand.
      destruct (Hcand c Hc) as (bs & Hbs & ?).
      exists bs. split; [|done]. cbn [files set_files].
      rewrite Hg; [done | by apply Hfresh].
    + intros p Hp. rewrite Hg; [by apply Hframe|]. by intros ->.
    + intros bs Hk. destruct k as [|k]; [by apply Hfirst|].
      apply Hdir. lia.
  - split.
    + by apply selected_recorded.
    + rewrite (take_S_r _ _ _ Hf), recorded_strategies, fmap_app.
      by apply sublist_app.
    + rewrite recorded_strategies. apply Forall_app. split.
      * apply Forall_forall. intros c Hc.
        rewrite Forall_forall in Hcand.
        destruct (Hcand c Hc) as (bs' & Hbs & ?).
        exists bs'. split; [|done]. rewrite recorded_files. cbn [files set_files].
        rewrite lookup_insert_ne; [done|]. intros Heq. by apply (Hfresh c).
      * apply Forall_singleton. exists bs. rewrite recorded_files.
        cbn [files set_files cand_file cand_size]. by rewrite lookup_insert_eq.
    + intros p Hp. rewrite recorded_files. cbn [files set_files].
      rewrite lookup_insert_ne; [by apply Hframe|]. by intros ->.
    + intros bs' Hk. destruct k as [|k]; [by apply Hfirst|].
      intros ??. rewrite recorded_strategies. apply elem_of_app. left.
      apply Hdir; [lia|done..].
Qed.

Lemma inv_skip fs k s : (1 ≤ k)%nat → inv img fs k s → inv img fs (S k) s.
Proof.
  intros Hk Hinv.
  destruct (scratch !! k) as [f|] eqn:Hf.
  - eapply inv_touched; [done.. | apply touched_same | lia].
  - destruct Hinv as [? Hord ? ? ?]. split; try done.
    + rewrite take_ge in Hord |- *; [done | |]; apply lookup_ge_None in Hf; lia.
    + auto.
Qed.

Lemma advances_bind fs m1 m2 k1 k2 k3 :
  advances img fs m1 k1 k2 → advances img fs m2 k2 k3 → advances img fs (m1;; m2) k1 k3.
Proof.
  intros H1 H2 s Hs. apply wp_bind. eapply wp_mono; [by apply H1|].
  intros [[]|e] s1 o1 Hinv; [|done].
  eapply wp_mono; [by apply H2|]. by intros [[]|e] s2 o2 ?.
Qed.

Lemma advances_print fs l k : advances img fs (print l) k k.
Proof. intros s Hs. by apply wp_print. Qed.

Lemma advances_attempt fs m k f :
  scratch !! k = Some f → (1 ≤ k)%nat →
  (∀ s, wp m (λ _ s' _, touched img f s s') s) →
  advances img fs m k (S k).
Proof.
  intros Hf Hk Hm s Hs. eapply wp_mono; [apply Hm|].
  intros r s' o Ht. cbn beta in Ht.
  assert (inv img fs (S k) s') by (eapply inv_touched; [done..|lia]).
  destruct r; eauto.
Qed.

Lemma strategy1_advances fs : advances img fs (strategy1 img) 0 1.
Proof.
  intros s Hs. eapply wp_mono; [apply strategy1_touched|].
  intros r s' o [Ht Hdir].
  assert (inv img fs 1 s') by (by eapply inv_touched).
  destruct r; eauto.
Qed.

Lemma strategy2_advances fs : advances img fs (strategy2 img) 1 2.
Proof. apply (advances_attempt _ _ _ temp2); [done | lia | apply strategy2_touched]. Qed.

Lemma filter_attempt_advances fs i k :
  scratch !! i = Some (temp3 k) → (1 ≤ i)%nat → temp3 k ≠ temp2 →
  advances img fs (filter_attempt img k) i (S i).
Proof.
  intros Hi ? Hk. apply (advances_attempt _ _ _ (temp3 k)); [done..|].
  intros s. eapply wp_mono; [by apply filter_attempt_touched|]. by intros r s' o [_ ?].
Qed.

Lemma strategy3_advances fs : advances img fs (strategy3 img) 2 7.
Proof.
  unfold strategy3. eapply advances_bind; [apply advances_print|].
  cbn [for_each].
  repeat (eapply advances_bind;
    [apply filter_attempt_advances; [by vm_compute | lia | by vm_compute]|]).
  intros s Hs. by apply wp_ret.
Qed.

Lemma bits_attempt_advances fs levels i b :
  scratch !! i = Some (temp4 b) → (1 ≤ i)%nat →
  temp4 b ≠ temp2 → temp4 b ∉ temp1 :: filter_files →
  advances img fs (bits_attempt img levels b) i (S i).
Proof.
  intros Hi ? Hb Hplain. apply (advances_attempt _ _ _ (temp4 b)); [done..|].
  intros s. by apply bits_attempt_touched.
Qed.

Lemma strategy4_advances fs : advances img fs (strategy4 img) 7 10.
Proof.
  unfold strategy4, when. destruct (bool_decide (mode img = "L")).
  - eapply advances_bind; [apply advances_print|].
    cbn [for_each].
    repeat (eapply advances_bind;
      [apply bits_attempt_advances;
         [by vm_compute | lia | by vm_compute
         | apply (bool_decide_unpack _); by vm_compute]|]).
    intros s Hs. by apply wp_ret.
  - intros s Hs. apply wp_ret. do 3 (apply inv_skip; [lia|]). done.
Qed.

Lemma collect_advances fs : advances img fs (collect img) 0 10.
Proof.
  unfold collect.
  eapply advances_bind; [apply strategy1_advances|].
  eapply advances_bind; [apply strategy2_advances|].
  eapply advances_bind; [apply strategy3_advances|apply strategy4_advances].
Qed.

End Attempts.

(** ** The report *)

Section Report.
Context {lib : ImageLib}.

(** Printing loops only print. *)
Lemma wp_for_each_print {A} (xs : list A) (f : A → line)
    (Q : result unit → state → list line → Prop) s :
  Q (Ok tt) s (f <$> xs) → wp (for_each xs (λ x, print (f x))) Q s.
Proof.
  revert Q. induction xs as [|x xs IH]; intros Q HQ; [done|].
  cbn [for_each]. apply wp_bind, wp_print. cbn beta iota. by apply IH.
Qed.

Lemma removal_for_each (P : candidate → string → Prop) tried body :
  (∀ c, removal (P c) (body c)) →
  removal (λ p, ∃ c, c ∈ tried ∧ P c p) (for_each tried body).
Proof.
  intros Hbody. induction tried as [|c tried IH]; intros s.
  - apply wp_ret. split_and!; [done..|].
    exists (files s). by rewrite set_files_id.
  - cbn [for_each]. apply wp_bind. eapply wp_mono; [apply Hbody|].
    intros r s1 o1 (-> & -> & g1 & -> & Hsub1 & Hg1).
    eapply wp_mono; [apply IH|].
    intros r s2 o2 (-> & -> & g2 & -> & Hsub2 & Hg2).
    cbn [files set_files] in *.
    split_and!; [done..|]. exists g2. split_and!; [done | by etrans |].
    intros p Hp. rewrite Hg2, Hg1; [done | |].
    + intros ?. apply Hp. exists c. split; [apply list_elem_of_here | done].
    + intros (d & ? & ?). apply Hp. exists d. split; [by apply list_elem_of_further | done].
Qed.

Lemma removal_remove_if_exists f :
  removal (λ p, p = f)
    (try_pass (there ← path_exists f; when there (os_remove f))).
Proof.
  intros s. apply wp_try_pass, wp_bind, wp_path_exists. cbn beta iota.
  unfold when. case_bool_decide as Hf.
  - apply wp_os_remove; [|by intros Hn; rewrite Hn in Hf; destruct Hf].
    intros _. split_and!; [done..|].
    exists (delete f (files s)). split_and!; [done | apply delete_subseteq |].
    intros p Hp. by rewrite lookup_delete_ne.
  - apply wp_ret. split_and!; [done..|].
    exists (files s). by rewrite set_files_id.
Qed.

Lemma removal_skip P : removal P (mret tt).
Proof.
  intros s. apply wp_ret. split_and!; [done..|].
  exists (files s). by rewrite set_files_id.
Qed.

Lemma removal_mono (P P' : string → Prop) m :
  (∀ p, P p → P' p) → removal P m → removal P' m.
Proof.
  intros HP Hm s. eapply wp_mono; [apply Hm|].
  intros r s' o (? & ? & g & ? & ? & Hg). split_and!; [done..|].
  exists g. split_and!; [done..|]. intros p Hp. apply Hg. auto.
Qed.

End Report.

Section ReportSpecs.
Context {lib : ImageLib}.

Lemma removal_try_skip P : removal P (try_pass (mret tt)).
Proof.
  intros s. apply wp_try_pass, wp_ret. split_and!; [done..|].
  exists (files s). by rewrite set_files_id.
Qed.

Lemma cleanup_all_removal tried :
  removal (λ p, p ∈ cand_file <$> tried)
    (for_each tried (λ c,
       try_pass (there ← path_exists (cand_file c);
                 when there (os_remove (cand_file c))))).
Proof.
  eapply removal_mono;
    [|apply (removal_for_each (λ c p, p = cand_file c));
      intros c; apply removal_remove_if_exists].
  intros p (c & Hc & ->). by apply list_elem_of_fmap_2.
Qed.

Lemma cleanup_others_removal tried (best_f : option string) :
  removal (λ p, p ∈ cand_file <$> tried ∧ Some p ≠ best_f)
    (for_each tried (λ c,
       try_pass (
         if bool_decide (Some (cand_file c) ≠ best_f) then
           there ← path_exists (cand_file c);
           when there (os_remove (cand_file c))
         else mret tt))).
Proof.
  eapply removal_mono;
    [|apply (removal_for_each (λ c p, p = cand_file c ∧ Some p ≠ best_f))].
  - intros p (c & Hc & -> & ?). split; [by apply list_elem_of_fmap_2 | done].
  - intros c. case_bool_decide as Hc.
    + eapply removal_mono; [|apply removal_remove_if_exists].
      by intros p ->.
    + apply removal_try_skip.
Qed.

Lemma wp_removal P m (Q : result unit → state → list line → Prop) s :
  removal P m →
  (∀ g, g ⊆ files s → (∀ p, ¬ P p → g !! p = files s !! p) →
        Q (Ok tt) (set_files (λ _, g) s) []) →
  wp m Q s.
Proof.
  intros Hm HQ. eapply wp_mono; [apply Hm|].
  intros r s' o (-> & -> & g & -> & ? & ?). by apply HQ.
Qed.

Lemma report_cannot_spec t s :
  wp (report_cannot t) (λ r s' o,
    r = Ok (None, best_size s)
    ∧ o = [PCannot (best_size s) t (py_sub (best_size s) t)]
    ∧ ∃ g, s' = set_files (λ _, g) s ∧ g ⊆ files s
           ∧ ∀ p, p ∉ cand_file <$> strategies s → g !! p = files s !! p) s.
Proof.
  unfold report_cannot. wp_run.
  eapply wp_removal; [apply cleanup_all_removal|].
  intros g Hsub Hg. cbn beta iota.
  apply wp_ret. split_and!; [done..|]. by exists g.
Qed.

Lemma report_success_locals img orig out t s :
  wp (report_success img orig out t) (λ r s' o,
    (∃ g, s' = set_files (λ _, g) s)
    ∧ ∀ p b, r = Ok (p, b) → p = Some out ∧ b = best_size s) s.
Proof.
  unfold report_success, copy_best. wp_run.
  destruct (best_file s) as [f|] eqn:Hf.
  - wp_run.
    + split; [|done]. eexists. unfold set_files. by cbn.
    + eapply wp_removal; [apply cleanup_others_removal|].
      intros g _ _. cbn beta iota. apply wp_ret.
      split; [by exists g|]. intros p b [= <- <-]. done.
    + split; [|done]. exists (files s). by rewrite set_files_id.
    + split; [|done]. exists (files s). by rewrite set_files_id.
  - wp_run. split; [|done]. exists (files s). by rewrite set_files_id.
Qed.

Lemma report_success_copies img orig out t s f bs :
  best_file s = Some f → files s !! f = Some bs →
  out ∉ cand_file <$> strategies s → out ≠ f → orig ≠ 0 →
  can_create out = true →
  wp (report_success img orig out t) (λ r s' o,
    r = Ok (Some out, best_size s)
    ∧ o = [PSuccess (best_size s) t;
           match best_size s with
           | Int b => PRatio (ratio_percent b orig)
           | PosInf => PRatioInf
           end;
           PSaved out; PAllIdentical (Z.of_nat (length (pixels img)))]
    ∧ files s' !! out = Some bs ∧ files s' !! f = Some bs
    ∧ (∀ p, p ≠ out → p ∉ cand_file <$> strategies s →
            files s' !! p = files s !! p)
    ∧ best_size s' = best_size s ∧ best_file s' = best_file s
    ∧ strategies s' = strategies s) s.
Proof.
  intros Hf Hbs Hout Hne Horig Hcan.
  unfold report_success, copy_best. wp_run; try congruence.
  rewrite Hf. wp_run; try congruence.
  { by apply bool_decide_eq_true in Heqb. }
  eapply wp_removal; [apply cleanup_others_removal|].
  intros g _ Hg. cbn beta iota. apply wp_ret.
  cbn [files set_files best_size best_file strategies] in *.
  split_and!; try done.
  - rewrite Hg; [by simplify_map_eq|]. by intros [? _].
  - rewrite Hg; [by simplify_map_eq|]. rewrite Hf. by intros [_ ?].
  - intros p Hp Hnot. rewrite Hg; [by simplify_map_eq|]. by intros [? _].
Qed.

Lemma wp_report img orig out t
    (Q : result (option string * pynum) → state → list line → Prop) s :
  (∀ pre, wp (if py_lt (best_size s) (Int t)
              then report_success img orig out t
              else report_cannot t)
             (λ r s' o, Q r s' (pre ++ PBest (best_size s) :: o)) s) →
  wp (report img orig out t) Q s.
Proof.
  intros HQ. unfold report. do 2 wp_call. cbn beta iota. wp_call.
  assert (∀ pre, wp
    (best ← get_best_size; print (PBest best);;
     if py_lt best (Int t) then report_success img orig out t
     else report_cannot t)
    (λ r s' o, Q r s' (pre ++ o)) s) as Hrest.
  { intros pre. do 2 wp_call. cbn beta iota. wp_call. wp_call. cbn beta iota.
    eapply wp_mono; [apply (HQ pre)|]. done. }
  unfold when. case_bool_decide.
  - apply wp_for_each_print. cbn beta iota. apply Hrest.
  - apply wp_ret. cbn beta iota. apply (Hrest []).
Qed.

Lemma report_locals img orig out t s :
  wp (report img orig out t) (λ r s' o,
    (∃ g, s' = set_files (λ _, g) s)
    ∧ ∀ p b, r = Ok (p, b) → b = best_size s) s.
Proof.
  apply wp_report. intros pre. destruct (py_lt _ _).
  - eapply wp_mono; [apply report_success_locals|].
    intros r s' o [? Hr]. split; [done|]. intros p b ?. by eapply Hr.
  - eapply wp_mono; [apply report_cannot_spec|].
    intros r s' o (-> & _ & g & -> & _). split; [by eauto|].
    by intros p b [= <- <-].
Qed.

Lemma report_cannot_case img orig out t s :
  py_lt (best_size s) (Int t) = false →
  wp (report img orig out t) (λ r s' o,
    r = Ok (None, best_size s)
    ∧ (∃ pre, o = pre ++ [PBest (best_size s);
                          PCannot (best_size s) t (py_sub (best_size s) t)])
    ∧ ∃ g, s' = set_files (λ _, g) s ∧ g ⊆ files s
           ∧ ∀ p, p ∉ cand_file <$> strategies s → g !! p = files s !! p) s.
Proof.
  intros Hlt. apply wp_report. intros pre. rewrite Hlt.
  eapply wp_mono; [apply report_cannot_spec|].
  intros r s' o (-> & -> & Hg). split_and!; [done | by exists pre | done].
Qed.

Lemma report_success_case img orig out t s f bs :
  py_lt (best_size s) (Int t) = true →
  best_file s = Some f → files s !! f = Some bs →
  out ∉ cand_file <$> strategies s → out ≠ f → orig ≠ 0 →
  can_create out = true →
  wp (report img orig out t) (λ r s' o,
    r = Ok (Some out, best_size s)
    ∧ (∃ pre, o = pre ++
         [PBest (best_size s); PSuccess (best_size s) t;
          match best_size s with
          | Int b => PRatio (ratio_percent b orig)
          | PosInf => PRatioInf
          end;
          PSaved out; PAllIdentical (Z.of_nat (length (pixels img)))])
    ∧ files s' !! out = Some bs ∧ files s' !! f = Some bs
    ∧ (∀ p, p ≠ out → p ∉ cand_file <$> strategies s →
            files s' !! p = files s !! p)) s.
Proof.
  intros Hlt Hf Hbs Hout Hne Horig Hcan. apply wp_report. intros pre. rewrite Hlt.
  eapply wp_mono; [by eapply report_success_copies|].
  intros r s' o (-> & -> & ? & ? & ? & _).
  split_and!; [done | by exists pre | done..].
Qed.

End ReportSpecs.

(** ** The whole run *)

Section Run.
Context {lib : ImageLib}.

Lemma run_print_bind {B} l (k : M B) s :
  (print l;; k) s = (result_of (k s), state_of (k s), l :: output_of (k s)).
Proof. by rewrite run_bind. Qed.

Lemma run_ret_bind {A B} (a : A) (k : A → M B) s : (mret a ≫= k) s = k a s.
Proof. rewrite run_bind. cbn. by destruct (k a s) as [[??]?]. Qed.

Lemma run_init_bind {B} (k : M B) s : (init_locals;; k) s = k (start (files s)).
Proof.
  rewrite run_bind. cbn. fold (start (files s)).
  by destruct (k (start (files s))) as [[??]?].
Qed.

Lemma compress_image_unfold img orig out t s0 :
  compress_image img orig out t s0 =
  let c := collect img (start (files s0)) in
  match result_of c with
  | Ok _ =>
      let r := report img orig out t (state_of c) in
      (result_of r, state_of r, header img orig t ++ output_of c ++ output_of r)
  | Raise e => (Raise e, state_of c, header img orig t ++ output_of c)
  end.
Proof.
  unfold compress_image, header, when. rewrite !run_print_bind.
  assert (∀ k : M (option string * pynum),
    ((if palette_applicable img then print PPaletteOk else mret tt);; k) s0
    = (result_of (k s0), state_of (k s0),
       (if palette_applicable img then [PPaletteOk] else []) ++ output_of (k s0)))
    as Hk.
  { intros k. destruct (palette_applicable img).
    - apply run_print_bind.
    - rewrite run_ret_bind. by destruct (k s0) as [[??]?]. }
  rewrite Hk, run_init_bind, run_bind.
  cbn [result_of state_of output_of fst snd].
  destruct (collect img (start (files s0))) as [[[[]|e] s1] o1];
    cbn [result_of state_of output_of fst snd app]; done.
Qed.

(** Called on a file that holds the image [img], the function is
    [compress_image] on [img] and the file's size. *)
Lemma ultra_compress_lossless_opened input_path out t s0 bs img :
  files s0 !! input_path = Some bs → png_open bs = Some img →
  ultra_compress_lossless input_path out t s0
  = compress_image img (size_of bs) out t s0.
Proof.
  intros Hbs Himg. unfold ultra_compress_lossless.
  assert (image_open input_path s0 = (Ok img, s0, [])) as Hopen.
  { unfold image_open. by rewrite Hbs, Himg. }
  assert (getsize input_path s0 = (Ok (size_of bs), s0, [])) as Hsize.
  { unfold getsize. by rewrite Hbs. }
  rewrite run_bind, Hopen, run_bind, Hsize.
  unfold result_of, state_of, output_of.
  by destruct (compress_image img (size_of bs) out t s0) as [[??]?].
Qed.

Lemma collect_inv img fs :
  ∃ j, inv img fs j (state_of (collect img (start fs))).
Proof.
  pose proof (collect_advances img fs (start fs) (inv_start img fs)) as Hc.
  unfold wp in Hc. destruct (result_of _); eauto.
Qed.

Lemma collect_inv_Ok img fs :
  result_of (collect img (start fs)) = Ok tt →
  inv img fs 10 (state_of (collect img (start fs))).
Proof.
  intros Hr.
  pose proof (collect_advances img fs (start fs) (inv_start img fs)) as Hc.
  unfold wp in Hc. by rewrite Hr in Hc.
Qed.

(** The report leaves the local variables alone and returns the best
    size. *)
Lemma run_locals img orig out t s0 :
  let c := state_of (collect img (start (files s0))) in
  let r := compress_image img orig out t s0 in
  best_size (state_of r) = best_size c
  ∧ best_file (state_of r) = best_file c
  ∧ strategies (state_of r) = strategies c
  ∧ ∀ p b, result_of r = Ok (p, b) → b = best_size c.
Proof.
  cbn zeta. rewrite compress_image_unfold. cbn zeta.
  destruct (result_of (collect img (start (files s0)))); [|done].
  pose proof (report_locals img orig out t
                (state_of (collect img (start (files s0))))) as [[g Hg] Hr].
  cbn [result_of state_of fst snd]. fold (state_of (report img orig out t
    (state_of (collect img (start (files s0)))))).
  by rewrite Hg.
Qed.

Lemma inv_order_scratch img fs j s :
  inv img fs j s → cand_file <$> strategies s `sublist_of` scratch.
Proof.
  intros [_ Hord _ _ _]. etrans; [done|]. apply sublist_take.
Qed.

End Run.

(** * The claims *)

(** C1.  When a run ends (normally or by an exception), the selected
    winner is a ranked candidate of minimal size, every candidate ranked
    before it is strictly larger, so that among candidates of equal
    minimal size the one produced first wins; candidates are ranked in
    the order in which the program declares its strategies; and the size
    returned is the winner's.  With no ranked candidate there is no
    winner. *)
Theorem winner_is_first_minimum {lib : ImageLib} img orig out t s0 :
  let r := compress_image img orig out t s0 in
  let s := state_of r in
  match best_file s with
  | None => strategies s = [] ∧ best_size s = PosInf
  | Some f =>
      ∃ i best,
        strategies s !! i = Some best
        ∧ cand_file best = f
        ∧ best_size s = Int (cand_size best)
        ∧ (∀ d, d ∈ strategies s → cand_size best ≤ cand_size d)
        ∧ (∀ j d, (j < i)%nat → strategies s !! j = Some d →
                  cand_size best < cand_size d)
  end
  ∧ cand_file <$> strategies s `sublist_of` scratch
  ∧ ∀ p b, result_of r = Ok (p, b) → b = best_size s.
Proof.
  cbn zeta.
  destruct (run_locals img orig out t s0) as (Hsz & Hbf & Hst & Hret).
  destruct (collect_inv img (files s0)) as [j Hinv].
  rewrite Hsz, Hbf, Hst. clear Hsz Hbf Hst. split_and!.
  - destruct Hinv as [Hsel _ _ _ _]. revert Hsel. unfold selected.
    destruct (best_file _); [|done].
    intros (i & best & (? & ? & ?) & ? & ?). by exists i, best.
  - by eapply inv_order_scratch.
  - done.
Qed.

(** C2, as stated, fails: with the reference library, the palette
    candidate of an eight-pixel two-colour RGB image is ranked (and
    wins), and decoding its bytes gives palette indices, not the
    original pixels. *)
Lemma ranked_palette_candidate_raw_decode_differs :
  let s := state_of (collect (lib:=RefLib) rgb8 (start ∅)) in
  best_file s = Some temp2
  ∧ ¬ (∀ c, c ∈ strategies s →
         ∃ bs v, files s !! cand_file c = Some bs
                 ∧ png_open (ImageLib:=RefLib) bs = Some v
                 ∧ pixels v = pixels rgb8).
Proof.
  cbn zeta. split; [by vm_compute|]. intros Hall.
  destruct (Hall (Candidate temp2 20 "Palette mode (2 colors)"))
    as (bs & v & Hbs & Hv & Hpx).
  { apply (bool_decide_unpack _). by vm_compute. }
  vm_compute in Hbs. injection Hbs as <-.
  vm_compute in Hv. injection Hv as <-.
  vm_compute in Hpx. discriminate.
Qed.

(** C2, amended.  At the end of candidate generation every ranked
    candidate's scratch file holds bytes of the recorded size that
    passed the check of its strategy: for the palette strategy the
    decoded image converted back to the original mode has the original
    pixels; for every other strategy the decoded image itself has. *)
Theorem ranked_candidates_verified {lib : ImageLib} img fs c :
  let s := state_of (collect img (start fs)) in
  c ∈ strategies s →
  ∃ bs, files s !! cand_file c = Some bs
        ∧ cand_size c = size_of bs
        ∧ (cand_file c ≠ temp2 →
           ∃ v, png_open bs = Some v ∧ pixels v = pixels img)
        ∧ (cand_file c = temp2 →
           ∃ v v', png_open bs = Some v ∧ convert v (mode img) = Some v'
                   ∧ pixels v' = pixels img).
Proof.
  cbn zeta. intros Hc.
  destruct (collect_inv img fs) as [j [_ _ Hcand _ _]].
  rewrite Forall_forall in Hcand.
  destruct (Hcand c Hc) as (bs & Hbs & Hsz & Hver & _).
  exists bs. split_and!; [done..| |]; intros Hf; unfold verified in Hver.
  - by rewrite decide_False in Hver.
  - by rewrite decide_True in Hver.
Qed.

Lemma ranked_candidates_verified_witness :
  let s := state_of (collect (lib:=RefLib) rgb8 (start ∅)) in
  let c := Candidate temp2 20 "Palette mode (2 colors)" in
  c ∈ strategies s
  ∧ ∃ bs, files s !! cand_file c = Some bs
          ∧ cand_size c = size_of bs
          ∧ (cand_file c ≠ temp2 →
             ∃ v, png_open (ImageLib:=RefLib) bs = Some v
                  ∧ pixels v = pixels rgb8)
          ∧ (cand_file c = temp2 →
             ∃ v v', png_open (ImageLib:=RefLib) bs = Some v
                     ∧ convert (ImageLib:=RefLib) v (mode rgb8) = Some v'
                     ∧ pixels v' = pixels rgb8).
Proof.
  assert (Candidate temp2 20 "Palette mode (2 colors)"
          ∈ strategies (state_of (collect (lib:=RefLib) rgb8 (start ∅)))) as Hc.
  { apply (bool_decide_unpack _). by vm_compute. }
  split; [exact Hc|].
  exact (ranked_candidates_verified rgb8 ∅ _ Hc).
Defined.

Lemma direct_candidate_first (l : list candidate) j d :
  cand_file <$> l `sublist_of` scratch →
  l !! j = Some d → cand_file d = temp1 → j = 0%nat.
Proof.
  intros Hsub Hj Hd.
  assert (Hnot : temp1 ∉ tail scratch).
  { apply (bool_decide_unpack _). by vm_compute. }
  change scratch with (temp1 :: tail scratch) in Hsub.
  apply sublist_cons_r in Hsub as [Hsub | (l' & Hl & Hsub)].
  - destruct Hnot. eapply elem_of_sublist; [|done].
    rewrite <- Hd. apply list_elem_of_fmap_2. by eapply list_elem_of_lookup_2.
  - destruct j as [|j]; [done|]. destruct Hnot.
    eapply elem_of_sublist; [|done].
    destruct l as [|e l]; [done|]. cbn in Hl. injection Hl as _ <-.
    rewrite <- Hd. apply list_elem_of_fmap_2. by eapply list_elem_of_lookup_2.
Qed.

(** C7.  At the end of candidate generation, every ranked candidate of
    the filter strategy holds exactly the bytes that the plain save call
    of the direct strategy produced: its file and the direct strategy's
    file have the same content, the direct candidate is ranked with the
    same size, and the filter candidate is not the winner. *)
Theorem filter_candidates_equal_direct {lib : ImageLib} img fs c :
  let s := state_of (collect img (start fs)) in
  c ∈ strategies s → cand_file c ∈ filter_files →
  ∃ bs, png_save img None = Some bs
        ∧ files s !! cand_file c = Some bs
        ∧ files s !! temp1 = Some bs
        ∧ cand_size c = size_of bs
        ∧ Candidate temp1 (size_of bs) "PNG compress_level=9" ∈ strategies s
        ∧ best_file s ≠ Some (cand_file c).
Proof.
  cbn zeta. intros Hc Hfilter.
  destruct (collect_inv img fs) as [j Hinv].
  pose proof (inv_order_scratch _ _ _ _ Hinv) as Hscratch.
  destruct Hinv as [Hsel Hord Hcand _ Hdir].
  rewrite Forall_forall in Hcand.
  destruct (Hcand c Hc) as (bs & Hbs & Hsz & Hver & Hplain).
  assert (Hne2 : cand_file c ≠ temp2).
  { intros Heq. apply temp2_not_plain. rewrite <- Heq.
    by apply list_elem_of_further. }
  unfold verified in Hver. rewrite decide_False in Hver by done.
  assert (Hsave : png_save img None = Some bs).
  { apply Hplain. by apply list_elem_of_further. }
  assert (Hj : (1 ≤ j)%nat).
  { destruct j as [|j]; [|lia].
    apply sublist_nil_r, fmap_nil_inv in Hord. rewrite Hord in Hc.
    by apply elem_of_nil in Hc. }
  pose proof (Hdir bs Hj Hsave Hver) as Hd.
  destruct (Hcand _ Hd) as (bs1 & Hbs1 & _ & _ & Hplain1).
  cbn [cand_file] in Hbs1, Hplain1.
  assert (bs1 = bs) as ->.
  { specialize (Hplain1 (list_elem_of_here _ _)). congruence. }
  exists bs. split_and!; [done..|].
  intros Hbest. unfold selected in Hsel. rewrite Hbest in Hsel.
  destruct Hsel as (i & best & (Hi & _ & Hfirst) & Hfile & _).
  apply list_elem_of_lookup in Hd as [jd Hjd].
  pose proof (direct_candidate_first _ _ _ Hscratch Hjd eq_refl) as ->.
  destruct (Hcand best (list_elem_of_lookup_2 _ _ _ Hi))
    as (bs2 & Hbs2 & Hsz2 & _).
  rewrite Hfile, Hbs in Hbs2. injection Hbs2 as <-.
  destruct i as [|i].
  - rewrite Hi in Hjd. injection Hjd as ->. cbn [cand_file] in Hfile.
    rewrite <- Hfile in Hfilter. revert Hfilter.
    apply (bool_decide_unpack _). by vm_compute.
  - specialize (Hfirst 0%nat _ ltac:(lia) Hjd). cbn [cand_size] in Hfirst. lia.
Qed.

Lemma filter_candidates_equal_direct_witness :
  let s := state_of (collect (lib:=RefLib) gray1 (start ∅)) in
  let c := Candidate (temp3 2) 5 "PNG filter 2" in
  c ∈ strategies s ∧ cand_file c ∈ filter_files
  ∧ ∃ bs, png_save (ImageLib:=RefLib) gray1 None = Some bs
          ∧ files s !! cand_file c = Some bs
          ∧ files s !! temp1 = Some bs
          ∧ cand_size c = size_of bs
          ∧ Candidate temp1 (size_of bs) "PNG compress_level=9" ∈ strategies s
          ∧ best_file s ≠ Some (cand_file c).
Proof.
  assert (Candidate (temp3 2) 5 "PNG filter 2"
          ∈ strategies (state_of (collect (lib:=RefLib) gray1 (start ∅)))) as Hc.
  { apply (bool_decide_unpack _). by vm_compute. }
  assert (temp3 2 ∈ filter_files) as Hf.
  { apply (bool_decide_unpack _). by vm_compute. }
  split; [exact Hc|]. split; [exact Hf|].
  exact (filter_candidates_equal_direct gray1 ∅ _ Hc Hf).
Defined.

(** What a run returns and leaves behind when candidate generation
    completed and the best size is not under the target: the branch of
    lines 160-185. *)
Lemma run_cannot {lib : ImageLib} img orig out t s0 :
  let c := collect img (start (files s0)) in
  let r := compress_image img orig out t s0 in
  result_of c = Ok tt →
  py_lt (best_size (state_of c)) (Int t) = false →
  result_of r = Ok (None, best_size (state_of c))
  ∧ (∃ pre, output_of r =
       pre ++ [PBest (best_size (state_of c));
               PCannot (best_size (state_of c)) t
                       (py_sub (best_size (state_of c)) t)])
  ∧ files (state_of r) ⊆ files (state_of c)
  ∧ (∀ p, p ∉ cand_file <$> strategies (state_of c) →
          files (state_of r) !! p = files (state_of c) !! p)
  ∧ (out ∉ scratch → files (state_of r) !! out = files s0 !! out).
Proof.
  cbn zeta. intros Hc Hlt. rewrite compress_image_unfold. cbn zeta.
  rewrite Hc.
  pose proof (report_cannot_case img orig out t _ Hlt)
    as (Hr & [pre Ho] & g & Hs & Hsub & Hg).
  cbn [result_of state_of output_of fst snd].
  fold (result_of (report img orig out t (state_of (collect img (start (files s0)))))).
  fold (state_of (report img orig out t (state_of (collect img (start (files s0)))))).
  fold (output_of (report img orig out t (state_of (collect img (start (files s0)))))).
  rewrite Hr, Ho, Hs. cbn [files set_files].
  split_and!; [done | | done | done |].
  - eexists. by rewrite !app_assoc.
  - intros Hout. destruct (collect_inv_Ok img _ Hc) as [_ Hord _ Hframe _].
    rewrite Hg; [by apply Hframe|].
    intros Hin. apply Hout. eapply elem_of_sublist; [done|].
    etrans; [done|]. apply sublist_take.
Qed.

(** C3, as stated, fails: with a library whose decoder is corrupt no
    candidate is verified, and the run ends in the same branch, with
    the same kind of return value and report, as a missed budget (here
    the run of the reference library on the same image with a target of
    3 bytes): it returns [(None, inf)] after printing a best size and a
    shortfall of [inf].  There is no outcome of its own for this case. *)
Lemma no_candidate_reported_as_missed_budget :
  let r := compress_image (lib:=CorruptLib) gray1 100 "out.png" 400 (start ∅) in
  let r' := compress_image (lib:=RefLib) gray1 100 "out.png" 3 (start ∅) in
  (strategies (state_of r) = []
   ∧ result_of r = Ok (None, PosInf)
   ∧ last (output_of r) = Some (PCannot PosInf 400 PosInf))
  ∧ (best_file (state_of r') = Some temp1
     ∧ result_of r' = Ok (None, Int 5)
     ∧ last (output_of r') = Some (PCannot (Int 5) 3 (Int 2))).
Proof. by vm_compute. Qed.

(** C3, amended.  There is no winner exactly when no candidate was
    verified.  In that case, if candidate generation completed, the run
    takes the branch of missed budgets: it returns [(None, inf)], the
    report ends with a best size and a shortfall of [inf], and the
    report phase leaves the directory as candidate generation left it,
    so that a destination which is not a scratch file is as it was
    before the run. *)
Theorem no_candidate_no_output {lib : ImageLib} img orig out t s0 :
  let c := collect img (start (files s0)) in
  let r := compress_image img orig out t s0 in
  (best_file (state_of c) = None ↔ strategies (state_of c) = [])
  ∧ (result_of c = Ok tt → strategies (state_of c) = [] →
     result_of r = Ok (None, PosInf)
     ∧ (∃ pre, output_of r = pre ++ [PBest PosInf; PCannot PosInf t PosInf])
     ∧ files (state_of r) = files (state_of c)
     ∧ (out ∉ scratch → files (state_of r) !! out = files s0 !! out)).
Proof.
  cbn zeta.
  destruct (collect_inv img (files s0)) as [j [Hsel _ _ _ _]].
  assert (Hnone : best_file (state_of (collect img (start (files s0)))) = None
                  ↔ strategies (state_of (collect img (start (files s0)))) = []).
  { revert Hsel. unfold selected. destruct (best_file _) as [f|].
    - intros (i & best & (Hi & _) & _). split; [done|].
      intros Hnil. by rewrite Hnil in Hi.
    - by intros [-> _]. }
  split; [done|]. intros Hc Hnil.
  assert (Hinf : best_size (state_of (collect img (start (files s0)))) = PosInf).
  { apply Hnone in Hnil. revert Hsel. unfold selected. rewrite Hnil.
    by intros [_ ?]. }
  destruct (run_cannot img orig out t s0 Hc) as (Hr & Ho & Hsub & Hsame & Hout).
  { by rewrite Hinf. }
  rewrite Hinf in Hr, Ho. split_and!; [done..| |done].
  apply map_eq. intros p. apply Hsame. rewrite Hnil. apply not_elem_of_nil.
Qed.

Lemma no_candidate_no_output_witness :
  let c := collect (lib:=CorruptLib) gray1 (start ∅) in
  let r := compress_image (lib:=CorruptLib) gray1 100 "out.png" 400 (start ∅) in
  (result_of c = Ok tt ∧ strategies (state_of c) = [] ∧ "out.png" ∉ scratch)
  ∧ result_of r = Ok (None, PosInf)
  ∧ files (state_of r) !! "out.png" = None.
Proof.
  assert (result_of (collect (lib:=CorruptLib) gray1 (start ∅)) = Ok tt) as Hc
    by (by vm_compute).
  assert (strategies (state_of (collect (lib:=CorruptLib) gray1 (start ∅))) = [])
    as Hnil by (by vm_compute).
  assert ("out.png" ∉ scratch) as Hout
    by (apply (bool_decide_unpack _); by vm_compute).
  split; [exact (conj Hc (conj Hnil Hout))|].
  destruct (no_candidate_no_output (lib:=CorruptLib) gray1 100 "out.png" 400 (start ∅))
    as [_ Hrun].
  destruct (Hrun Hc Hnil) as (Hr & _ & _ & Hframe).
  split; [exact Hr | exact (Hframe Hout)].
Defined.

(** What a run returns and leaves behind when candidate generation
    completed, the best size is under the target, the destination is
    not a scratch file and the input file is not empty: the branch of
    lines 138-159. *)
Lemma run_success {lib : ImageLib} img orig out t s0 b :
  let c := collect img (start (files s0)) in
  let r := compress_image img orig out t s0 in
  result_of c = Ok tt →
  best_size (state_of c) = Int b → b < t →
  out ∉ scratch → orig ≠ 0 → can_create out = true →
  ∃ f bs,
    best_file (state_of c) = Some f
    ∧ files (state_of c) !! f = Some bs
    ∧ size_of bs = b
    ∧ verified img f bs
    ∧ result_of r = Ok (Some out, Int b)
    ∧ (∃ pre, output_of r =
         pre ++ [PBest (Int b); PSuccess (Int b) t;
                 PRatio (ratio_percent b orig); PSaved out;
                 PAllIdentical (Z.of_nat (length (pixels img)))])
    ∧ files (state_of r) !! out = Some bs.
Proof.
  cbn zeta. intros Hc Hb Hlt Hout Horig Hcan.
  pose proof (collect_inv_Ok img _ Hc) as Hinv.
  pose proof (inv_order_scratch _ _ _ _ Hinv) as Hscratch.
  destruct Hinv as [Hsel _ Hcand _ _].
  unfold selected in Hsel.
  destruct (best_file (state_of (collect img (start (files s0)))))
    as [f|] eqn:Hf; [|destruct Hsel; congruence].
  destruct Hsel as (i & best & (Hi & _) & Hfile & Hsz).
  rewrite Forall_forall in Hcand.
  pose proof (list_elem_of_lookup_2 _ _ _ Hi) as Hin.
  destruct (Hcand best Hin) as (bs & Hbs & Hsize & Hver & _).
  rewrite Hfile in Hbs, Hver.
  assert (Hnot : out ∉ cand_file <$> strategies (state_of (collect img (start (files s0))))).
  { intros ?. apply Hout. by eapply elem_of_sublist. }
  assert (Hne : out ≠ f).
  { intros ->. apply Hnot. rewrite <- Hfile. by apply list_elem_of_fmap_2. }
  assert (Hpy : py_lt (best_size (state_of (collect img (start (files s0)))))
                      (Int t) = true).
  { rewrite Hb. by apply bool_decide_eq_true. }
  pose proof (report_success_case img orig out t
                (state_of (collect img (start (files s0)))) f bs
                Hpy Hf Hbs Hnot Hne Horig Hcan) as (Hr & [pre Ho] & Hfo & _).
  exists f, bs. split_and!; [done | done | congruence | done | ..].
  all: rewrite compress_image_unfold; cbn zeta; rewrite Hc.
  all: cbn [result_of state_of output_of fst snd].
  all: fold (result_of (report img orig out t (state_of (collect img (start (files s0)))))).
  all: fold (state_of (report img orig out t (state_of (collect img (start (files s0)))))).
  all: fold (output_of (report img orig out t (state_of (collect img (start (files s0)))))).
  - by rewrite Hr, Hb.
  - rewrite Ho, Hb. eexists. by rewrite !app_assoc.
  - done.
Qed.

(** C4, at a destination that is one of the scratch files.  The winner
    of the one-pixel grey image is the direct candidate, five bytes in
    [temp_method1.png], under the target of 400; with that file as the
    destination the run reports success and returns the path, and the
    destination is left empty: opening it for writing truncated the
    file that was about to be read. *)
Theorem destination_equal_to_winner_file_is_emptied :
  let c := collect (lib:=RefLib) gray1 (start ∅) in
  let r := compress_image (lib:=RefLib) gray1 100 temp1 400 (start ∅) in
  best_file (state_of c) = Some temp1
  ∧ best_size (state_of c) = Int 5
  ∧ files (state_of c) !! temp1
    = Some ["001"; "001"; "001"; "000"; "007"]%byte
  ∧ result_of r = Ok (Some temp1, Int 5)
  ∧ PSaved temp1 ∈ output_of r
  ∧ files (state_of r) !! temp1 = Some [].
Proof.
  cbn zeta. split_and!; try (by vm_compute).
  apply (bool_decide_unpack _). by vm_compute.
Qed.

(** C5.  When candidate generation completed with a winner whose size is
    at least the target (equality included), the run returns
    [(None, size)], the report ends with the best size and the shortfall
    [size - target], and the report phase writes nothing: every file
    left in the directory was there, with the same content, when
    candidate generation ended, so that a destination which is not a
    scratch file is as it was before the run. *)
Theorem budget_missed {lib : ImageLib} img orig out t s0 b :
  let c := collect img (start (files s0)) in
  let r := compress_image img orig out t s0 in
  result_of c = Ok tt →
  best_size (state_of c) = Int b → t ≤ b →
  result_of r = Ok (None, Int b)
  ∧ (∃ pre, output_of r =
       pre ++ [PBest (Int b); PCannot (Int b) t (Int (b - t))])
  ∧ (∀ p bs, files (state_of r) !! p = Some bs →
             files (state_of c) !! p = Some bs)
  ∧ (out ∉ scratch → files (state_of r) !! out = files s0 !! out).
Proof.
  cbn zeta. intros Hc Hb Hle.
  destruct (run_cannot img orig out t s0 Hc) as (Hr & Ho & Hsub & _ & Hout).
  { rewrite Hb. apply bool_decide_eq_false. lia. }
  rewrite Hb in Hr, Ho. split_and!; [done.. | | done].
  intros p bs Hp. by eapply lookup_weaken.
Qed.

Lemma budget_missed_witness :
  let c := collect (lib:=RefLib) gray1 (start ∅) in
  let r := compress_image (lib:=RefLib) gray1 100 "out.png" 5 (start ∅) in
  (result_of c = Ok tt ∧ best_size (state_of c) = Int 5 ∧ 5 ≤ 5)
  ∧ result_of r = Ok (None, Int 5)
  ∧ ∃ pre, output_of r = pre ++ [PBest (Int 5); PCannot (Int 5) 5 (Int (5 - 5))].
Proof.
  assert (result_of (collect (lib:=RefLib) gray1 (start ∅)) = Ok tt) as Hc
    by (by vm_compute).
  assert (best_size (state_of (collect (lib:=RefLib) gray1 (start ∅))) = Int 5)
    as Hb by (by vm_compute).
  assert (5 ≤ 5) as Hle by lia.
  split; [exact (conj Hc (conj Hb Hle))|].
  destruct (budget_missed (lib:=RefLib) gray1 100 "out.png" 5 (start ∅) 5 Hc Hb Hle)
    as (Hr & Ho & _).
  split; [exact Hr | exact Ho].
Defined.

(** C6, at an image in a mode that PNG cannot hold.  The save of
    strategy 1 raises, nothing catches it, and the run ends with the
    exception right after the first strategy was announced: no result
    value is returned.  The attempts of strategy 3, which are wrapped in
    [try ... except: pass], always return normally. *)
Theorem uncaught_error_aborts_run :
  (let r := compress_image (lib:=RefLib) cmyk1 100 "out.png" 400 (start ∅) in
   result_of r = Raise CodecError
   ∧ last (output_of r) = Some (PStrategy 1))
  ∧ ∀ (lib : ImageLib) img k s, result_of (filter_attempt img k s) = Ok tt.
Proof.
  split; [by vm_compute|]. intros lib img k s.
  pose proof (wp_try_pass
    (img_save img (temp3 k) None;;
     size3 ← getsize (temp3 k);
     verify3 ← image_open (temp3 k);
     when (bool_decide (pixels verify3 = pixels img))
       (record_candidate (temp3 k) size3 ("PNG filter " +:+ pretty k)))
    (λ r _ _, r = Ok tt) s) as Hwp.
  apply Hwp. by unfold wp.
Qed.

(** ** Runs that differ only in what they print *)

Lemma same_effect_refl {A} (m : M A) : same_effect m m.
Proof. done. Qed.

Lemma same_effect_print l l' : same_effect (print l) (print l').
Proof. done. Qed.

Lemma same_effect_bind {A B} (m m' : M A) (k k' : A → M B) :
  same_effect m m' → (∀ a, same_effect (k a) (k' a)) →
  same_effect (m ≫= k) (m' ≫= k').
Proof.
  intros Hm Hk s. rewrite !run_bind.
  destruct (Hm s) as [Hr Hs]. unfold result_of, state_of in *.
  destruct (m s) as [[r1 s1] o1], (m' s) as [[r2 s2] o2].
  cbn [fst snd] in *. subst r2 s2.
  destruct r1 as [a|e]; [|done]. apply (Hk a s1).
Qed.

Lemma report_success_target {lib : ImageLib} img orig out t t' :
  same_effect (report_success img orig out t) (report_success img orig out t').
Proof.
  unfold report_success.
  apply same_effect_bind; [done|]. intros _.
  apply same_effect_bind; [done|]. intros best.
  apply same_effect_bind; [apply same_effect_print | done].
Qed.

Lemma report_branch {lib : ImageLib} img orig out t s :
  let branch := if py_lt (best_size s) (Int t)
                then report_success img orig out t else report_cannot t in
  result_of (report img orig out t s) = result_of (branch s)
  ∧ state_of (report img orig out t s) = state_of (branch s).
Proof.
  cbn zeta.
  apply (wp_report img orig out t
    (λ r s' _,
       r = result_of ((if py_lt (best_size s) (Int t)
                       then report_success img orig out t
                       else report_cannot t) s)
       ∧ s' = state_of ((if py_lt (best_size s) (Int t)
                         then report_success img orig out t
                         else report_cannot t) s))).
  by intros pre.
Qed.

(** C8.  If a run with target [t] returns a destination path (the
    success return of line 159), then the run on the same image, paths
    and directory with any target [t' ≥ t] returns the same path and
    size, and leaves the same directory. *)
Theorem success_monotone {lib : ImageLib} img orig out t t' s0 p b :
  result_of (compress_image img orig out t s0) = Ok (Some p, b) →
  t ≤ t' →
  result_of (compress_image img orig out t' s0) = Ok (Some p, b)
  ∧ state_of (compress_image img orig out t' s0)
    = state_of (compress_image img orig out t s0).
Proof.
  rewrite !compress_image_unfold. cbn zeta.
  destruct (result_of (collect img (start (files s0)))) as [[]|e]; [|done].
  cbn [result_of state_of fst snd].
  set (c := state_of (collect img (start (files s0)))).
  fold (result_of (report img orig out t c)).
  fold (result_of (report img orig out t' c)).
  fold (state_of (report img orig out t c)).
  fold (state_of (report img orig out t' c)).
  destruct (report_branch img orig out t c) as [-> ->].
  destruct (report_branch img orig out t' c) as [-> ->].
  destruct (py_lt (best_size c) (Int t)) eqn:Hlt.
  - intros Hr Hle.
    assert (py_lt (best_size c) (Int t') = true) as ->.
    { destruct (best_size c) as [x|]; [|done].
      apply bool_decide_eq_true in Hlt. apply bool_decide_eq_true. lia. }
    destruct (report_success_target img orig out t' t c) as [-> ->]. done.
  - intros Hr. pose proof (report_cannot_spec t c) as (Hn & _).
    rewrite Hn in Hr. done.
Qed.

Lemma success_monotone_witness :
  (result_of (compress_image (lib:=RefLib) gray1 100 "out.png" 6 (start ∅))
   = Ok (Some "out.png", Int 5) ∧ 6 ≤ 400)
  ∧ result_of (compress_image (lib:=RefLib) gray1 100 "out.png" 400 (start ∅))
    = Ok (Some "out.png", Int 5).
Proof.
  assert (result_of (compress_image (lib:=RefLib) gray1 100 "out.png" 6 (start ∅))
          = Ok (Some "out.png", Int 5)) as Hr by (by vm_compute).
  assert (6 ≤ 400) as Hle by lia.
  split; [exact (conj Hr Hle)|].
  exact (proj1 (success_monotone (lib:=RefLib) gray1 100 "out.png" 6 400 (start ∅)
                  "out.png" (Int 5) Hr Hle)).
Defined.

(** ** Applicability of the palette strategy *)

Lemma palette_applicable_spec img :
  palette_applicable img = true
  ↔ unique_colors (pixels img) ≤ 256 ∧ mode img ∈ ["RGB"; "RGBA"; "L"].
Proof.
  unfold palette_applicable.
  by rewrite andb_true_iff, !bool_decide_eq_true.
Qed.

Lemma output_bind {A B} (m : M A) (k : A → M B) s :
  ∃ rest, output_of ((m ≫= k) s) = output_of (m s) ++ rest.
Proof.
  rewrite run_bind. unfold output_of.
  destruct (m s) as [[[a|e] s1] o1]; cbn [fst snd]; [by eexists|].
  exists []. by rewrite app_nil_r.
Qed.

Lemma output_bind_Ok {A B} (m : M A) (k : A → M B) s a :
  result_of (m s) = Ok a →
  output_of ((m ≫= k) s) = output_of (m s) ++ output_of (k a (state_of (m s))).
Proof.
  rewrite run_bind. unfold result_of, state_of, output_of.
  destruct (m s) as [[r s1] o1]; cbn [fst snd]. by intros ->.
Qed.

Lemma bind_ext {A B} (m : M A) (k k' : A → M B) s :
  (∀ a s1, k a s1 = k' a s1) → (m ≫= k) s = (m ≫= k') s.
Proof.
  intros Hk. rewrite !run_bind.
  destruct (m s) as [[[a|e] s1] o1]; [|done]. by rewrite Hk.
Qed.

Lemma bind_skip {B} (m : M unit) (k : M B) s :
  m s = (Ok tt, s, []) → (m;; k) s = k s.
Proof.
  intros Hm. rewrite run_bind, Hm. cbn. by destruct (k s) as [[??]?].
Qed.

(** C10.  When the palette strategy applies and its library calls
    return, the candidate is ranked exactly when the decoded file,
    converted back to the mode of the original, has the original
    pixels: the pixels of the decoded file itself play no part.  The
    reference library shows a candidate that is ranked although its
    decoded pixels, which are palette indices, differ from the original
    pixels, so the check accepts what the check of the other strategies
    would reject. *)
Theorem palette_checked_after_conversion :
  (∀ (lib : ImageLib) img s pimg bs v v',
     palette_applicable img = true →
     convert_adaptive img (unique_colors (pixels img)) = Some pimg →
     png_save pimg None = Some bs →
     png_open bs = Some v →
     convert v (mode img) = Some v' →
     let s' := state_of (strategy2 img s) in
     (pixels v' = pixels img →
      strategies s' =
        strategies s ++
        [Candidate temp2 (size_of bs)
           ("Palette mode (" +:+ pretty (unique_colors (pixels img)) +:+ " colors)")]
      ∧ files s' !! temp2 = Some bs)
     ∧ (pixels v' ≠ pixels img →
        strategies s' = strategies s ∧ files s' !! temp2 = None))
  ∧ (let s' := state_of (strategy2 (lib:=RefLib) rgb8 (start ∅)) in
     ∃ bs v, files s' !! temp2 = Some bs
             ∧ cand_file <$> strategies s' = [temp2]
             ∧ png_open (ImageLib:=RefLib) bs = Some v
             ∧ pixels v ≠ pixels rgb8).
Proof.
  split.
  - intros lib img s pimg bs v v' Happ Hconv Hsave Hopen Hback. cbn zeta.
    pose proof (λ Q, wp_bind (A:=unit) (print (PStrategy 2)) (λ _,
      palette_img ← (if bool_decide (mode img = "RGBA")
                     then img_convert_adaptive img (unique_colors (pixels img))
                     else img_convert_adaptive img (unique_colors (pixels img)));
      img_save palette_img temp2 None;;
      size2 ← getsize temp2;
      print (PResult size2);;
      opened ← image_open temp2;
      verify2 ← img_convert opened (mode img);
      if bool_decide (pixels verify2 = pixels img) then
        print PLossless;;
        record_candidate temp2 size2
          ("Palette mode (" +:+ pretty (unique_colors (pixels img)) +:+ " colors)")
      else
        print PFailed;;
        there ← path_exists temp2;
        when there (os_remove temp2)) Q s) as Hwp.
    unfold strategy2, when. rewrite Happ.
    apply (Hwp (λ _ s' _,
      (pixels v' = pixels img →
       strategies s' = strategies s ++ [Candidate temp2 (size_of bs) _]
       ∧ files s' !! temp2 = Some bs)
      ∧ (pixels v' ≠ pixels img →
         strategies s' = strategies s ∧ files s' !! temp2 = None))).
    clear Hwp. wp_run.
    all: try apply bool_decide_eq_true in Heqb0.
    all: try apply bool_decide_eq_false in Heqb0.
    all: split; intros ?; try done.
    all: rewrite ?recorded_strategies, ?recorded_files; cbn [files strategies set_files].
    all: by simplify_map_eq.
  - cbn zeta. eexists _, _. split_and!.
    + by vm_compute.
    + by vm_compute.
    + by vm_compute.
    + by vm_compute.
Qed.

Lemma palette_checked_after_conversion_witness :
  ∃ pimg bs v v',
    (palette_applicable rgb8 = true
     ∧ convert_adaptive (ImageLib:=RefLib) rgb8 (unique_colors (pixels rgb8)) = Some pimg
     ∧ png_save (ImageLib:=RefLib) pimg None = Some bs
     ∧ png_open (ImageLib:=RefLib) bs = Some v
     ∧ convert (ImageLib:=RefLib) v (mode rgb8) = Some v'
     ∧ pixels v' = pixels rgb8)
    ∧ files (state_of (strategy2 (lib:=RefLib) rgb8 (start ∅))) !! temp2 = Some bs.
Proof.
  destruct (convert_adaptive (ImageLib:=RefLib) rgb8 (unique_colors (pixels rgb8)))
    as [pimg|] eqn:Hconv; [|by vm_compute in Hconv].
  destruct (png_save (ImageLib:=RefLib) pimg None) as [bs|] eqn:Hsave;
    [|vm_compute in Hconv; injection Hconv as <-; by vm_compute in Hsave].
  destruct (png_open (ImageLib:=RefLib) bs) as [v|] eqn:Hopen;
    [|vm_compute in Hconv; injection Hconv as <-;
      vm_compute in Hsave; injection Hsave as <-; by vm_compute in Hopen].
  destruct (convert (ImageLib:=RefLib) v (mode rgb8)) as [v'|] eqn:Hback;
    [|vm_compute in Hconv; injection Hconv as <-;
      vm_compute in Hsave; injection Hsave as <-;
      vm_compute in Hopen; injection Hopen as <-; by vm_compute in Hback].
  assert (palette_applicable rgb8 = true) as Happ by (by vm_compute).
  assert (pixels v' = pixels rgb8) as Hpx.
  { vm_compute in Hconv; injection Hconv as <-.
    vm_compute in Hsave; injection Hsave as <-.
    vm_compute in Hopen; injection Hopen as <-.
    vm_compute in Hback; injection Hback as <-. by vm_compute. }
  exists pimg, bs, v, v'.
  split; [exact (conj Happ (conj eq_refl (conj Hsave (conj Hopen (conj Hback Hpx)))))|].
  exact (proj2 (proj1 (proj1 palette_checked_after_conversion RefLib rgb8 (start ∅)
                         pimg bs v v' Happ Hconv Hsave Hopen Hback) Hpx)).
Defined.



(** * Further properties of [compress.py] *)

(** ** The listing of the methods tried *)

Lemma insert_by_size_perm c l : insert_by_size c l ≡ₚ c :: l.
Proof.
  induction l as [|d l IH]; [done|]. cbn [insert_by_size].
  case_bool_decide; [done|]. rewrite IH. apply Permutation_swap.
Qed.

Lemma sorted_by_size_snoc l c :
  sorted_by_size (l ++ [c]) = insert_by_size c (sorted_by_size l).
Proof. unfold sorted_by_size. by rewrite foldl_app. Qed.

Lemma sorted_by_size_perm l : sorted_by_size l ≡ₚ l.
Proof.
  induction l as [|c l IH] using rev_ind; [done|].
  rewrite sorted_by_size_snoc, insert_by_size_perm, IH.
  by rewrite Permutation_app_comm.
Qed.

Lemma insert_by_size_sorted c l :
  StronglySorted (λ a b, cand_size a ≤ cand_size b) l →
  StronglySorted (λ a b, cand_size a ≤ cand_size b) (insert_by_size c l).
Proof.
  induction 1 as [|d l Hl IH Hd]; cbn [insert_by_size].
  - repeat constructor.
  - case_bool_decide as Hlt.
    + constructor; [by constructor|]. constructor; [lia|].
      eapply Forall_impl; [done|]. intros e ?. cbn beta in *. lia.
    + constructor; [done|].
      rewrite (Forall_forall _ (insert_by_size c l)). intros e He.
      rewrite insert_by_size_perm in He.
      apply elem_of_cons in He as [->|He]; [lia|].
      rewrite Forall_forall in Hd. by apply Hd.
Qed.

Lemma sorted_by_size_sorted l :
  StronglySorted (λ a b, cand_size a ≤ cand_size b) (sorted_by_size l).
Proof.
  induction l as [|c l IH] using rev_ind; [constructor|].
  rewrite sorted_by_size_snoc. by apply insert_by_size_sorted.
Qed.

(** The sort is stable, so the first candidate of minimal size comes
    first. *)
Lemma sorted_by_size_head l i best :
  first_minimum l i best → head (sorted_by_size l) = Some best.
Proof.
  revert i best. induction l as [|c l IH] using rev_ind;
    intros i best (Hi & Hmin & Hfirst); [done|].
  rewrite sorted_by_size_snoc.
  destruct (decide (i < length l)%nat) as [Hlt|Hge].
  - rewrite lookup_app_l in Hi by done.
    assert (head (sorted_by_size l) = Some best) as Hhead.
    { apply (IH i). split_and!; [done | |].
      - intros d Hd. apply Hmin, elem_of_app. by left.
      - intros j d Hj Hd. apply (Hfirst j d Hj). by apply lookup_app_l_Some. }
    apply head_Some in Hhead as [rest Hrest]. rewrite Hrest.
    cbn [insert_by_size]. rewrite bool_decide_false; [done|].
    assert (cand_size best ≤ cand_size c); [|lia].
    apply Hmin, elem_of_app. right. by apply list_elem_of_singleton.
  - assert (i = length l) as ->.
    { apply lookup_lt_Some in Hi. rewrite length_app in Hi. cbn in Hi. lia. }
    rewrite lookup_app_r, Nat.sub_diag in Hi by done. injection Hi as ->.
    destruct (sorted_by_size l) as [|d rest] eqn:Hs; [done|].
    cbn [insert_by_size]. rewrite bool_decide_true; [done|].
    assert (d ∈ l) as Hd.
    { rewrite <- (sorted_by_size_perm l), Hs. apply list_elem_of_here. }
    apply list_elem_of_lookup in Hd as [j Hj].
    apply (Hfirst j); [by eapply lookup_lt_Some | by apply lookup_app_l_Some].
Qed.

Lemma wp_report_listing {lib : ImageLib} img orig out t
    (Q : result (option string * pynum) → state → list line → Prop) s :
  wp (if py_lt (best_size s) (Int t)
      then report_success img orig out t
      else report_cannot t)
     (λ r s' o, Q r s' (listing (strategies s) ++ PBest (best_size s) :: o)) s →
  wp (report img orig out t) Q s.
Proof.
  intros HQ. unfold report. do 2 wp_call. cbn beta iota. wp_call.
  assert (wp
    (best ← get_best_size; print (PBest best);;
     if py_lt best (Int t) then report_success img orig out t
     else report_cannot t)
    (λ r s' o, Q r s' (listing (strategies s) ++ o)) s) as Hrest.
  { do 2 wp_call. cbn beta iota. wp_call. wp_call. cbn beta iota.
    eapply wp_mono; [apply HQ|]. done. }
  unfold when. case_bool_decide as Hnil.
  - apply wp_for_each_print. cbn beta iota. apply Hrest.
  - apply wp_ret. cbn beta iota.
    assert (strategies s = []) as Hs by (by destruct (strategies s); [|destruct Hnil]).
    rewrite Hs in Hrest. apply Hrest.
Qed.

(** X1.  The report lists every ranked candidate once, by size in
    non-decreasing order, before the line with the best size. *)
Theorem listing_sorted {lib : ImageLib} img orig out t s :
  ∃ shown rest,
    output_of (report img orig out t s)
    = ((λ c, PMethod (cand_size c) (cand_method c)) <$> shown)
      ++ PBest (best_size s) :: rest
    ∧ shown ≡ₚ strategies s
    ∧ StronglySorted (λ a b, cand_size a ≤ cand_size b) shown.
Proof.
  apply (wp_report_listing img orig out t
    (λ _ _ o, ∃ shown rest,
       o = ((λ c, PMethod (cand_size c) (cand_method c)) <$> shown)
           ++ PBest (best_size s) :: rest
       ∧ shown ≡ₚ strategies s
       ∧ StronglySorted (λ a b, cand_size a ≤ cand_size b) shown)).
  unfold wp. eexists (sorted_by_size (strategies s)), _.
  split_and!; [done | apply sorted_by_size_perm | apply sorted_by_size_sorted].
Qed.

(** X2.  When candidate generation completed with a winner, the first
    line of the report is the winner's: the listing starts with the
    candidate that was selected, with the best size. *)
Theorem listing_starts_with_winner {lib : ImageLib} img orig out t fs f :
  let c := collect img (start fs) in
  best_file (state_of c) = Some f →
  ∃ best rest,
    best ∈ strategies (state_of c)
    ∧ cand_file best = f
    ∧ best_size (state_of c) = Int (cand_size best)
    ∧ output_of (report img orig out t (state_of c))
      = PMethod (cand_size best) (cand_method best) :: rest.
Proof.
  cbn zeta. intros Hf.
  destruct (collect_inv img fs) as [j [Hsel _ _ _ _]].
  unfold selected in Hsel. rewrite Hf in Hsel.
  destruct Hsel as (i & best & Hmin & Hfile & Hsz).
  pose proof (sorted_by_size_head _ _ _ Hmin) as Hhead.
  apply head_Some in Hhead as [more Hmore].
  apply (wp_report_listing img orig out t
    (λ _ _ o, ∃ best rest,
       best ∈ strategies (state_of (collect img (start fs)))
       ∧ cand_file best = f
       ∧ best_size (state_of (collect img (start fs))) = Int (cand_size best)
       ∧ o = PMethod (cand_size best) (cand_method best) :: rest)).
  unfold wp, listing. rewrite Hmore. cbn [fmap list_fmap app].
  eexists best, _. split_and!; [|done..].
  destruct Hmin as [Hi _]. by eapply list_elem_of_lookup_2.
Qed.

Lemma listing_starts_with_winner_witness :
  let c := collect (lib:=RefLib) rgb8 (start ∅) in
  best_file (state_of c) = Some temp2
  ∧ ∃ best rest,
      best ∈ strategies (state_of c)
      ∧ cand_file best = temp2
      ∧ best_size (state_of c) = Int (cand_size best)
      ∧ output_of (report (lib:=RefLib) rgb8 100 "out.png" 400 (state_of c))
        = PMethod (cand_size best) (cand_method best) :: rest.
Proof.
  assert (best_file (state_of (collect (lib:=RefLib) rgb8 (start ∅))) = Some temp2)
    as Hf by (by vm_compute).
  split; [exact Hf|].
  exact (listing_starts_with_winner (lib:=RefLib) rgb8 100 "out.png" 400 ∅ temp2 Hf).
Defined.

(** ** Scratch files after the run *)

Lemma wp_and {A} (m : M A) (Q Q' : result A → state → list line → Prop) s :
  wp m Q s → wp m Q' s → wp m (λ r s' o, Q r s' o ∧ Q' r s' o) s.
Proof. by split. Qed.

Lemma cleanup_all_removes tried s :
  wp (for_each tried (λ c,
        try_pass (there ← path_exists (cand_file c);
                  when there (os_remove (cand_file c)))))
     (λ _ s' _, ∀ c, c ∈ tried → files s' !! cand_file c = None) s.
Proof.
  revert s. induction tried as [|c tried IH]; intros s.
  - apply wp_ret. by intros c ?%elem_of_nil.
  - cbn [for_each]. apply wp_bind.
    eapply wp_mono.
    { apply wp_and; [apply (removal_remove_if_exists (cand_file c))|].
      apply wp_try_pass, wp_bind, wp_path_exists. cbn beta iota.
      unfold when. case_bool_decide as Hf.
      - apply wp_os_remove; [intros _|by intros Hn; rewrite Hn in Hf; destruct Hf].
        instantiate (1 := λ _ s' _, files s' !! cand_file c = None).
        cbn [files set_files]. apply lookup_delete_eq.
      - apply wp_ret. cbn beta.
        by apply eq_None_not_Some. }
    intros r s1 o1 [(-> & _) Hgone]. cbn beta iota.
    eapply wp_mono.
    { apply wp_and; [apply (cleanup_all_removal tried s1) | apply (IH s1)]. }
    intros r s2 o2 [(_ & _ & g & -> & Hsub & _) Htail] d.
    cbn [files set_files] in *.
    intros [->|Hd]%elem_of_cons; [|by apply Htail].
    by eapply lookup_weaken_None.
Qed.


Lemma report_cannot_removes t s :
  wp (report_cannot t)
     (λ _ s' _, ∀ c, c ∈ strategies s → files s' !! cand_file c = None) s.
Proof.
  unfold report_cannot. wp_run.
  eapply wp_mono; [apply cleanup_all_removes|].
  intros r s1 o1 Hgone. by destruct r.
Qed.


Lemma report_frame {lib : ImageLib} img orig out t s :
  wp (report img orig out t)
     (λ _ s' _, ∀ p, p ≠ out → p ∉ cand_file <$> strategies s →
                     files s' !! p = files s !! p) s.
Proof.
  apply wp_report. intros _. destruct (py_lt _ _).
  - unfold report_success, copy_best. wp_run.
    destruct (best_file s) as [f|] eqn:Hf; wp_run; try done.
    + intros p ? _. cbn [files set_files]. by simplify_map_eq.
    + eapply wp_removal; [apply cleanup_others_removal|].
      intros g _ Hg. cbn beta iota. apply wp_ret. intros p Hp Hnot.
      cbn [files set_files] in *. rewrite Hg; [by simplify_map_eq|].
      by intros [? _].
  - eapply wp_mono; [apply report_cannot_spec|].
    intros r s' o (_ & _ & g & -> & _ & Hg) p _ Hp. by apply Hg.
Qed.

Section RunFacts.
Context {lib : ImageLib}.





End RunFacts.


Section RunFacts2.
Context {lib : ImageLib}.

Lemma run_state_Ok img orig out t s0 :
  result_of (collect img (start (files s0))) = Ok tt →
  state_of (compress_image img orig out t s0)
  = state_of (report img orig out t (state_of (collect img (start (files s0)))))
  ∧ result_of (compress_image img orig out t s0)
    = result_of (report img orig out t (state_of (collect img (start (files s0))))).
Proof. intros Hc. rewrite compress_image_unfold. cbn zeta. by rewrite Hc. Qed.

Lemma run_result_Ok img orig out t s0 x :
  result_of (compress_image img orig out t s0) = Ok x →
  result_of (collect img (start (files s0))) = Ok tt.
Proof.
  rewrite compress_image_unfold. cbn zeta.
  by destruct (result_of (collect img (start (files s0)))) as [[]|].
Qed.

Lemma report_success_zero img out t fs j s :
  inv img fs j s → py_lt (best_size s) (Int t) = true →
  ∃ e, result_of (report img 0 out t s) = Raise e.
Proof.
  intros Hinv Hlt.
  destruct (report_branch img 0 out t s) as [-> _]. rewrite Hlt.
  assert (wp (report_success img 0 out t) (λ r _ _, ∃ e, r = Raise e) s) as Hwp;
    [|exact Hwp].
  unfold report_success, copy_best. wp_run.
  destruct (best_file s); wp_run; by eexists.
Qed.

Lemma report_success_uncreatable img orig out t s :
  py_lt (best_size s) (Int t) = true → can_create out = false →
  ∃ e, result_of (report img orig out t s) = Raise e.
Proof.
  intros Hlt Hcan.
  destruct (report_branch img orig out t s) as [-> _]. rewrite Hlt.
  assert (wp (report_success img orig out t) (λ r _ _, ∃ e, r = Raise e) s) as Hwp;
    [|exact Hwp].
  unfold report_success, copy_best. wp_run.
  destruct (best_file s); wp_run; try congruence; by eexists.
Qed.

Lemma returned_path_branch img orig out t s0 p x :
  result_of (compress_image img orig out t s0) = Ok (Some p, x) →
  result_of (collect img (start (files s0))) = Ok tt
  ∧ can_create out = true
  ∧ ∃ b, best_size (state_of (collect img (start (files s0)))) = Int b
         ∧ b < t ∧ orig ≠ 0.
Proof.
  intros Hr.
  pose proof (run_result_Ok _ _ _ _ _ _ Hr) as Hc. split; [done|].
  pose proof (collect_inv_Ok img _ Hc) as Hinv.
  destruct (run_state_Ok img orig out t s0 Hc) as [_ Hres].
  destruct (py_lt (best_size (state_of (collect img (start (files s0))))) (Int t))
    eqn:Hlt.
  2: { destruct (run_cannot img orig out t s0 Hc Hlt) as (Hr' & _).
       rewrite Hr in Hr'. done. }
  split.
  { destruct (can_create out) eqn:Hcan; [done|].
    destruct (report_success_uncreatable img orig out t _ Hlt Hcan) as [e He].
    rewrite Hres, He in Hr. done. }
  destruct (best_size (state_of (collect img (start (files s0))))) as [b|] eqn:Hb;
    [|done].
  exists b. split; [done|]. split; [by apply bool_decide_eq_true in Hlt|].
  intros ->. destruct (report_success_zero img out t _ _ _ Hinv) as [e He].
  - by rewrite Hb.
  - rewrite Hres, He in Hr. done.
Qed.

(** X4.  When candidate generation completed and the best size is not
    under the target, the run leaves none of the ranked candidates'
    scratch files behind. *)
Theorem ranked_scratch_removed_on_miss img orig out t s0 d :
  let c := collect img (start (files s0)) in
  let r := compress_image img orig out t s0 in
  result_of c = Ok tt →
  py_lt (best_size (state_of c)) (Int t) = false →
  d ∈ strategies (state_of c) →
  files (state_of r) !! cand_file d = None.
Proof.
  cbn zeta. intros Hc Hlt Hd.
  destruct (run_state_Ok img orig out t s0 Hc) as [-> _].
  destruct (report_branch img orig out t (state_of (collect img (start (files s0)))))
    as [_ ->]. rewrite Hlt.
  by apply (report_cannot_removes t (state_of (collect img (start (files s0))))).
Qed.


(** X6.  The direct strategy is a fallback: if its encoding of the image
    decodes to the original pixels, every run that returns returns a
    finite best size, at most the size of that encoding. *)
Theorem direct_is_fallback img orig out t s0 bs v p x :
  png_save img None = Some bs →
  png_open bs = Some v → pixels v = pixels img →
  result_of (compress_image img orig out t s0) = Ok (p, x) →
  ∃ b, x = Int b ∧ b ≤ size_of bs.
Proof.
  intros Hsave Hopen Hpx Hr.
  pose proof (run_result_Ok _ _ _ _ _ _ Hr) as Hc.
  destruct (run_locals img orig out t s0) as (_ & _ & _ & Hret).
  rewrite (Hret p x Hr).
  destruct (collect_inv_Ok img _ Hc) as [Hsel _ _ _ Hdir].
  assert (Hd : Candidate temp1 (size_of bs) "PNG compress_level=9"
               ∈ strategies (state_of (collect img (start (files s0))))).
  { apply Hdir; [lia | done | by exists v]. }
  unfold selected in Hsel.
  destruct (best_file _) as [f|].
  - destruct Hsel as (i & best & (_ & Hmin & _) & _ & ->).
    eexists. split; [done|]. apply (Hmin _ Hd).
  - destruct Hsel as [Hnil _]. rewrite Hnil in Hd. by apply elem_of_nil in Hd.
Qed.

(** X8.  However a run ends, the ranked candidates belong to distinct
    scratch files, so there are at most ten of them. *)
Theorem candidates_distinct img orig out t s0 :
  let s := state_of (compress_image img orig out t s0) in
  NoDup (cand_file <$> strategies s) ∧ (length (strategies s) ≤ 10)%nat.
Proof.
  cbn zeta.
  destruct (run_locals img orig out t s0) as (_ & _ & -> & _).
  destruct (collect_inv img (files s0)) as [j Hinv].
  pose proof (inv_order_scratch _ _ _ _ Hinv) as Hsub.
  split.
  - eapply sublist_NoDup; [apply scratch_NoDup | exact Hsub].
  - apply sublist_length in Hsub. rewrite length_fmap in Hsub. exact Hsub.
Qed.


End RunFacts2.


Lemma ranked_scratch_removed_on_miss_witness :
  let c := collect (lib:=RefLib) gray1 (start ∅) in
  let r := compress_image (lib:=RefLib) gray1 100 "out.png" 5 (start ∅) in
  let d := Candidate temp2 9 "Palette mode (1 colors)" in
  (result_of c = Ok tt
   ∧ py_lt (best_size (state_of c)) (Int 5) = false
   ∧ d ∈ strategies (state_of c))
  ∧ files (state_of r) !! temp2 = None.
Proof.
  assert (result_of (collect (lib:=RefLib) gray1 (start ∅)) = Ok tt) as Hc
    by (by vm_compute).
  assert (py_lt (best_size (state_of (collect (lib:=RefLib) gray1 (start ∅))))
                (Int 5) = false) as Hlt by (by vm_compute).
  assert (Candidate temp2 9 "Palette mode (1 colors)"
          ∈ strategies (state_of (collect (lib:=RefLib) gray1 (start ∅)))) as Hd
    by (apply (bool_decide_unpack _); by vm_compute).
  split; [exact (conj Hc (conj Hlt Hd))|].
  exact (ranked_scratch_removed_on_miss (lib:=RefLib) gray1 100 "out.png" 5
           (start ∅) _ Hc Hlt Hd).
Defined.


Lemma direct_is_fallback_witness :
  (png_save (ImageLib:=RefLib) gray1 None = Some ["001"; "001"; "001"; "000"; "007"]%byte
   ∧ png_open (ImageLib:=RefLib) ["001"; "001"; "001"; "000"; "007"]%byte = Some gray1
   ∧ pixels gray1 = pixels gray1
   ∧ result_of (compress_image (lib:=RefLib) gray1 100 "out.png" 3 (start ∅))
     = Ok (None, Int 5))
  ∧ ∃ b, Int 5 = Int b ∧ b ≤ size_of ["001"; "001"; "001"; "000"; "007"]%byte.
Proof.
  assert (png_save (ImageLib:=RefLib) gray1 None
          = Some ["001"; "001"; "001"; "000"; "007"]%byte) as Hsave by (by vm_compute).
  assert (png_open (ImageLib:=RefLib) ["001"; "001"; "001"; "000"; "007"]%byte
          = Some gray1) as Hopen by (by vm_compute).
  assert (result_of (compress_image (lib:=RefLib) gray1 100 "out.png" 3 (start ∅))
          = Ok (None, Int 5)) as Hr by (by vm_compute).
  split; [exact (conj Hsave (conj Hopen (conj eq_refl Hr)))|].
  exact (direct_is_fallback (lib:=RefLib) gray1 100 "out.png" 3 (start ∅) _ gray1
           None (Int 5) Hsave Hopen eq_refl Hr).
Defined.

(** ** The exceptions a run can end with *)

Lemma raises_only_bind {A B} E (m : M A) (k : A → M B) :
  raises_only E m → (∀ a, raises_only E (k a)) → raises_only E (m ≫= k).
Proof.
  intros Hm Hk s. apply wp_bind. eapply wp_mono; [apply Hm|].
  intros [a|e] s1 o1 He; cbn beta iota in *; [apply Hk|].
  intros e0 [= <-]. by apply He.
Qed.

Lemma raises_only_print E l : raises_only E (print l).
Proof. by intros s e. Qed.

Lemma raises_only_ret {A} E (a : A) : raises_only E (mret a).
Proof. by intros s e. Qed.

Lemma raises_only_try_pass E m : raises_only E (try_pass m).
Proof. intros s. by apply wp_try_pass. Qed.

Lemma raises_only_for_each {A} E (xs : list A) body :
  (∀ x, raises_only E (body x)) → raises_only E (for_each xs body).
Proof.
  intros Hbody. induction xs as [|x xs IH]; [apply raises_only_ret|].
  cbn [for_each]. by apply raises_only_bind.
Qed.

Section Exceptions.
Context {lib : ImageLib} (img : image).

Lemma strategy1_raises : raises_only (eq CodecError) (strategy1 img).
Proof. intros s. unfold strategy1. wp_run; done. Qed.

Lemma strategy2_raises : raises_only (eq CodecError) (strategy2 img).
Proof. intros s. unfold strategy2. wp_run; done. Qed.

Lemma strategy3_raises : raises_only (eq CodecError) (strategy3 img).
Proof.
  unfold strategy3. apply raises_only_bind; [apply raises_only_print|].
  intros _. apply raises_only_for_each. intros k. apply raises_only_try_pass.
Qed.

Lemma bits_attempt_raises levels b :
  raises_only (eq CodecError) (bits_attempt img levels b).
Proof. intros s. unfold bits_attempt. wp_run; done. Qed.

Lemma strategy4_raises : raises_only (eq CodecError) (strategy4 img).
Proof.
  unfold strategy4, when. destruct (bool_decide _); [|apply raises_only_ret].
  apply raises_only_bind; [apply raises_only_print|].
  intros _. apply raises_only_for_each. intros b. apply bits_attempt_raises.
Qed.

Lemma collect_raises : raises_only (eq CodecError) (collect img).
Proof.
  unfold collect.
  apply raises_only_bind; [apply strategy1_raises|]. intros _.
  apply raises_only_bind; [apply strategy2_raises|]. intros _.
  apply raises_only_bind; [apply strategy3_raises|]. intros _.
  apply strategy4_raises.
Qed.

Lemma report_raises orig out t fs j s :
  inv img fs j s →
  wp (report img orig out t)
     (λ r _ _, ∀ e, r = Raise e →
                    (e = ZeroDivisionError ∧ orig = 0)
                    ∨ (e = FileNotFoundError ∧ can_create out = false)) s.
Proof.
  intros [Hsel _ Hcand _ _]. apply wp_report. intros _.
  destruct (py_lt (best_size s) (Int t)) eqn:Hlt.
  - unfold selected in Hsel.
    destruct (best_file s) as [f|] eqn:Hf;
      [|destruct Hsel as [_ Hinf]; by rewrite Hinf in Hlt].
    destruct Hsel as (i & best & (Hi & _) & Hfile & _).
    rewrite Forall_forall in Hcand.
    destruct (Hcand best (list_elem_of_lookup_2 _ _ _ Hi)) as (bs & Hbs & _).
    rewrite Hfile in Hbs.
    unfold report_success, copy_best. wp_run. rewrite ?Hf. wp_run.
    + intros e [= <-]. left. by apply bool_decide_eq_true in Heqb.
    + eapply wp_removal; [apply cleanup_others_removal|].
      intros g _ _. cbn beta iota. by apply wp_ret.
    + by right.
  - eapply wp_mono; [apply report_cannot_spec|]. by intros r s' o (-> & _) e.
Qed.


End Exceptions.


(** ** Which strategies can rank a candidate *)

Lemma only_ranks_bind F (m k : M unit) :
  only_ranks F m → only_ranks F k → only_ranks F (m;; k).
Proof.
  intros Hm Hk s. apply wp_bind. eapply wp_mono; [apply Hm|].
  intros [[]|e] s1 o1 (new1 & Hs1 & Hnew1); cbn beta iota; [|by exists new1].
  eapply wp_mono; [apply Hk|].
  intros r s2 o2 (new2 & Hs2 & Hnew2). cbn beta.
  exists (new1 ++ new2). rewrite Hs2, Hs1, app_assoc. split; [done|].
  intros c [?|?]%elem_of_app; auto.
Qed.

Lemma only_ranks_skip F : only_ranks F (mret tt).
Proof.
  intros s. apply wp_ret. exists []. rewrite app_nil_r. split; [done|].
  by intros c ?%elem_of_nil.
Qed.

Lemma only_ranks_print F l : only_ranks F (print l).
Proof.
  intros s. apply wp_print. exists []. rewrite app_nil_r. split; [done|].
  by intros c ?%elem_of_nil.
Qed.

Lemma only_ranks_mono (F F' : string → Prop) m :
  (∀ f, F f → F' f) → only_ranks F m → only_ranks F' m.
Proof.
  intros HF Hm s. eapply wp_mono; [apply Hm|].
  intros r s' o (new & ? & Hnew). exists new. split; [done|]. auto.
Qed.

Section Applicability.
Context {lib : ImageLib} (img : image).

Lemma only_ranks_touched f m :
  (∀ s, wp m (λ _ s' _, touched img f s s') s) → only_ranks (eq f) m.
Proof.
  intros Hm s. eapply wp_mono; [apply Hm|].
  intros r s' o [g _ -> | bs method _ _ ->].
  - exists []. rewrite app_nil_r. split; [done|]. by intros c ?%elem_of_nil.
  - exists [Candidate f (size_of bs) method]. rewrite recorded_strategies.
    split; [done|]. by intros c ->%list_elem_of_singleton.
Qed.

Lemma strategy1_only_ranks : only_ranks (may_rank img) (strategy1 img).
Proof.
  apply (only_ranks_mono (eq temp1)); [intros f <-; by left|].
  apply only_ranks_touched. intros s.
  eapply wp_mono; [apply strategy1_touched|]. by intros r s' o [? _].
Qed.

Lemma strategy2_only_ranks : only_ranks (may_rank img) (strategy2 img).
Proof.
  destruct (palette_applicable img) eqn:Hp.
  - apply (only_ranks_mono (eq temp2)).
    + intros f <-. right; left. by apply palette_applicable_spec in Hp as [??].
    + apply only_ranks_touched, strategy2_touched.
  - unfold strategy2, when. rewrite Hp. apply only_ranks_skip.
Qed.

Lemma filter_attempt_only_ranks k :
  k ∈ [0; 1; 2; 3; 4] → only_ranks (may_rank img) (filter_attempt img k).
Proof.
  intros Hk. apply (only_ranks_mono (eq (temp3 k))).
  - intros f <-. do 2 right; left. by apply list_elem_of_fmap_2.
  - apply only_ranks_touched. intros s.
    eapply wp_mono; [apply filter_attempt_touched|by intros r s' o [_ ?]].
    repeat (apply elem_of_cons in Hk as [->|Hk]; [by vm_compute|]).
    by apply elem_of_nil in Hk.
Qed.

Lemma strategy3_only_ranks : only_ranks (may_rank img) (strategy3 img).
Proof.
  unfold strategy3. apply only_ranks_bind; [apply only_ranks_print|].
  cbn [for_each].
  repeat (apply only_ranks_bind;
    [apply filter_attempt_only_ranks; set_solver|]).
  apply only_ranks_skip.
Qed.

Lemma bits_attempt_only_ranks b :
  b ∈ [4; 2; 1] → mode img = "L" →
  only_ranks (may_rank img) (bits_attempt img (unique_colors (pixels img)) b).
Proof.
  intros Hb HL. unfold bits_attempt, when. case_bool_decide as Hle.
  - apply (only_ranks_mono (eq (temp4 b))).
    + intros f <-. do 3 right. by exists b.
    + apply only_ranks_touched. intros s.
      pose proof (bits_attempt_touched img (unique_colors (pixels img)) b s) as Ht.
      unfold bits_attempt, when in Ht. rewrite bool_decide_true in Ht by done.
      apply Ht.
      * clear Hle. repeat (apply elem_of_cons in Hb as [->|Hb]; [by vm_compute|]).
        by apply elem_of_nil in Hb.
      * clear Hle.
        repeat (apply elem_of_cons in Hb as [->|Hb];
                [apply (bool_decide_unpack _); by vm_compute|]).
        by apply elem_of_nil in Hb.
  - apply only_ranks_skip.
Qed.

Lemma strategy4_only_ranks : only_ranks (may_rank img) (strategy4 img).
Proof.
  unfold strategy4, when. case_bool_decide as HL; [|apply only_ranks_skip].
  apply only_ranks_bind; [apply only_ranks_print|]. cbn [for_each].
  repeat (apply only_ranks_bind;
    [apply bits_attempt_only_ranks; [set_solver | done]|]).
  apply only_ranks_skip.
Qed.

(** X10.  A candidate is only ever ranked by a strategy that applies to
    the image: the palette candidate only when there are at most 256
    distinct pixel values and the mode is RGB, RGBA or L, and the
    candidate of [b] bits only for mode L with at most [2^b] distinct
    values.  Every ranked candidate is one of these, the direct one or a
    filter one. *)
Theorem ranked_only_when_applicable fs c :
  c ∈ strategies (state_of (collect img (start fs))) →
  cand_file c = temp1
  ∨ (cand_file c = temp2 ∧ unique_colors (pixels img) ≤ 256
     ∧ mode img ∈ ["RGB"; "RGBA"; "L"])
  ∨ cand_file c ∈ filter_files
  ∨ ∃ b, b ∈ [4; 2; 1] ∧ cand_file c = temp4 b ∧ mode img = "L"
         ∧ unique_colors (pixels img) ≤ 2 ^ b.
Proof.
  assert (only_ranks (may_rank img) (collect img)) as Hc.
  { unfold collect.
    apply only_ranks_bind; [apply strategy1_only_ranks|].
    apply only_ranks_bind; [apply strategy2_only_ranks|].
    apply only_ranks_bind; [apply strategy3_only_ranks|apply strategy4_only_ranks]. }
  destruct (Hc (start fs)) as (new & Hs & Hnew).
  rewrite Hs. cbn [strategies start app]. apply Hnew.
Qed.

End Applicability.

Lemma ranked_only_when_applicable_witness :
  let c := Candidate (temp4 2) 5 "2-bit grayscale" in
  c ∈ strategies (state_of (collect (lib:=RefLib) gray1 (start ∅)))
  ∧ (cand_file c = temp1
     ∨ (cand_file c = temp2 ∧ unique_colors (pixels gray1) ≤ 256
        ∧ mode gray1 ∈ ["RGB"; "RGBA"; "L"])
     ∨ cand_file c ∈ filter_files
     ∨ ∃ b, b ∈ [4; 2; 1] ∧ cand_file c = temp4 b ∧ mode gray1 = "L"
            ∧ unique_colors (pixels gray1) ≤ 2 ^ b).
Proof.
  assert (Candidate (temp4 2) 5 "2-bit grayscale"
          ∈ strategies (state_of (collect (lib:=RefLib) gray1 (start ∅)))) as Hc
    by (apply (bool_decide_unpack _); by vm_compute).
  split; [exact Hc|].
  exact (ranked_only_when_applicable (lib:=RefLib) gray1 ∅ _ Hc).
Defined.

(** ** Scratch files of attempts that fail verification *)

Lemma keeps_bind p {A B} (m : M A) (k : A → M B) :
  keeps p m → (∀ a, keeps p (k a)) → keeps p (m ≫= k).
Proof.
  intros Hm Hk s. apply wp_bind. eapply wp_mono; [apply Hm|].
  intros [a|e] s1 o1 H1; cbn beta iota; [|done].
  eapply wp_mono; [apply Hk|]. intros r s2 o2 H2. cbn beta. congruence.
Qed.

Lemma keeps_ret p {A} (a : A) : keeps p (mret a).
Proof. by intros s. Qed.

Lemma keeps_print p l : keeps p (print l).
Proof. by intros s. Qed.

Section FailedAttempts.
Context {lib : ImageLib} (img : image).

Lemma keeps_touched p f (m : M unit) :
  p ≠ f → (∀ s, wp m (λ _ s' _, touched img f s s') s) → keeps p m.
Proof.
  intros Hp Hm s. eapply wp_mono; [apply Hm|].
  intros r s' o [g Hg -> | bs method _ _ ->].
  - cbn [files set_files]. by apply Hg.
  - rewrite recorded_files. cbn [files set_files]. by rewrite lookup_insert_ne.
Qed.

Lemma bits_attempt_keeps p levels b :
  b ∈ [4; 2; 1] → p ≠ temp4 b → keeps p (bits_attempt img levels b).
Proof.
  intros Hb Hp. apply (keeps_touched _ (temp4 b)); [done|].
  intros s. apply bits_attempt_touched.
  - clear Hp. repeat (apply elem_of_cons in Hb as [->|Hb]; [by vm_compute|]).
    by apply elem_of_nil in Hb.
  - clear Hp.
    repeat (apply elem_of_cons in Hb as [->|Hb];
            [apply (bool_decide_unpack _); by vm_compute|]).
    by apply elem_of_nil in Hb.
Qed.

Lemma strategy4_keeps p : p ∉ [temp4 4; temp4 2; temp4 1] → keeps p (strategy4 img).
Proof.
  intros Hp. unfold strategy4, when. destruct (bool_decide _); [|apply keeps_ret].
  apply keeps_bind; [apply keeps_print|]. intros _. cbn [for_each].
  repeat (apply keeps_bind;
    [apply bits_attempt_keeps; [set_solver | intros ->; apply Hp; set_solver]
    |intros _]).
  apply keeps_ret.
Qed.

(** X11.  When the plain encoding decodes to other pixels than the
    original, strategy 1 returns without ranking anything and removes
    its scratch file, whatever the file held before; the other files
    are unchanged. *)
Theorem strategy1_failure_removes_file s bs v :
  png_save img None = Some bs → png_open bs = Some v →
  pixels v ≠ pixels img →
  let x := strategy1 img s in
  result_of x = Ok tt
  ∧ strategies (state_of x) = strategies s
  ∧ best_file (state_of x) = best_file s
  ∧ files (state_of x) !! temp1 = None
  ∧ ∀ p, p ≠ temp1 → files (state_of x) !! p = files s !! p.
Proof.
  intros Hsave Hopen Hpx. cbn zeta.
  apply (wp_bind (print (PStrategy 1)) (λ _,
    img_save img temp1 None;;
    size1 ← getsize temp1;
    print (PResult size1);;
    verify1 ← image_open temp1;
    if bool_decide (pixels verify1 = pixels img) then
      print PLossless;;
      record_candidate temp1 size1 "PNG compress_level=9"
    else
      print PFailed;;
      os_remove temp1)
    (λ r s' _, r = Ok tt ∧ strategies s' = strategies s
               ∧ best_file s' = best_file s
               ∧ files s' !! temp1 = None
               ∧ ∀ p, p ≠ temp1 → files s' !! p = files s !! p) s).
  wp_run.
  - by apply bool_decide_eq_true in Heqb.
  - split_and!; try done; cbn [files set_files].
    all: try (intros p Hp); by simplify_map_eq.
Qed.

Lemma bind_continue {B} (m : M unit) (k : M B) s s1 :
  m s = (Ok tt, s1, []) → (m;; k) s = k s1.
Proof.
  intros Hm. rewrite run_bind, Hm. cbn. by destruct (k s1) as [[??]?].
Qed.

Lemma filter_attempt_failed k s bs v :
  png_save img None = Some bs → png_open bs = Some v →
  pixels v ≠ pixels img →
  filter_attempt img k s = (Ok tt, set_files <[temp3 k := bs]> s, []).
Proof.
  intros Hsave Hopen Hpx.
  assert (wp (filter_attempt img k)
            (λ r s' o, r = Ok tt ∧ s' = set_files <[temp3 k := bs]> s ∧ o = []) s)
    as (Hr & Hs & Ho).
  { unfold filter_attempt. wp_run; [|done].
    by apply bool_decide_eq_true in Heqb. }
  unfold result_of, state_of, output_of in *.
  destruct (filter_attempt img k s) as [[??]?]. cbn [fst snd] in *. congruence.
Qed.

Lemma strategy3_failed s bs v :
  png_save img None = Some bs → png_open bs = Some v →
  pixels v ≠ pixels img →
  result_of (strategy3 img s) = Ok tt
  ∧ state_of (strategy3 img s)
    = set_files (λ fs, foldr (λ k, <[temp3 k := bs]>) fs [4; 3; 2; 1; 0]) s.
Proof.
  intros Hsave Hopen Hpx. unfold strategy3.
  rewrite run_print_bind. cbn [for_each result_of state_of fst snd].
  repeat rewrite (bind_continue _ _ _ _ (filter_attempt_failed _ _ bs v Hsave Hopen Hpx)).
  done.
Qed.

Lemma filter_files_written (fs : gmap string bytes) bs k :
  k ∈ [0; 1; 2; 3; 4] →
  foldr (λ k, <[temp3 k := bs]>) fs [4; 3; 2; 1; 0] !! temp3 k = Some bs.
Proof.
  intros Hk. cbn [foldr].
  repeat (apply elem_of_cons in Hk as [->|Hk];
          [repeat (rewrite lookup_insert_ne by (by vm_compute));
           by rewrite lookup_insert_eq|]).
  by apply elem_of_nil in Hk.
Qed.

(** X12.  Under the same condition strategy 3 returns without ranking
    anything and leaves its five scratch files in the directory, each
    holding the plain encoding: unlike strategies 1 and 2 it has no
    removal on failure. *)
Theorem strategy3_failure_leaves_files s bs v k :
  png_save img None = Some bs → png_open bs = Some v →
  pixels v ≠ pixels img →
  k ∈ [0; 1; 2; 3; 4] →
  let x := strategy3 img s in
  result_of x = Ok tt
  ∧ strategies (state_of x) = strategies s
  ∧ files (state_of x) !! temp3 k = Some bs.
Proof.
  intros Hsave Hopen Hpx Hk. cbn zeta.
  destruct (strategy3_failed s bs v Hsave Hopen Hpx) as [Hr ->].
  split; [done|]. split; [done|].
  cbn [files set_files]. by apply filter_files_written.
Qed.

(** X13.  So a run that returns although the plain encoding fails
    verification leaves the five scratch files of strategy 3 behind:
    they were never ranked, and the cleanup only removes ranked files. *)
Theorem filter_files_left_behind orig out t s0 bs v k x :
  png_save img None = Some bs → png_open bs = Some v →
  pixels v ≠ pixels img →
  k ∈ [0; 1; 2; 3; 4] → out ≠ temp3 k →
  result_of (compress_image img orig out t s0) = Ok x →
  files (state_of (compress_image img orig out t s0)) !! temp3 k = Some bs.
Proof.
  intros Hsave Hopen Hpx Hk Hout Hr.
  assert (Hc : result_of (collect img (start (files s0))) = Ok tt).
  { revert Hr. rewrite compress_image_unfold. cbn zeta.
    by destruct (result_of (collect img (start (files s0)))) as [[]|]. }
  assert (Hfile : files (state_of (collect img (start (files s0)))) !! temp3 k
                  = Some bs).
  { assert (wp (collect img)
              (λ r s' _, r = Ok tt → files s' !! temp3 k = Some bs)
              (start (files s0))) as Hwp; [|by apply Hwp].
    unfold collect. apply wp_bind.
    eapply wp_mono with (Q := λ _ _ _, True); [done|].
    intros [[]|e] s1 o1 _; cbn beta iota; [|done].
    apply wp_bind. eapply wp_mono with (Q := λ _ _ _, True); [done|].
    intros [[]|e] s2 o2 _; cbn beta iota; [|done].
    apply wp_bind.
    destruct (strategy3_failed s2 bs v Hsave Hopen Hpx) as (Hr3 & Hs3).
    assert (files (state_of (strategy3 img s2)) !! temp3 k = Some bs) as Hf3.
    { rewrite Hs3. cbn [files set_files]. by apply filter_files_written. }
    unfold wp at 1. rewrite Hr3.
    eapply wp_mono; [apply (strategy4_keeps (temp3 k))|].
    - clear Hout. repeat (apply elem_of_cons in Hk as [->|Hk];
              [apply (bool_decide_unpack _); by vm_compute|]).
      by apply elem_of_nil in Hk.
    - intros r s4 o4 Hkeep _. cbn beta in *. by rewrite Hkeep. }
  destruct (collect_inv_Ok img _ Hc) as [_ _ Hcand _ _].
  assert (Hnot : temp3 k ∉ cand_file <$>
                   strategies (state_of (collect img (start (files s0))))).
  { intros (c & Hfc & Hin)%list_elem_of_fmap.
    rewrite Forall_forall in Hcand.
    destruct (Hcand c Hin) as (bs' & Hbs' & _ & Hver & Hplain).
    rewrite <- Hfc in Hbs', Hver, Hplain.
    rewrite Hfile in Hbs'. injection Hbs' as <-.
    unfold verified in Hver. rewrite decide_False in Hver.
    - destruct Hver as (v' & Hv' & Hpx'). congruence.
    - clear Hout Hfc Hplain Hfile.
      repeat (apply elem_of_cons in Hk as [->|Hk]; [by vm_compute|]).
      by apply elem_of_nil in Hk. }
  rewrite compress_image_unfold. cbn zeta. rewrite Hc. cbn [state_of fst snd].
  fold (state_of (report img orig out t (state_of (collect img (start (files s0)))))).
  rewrite <- Hfile.
  by apply (report_frame img orig out t (state_of (collect img (start (files s0))))).
Qed.

End FailedAttempts.

Lemma strategy1_failure_removes_file_witness :
  let x := strategy1 (lib:=CorruptLib) gray1 (start {[temp1 := []]}) in
  (png_save (ImageLib:=CorruptLib) gray1 None
   = Some ["001"; "001"; "001"; "000"; "007"]%byte
   ∧ png_open (ImageLib:=CorruptLib) ["001"; "001"; "001"; "000"; "007"]%byte
     = Some (Image "L" 0 0 [] [])
   ∧ pixels (Image "L" 0 0 [] []) ≠ pixels gray1)
  ∧ result_of x = Ok tt ∧ files (state_of x) !! temp1 = None.
Proof.
  assert (png_save (ImageLib:=CorruptLib) gray1 None
          = Some ["001"; "001"; "001"; "000"; "007"]%byte) as Hsave by (by vm_compute).
  assert (png_open (ImageLib:=CorruptLib) ["001"; "001"; "001"; "000"; "007"]%byte
          = Some (Image "L" 0 0 [] [])) as Hopen by done.
  assert (pixels (Image "L" 0 0 [] []) ≠ pixels gray1) as Hpx by done.
  split; [exact (conj Hsave (conj Hopen Hpx))|].
  destruct (strategy1_failure_removes_file (lib:=CorruptLib) gray1
              (start {[temp1 := []]}) _ _ Hsave Hopen Hpx) as (Hr & _ & _ & Hgone & _).
  exact (conj Hr Hgone).
Defined.

Lemma strategy3_failure_leaves_files_witness :
  let x := strategy3 (lib:=CorruptLib) gray1 (start ∅) in
  (png_save (ImageLib:=CorruptLib) gray1 None
   = Some ["001"; "001"; "001"; "000"; "007"]%byte
   ∧ png_open (ImageLib:=CorruptLib) ["001"; "001"; "001"; "000"; "007"]%byte
     = Some (Image "L" 0 0 [] [])
   ∧ pixels (Image "L" 0 0 [] []) ≠ pixels gray1
   ∧ 3 ∈ [0; 1; 2; 3; 4])
  ∧ files (state_of x) !! temp3 3 = Some ["001"; "001"; "001"; "000"; "007"]%byte.
Proof.
  assert (png_save (ImageLib:=CorruptLib) gray1 None
          = Some ["001"; "001"; "001"; "000"; "007"]%byte) as Hsave by (by vm_compute).
  assert (png_open (ImageLib:=CorruptLib) ["001"; "001"; "001"; "000"; "007"]%byte
          = Some (Image "L" 0 0 [] [])) as Hopen by done.
  assert (pixels (Image "L" 0 0 [] []) ≠ pixels gray1) as Hpx by done.
  assert (3 ∈ [0; 1; 2; 3; 4]) as Hk by set_solver.
  split; [exact (conj Hsave (conj Hopen (conj Hpx Hk)))|].
  exact (proj2 (proj2 (strategy3_failure_leaves_files (lib:=CorruptLib) gray1
                         (start ∅) _ _ 3 Hsave Hopen Hpx Hk))).
Defined.

Lemma filter_files_left_behind_witness :
  let r := compress_image (lib:=CorruptLib) gray1 100 "out.png" 400 (start ∅) in
  (png_save (ImageLib:=CorruptLib) gray1 None
   = Some ["001"; "001"; "001"; "000"; "007"]%byte
   ∧ png_open (ImageLib:=CorruptLib) ["001"; "001"; "001"; "000"; "007"]%byte
     = Some (Image "L" 0 0 [] [])
   ∧ pixels (Image "L" 0 0 [] []) ≠ pixels gray1
   ∧ 3 ∈ [0; 1; 2; 3; 4] ∧ "out.png" ≠ temp3 3
   ∧ result_of r = Ok (None, PosInf))
  ∧ files (state_of r) !! temp3 3 = Some ["001"; "001"; "001"; "000"; "007"]%byte.
Proof.
  assert (png_save (ImageLib:=CorruptLib) gray1 None
          = Some ["001"; "001"; "001"; "000"; "007"]%byte) as Hsave by (by vm_compute).
  assert (png_open (ImageLib:=CorruptLib) ["001"; "001"; "001"; "000"; "007"]%byte
          = Some (Image "L" 0 0 [] [])) as Hopen by done.
  assert (pixels (Image "L" 0 0 [] []) ≠ pixels gray1) as Hpx by done.
  assert (3 ∈ [0; 1; 2; 3; 4]) as Hk by set_solver.
  assert ("out.png" ≠ temp3 3) as Hout by (by vm_compute).
  assert (result_of (compress_image (lib:=CorruptLib) gray1 100 "out.png" 400 (start ∅))
          = Ok (None, PosInf)) as Hr by (by vm_compute).
  split; [exact (conj Hsave (conj Hopen (conj Hpx (conj Hk (conj Hout Hr)))))|].
  exact (filter_files_left_behind (lib:=CorruptLib) gray1 100 "out.png" 400 (start ∅)
           _ _ 3 _ Hsave Hopen Hpx Hk Hout Hr).
Defined.

(** ** The palette strategy within a run *)

Lemma never_prints_bind {A B} l (m : M A) (k : A → M B) :
  never_prints l m → (∀ a, never_prints l (k a)) → never_prints l (m ≫= k).
Proof.
  intros Hm Hk s. rewrite run_bind. specialize (Hm s).
  unfold output_of in *. destruct (m s) as [[[a|e] s1] o1]; cbn [fst snd] in *;
    [|done].
  intros [?|?]%elem_of_app; [done|]. by apply (Hk a s1).
Qed.

Lemma never_prints_quiet {A} l (m : M A) :
  (∀ s, output_of (m s) = []) → never_prints l m.
Proof. intros Hm s. rewrite Hm. apply not_elem_of_nil. Qed.

Lemma never_prints_print l l' : l ≠ l' → never_prints l (print l').
Proof. intros Hl s. cbn. by intros ->%list_elem_of_singleton. Qed.

Lemma never_prints_try_pass l m : never_prints l m → never_prints l (try_pass m).
Proof.
  intros Hm s. specialize (Hm s). unfold try_pass, output_of in *.
  by destruct (m s) as [[??]?].
Qed.

Lemma never_prints_when l (b : bool) m :
  never_prints l m → never_prints l (when b m).
Proof. destruct b; [done|]. intros _. by apply never_prints_quiet. Qed.

Lemma never_prints_for_each {A} l (xs : list A) body :
  (∀ x, never_prints l (body x)) → never_prints l (for_each xs body).
Proof.
  intros Hb. induction xs as [|x xs IH]; [by apply never_prints_quiet|].
  cbn [for_each]. by apply never_prints_bind.
Qed.

Section PaletteInRun.
Context {lib : ImageLib} (img : image).

Ltac quiet :=
  apply never_prints_quiet; intros ?;
  unfold getsize, image_open, img_save, os_remove, record_candidate, path_exists;
  repeat case_match; done.

Ltac silent :=
  lazymatch goal with
  | |- never_prints _ (mbind _ _) => apply never_prints_bind; [|intros]
  | |- never_prints _ (print _) => apply never_prints_print; done
  | |- never_prints _ (try_pass _) => apply never_prints_try_pass
  | |- never_prints _ (when _ _) => apply never_prints_when
  | |- never_prints _ (if ?b then _ else _) => destruct b
  | |- never_prints _ _ => quiet
  end.

Lemma strategy1_never_announces_palette : never_prints (PStrategy 2) (strategy1 img).
Proof. unfold strategy1. repeat silent. Qed.

Lemma strategy3_never_announces_palette : never_prints (PStrategy 2) (strategy3 img).
Proof.
  unfold strategy3. silent; [silent|]. apply never_prints_for_each. intros k.
  unfold filter_attempt. repeat silent.
Qed.

Lemma strategy4_never_announces_palette : never_prints (PStrategy 2) (strategy4 img).
Proof.
  unfold strategy4. silent. silent; [silent|]. apply never_prints_for_each.
  intros b. unfold bits_attempt. repeat silent.
Qed.

(** What strategy 2 does when it applies and its library calls return *)
Lemma strategy2_attempt s pimg bs v v' :
  palette_applicable img = true →
  convert_adaptive img (unique_colors (pixels img)) = Some pimg →
  png_save pimg None = Some bs →
  png_open bs = Some v →
  convert v (mode img) = Some v' →
  wp (strategy2 img) (λ r s' o,
    r = Ok tt
    ∧ (∃ verdict, o = [PStrategy 2; PResult (size_of bs); verdict])
    ∧ (pixels v' = pixels img →
       strategies s' =
         strategies s ++
         [Candidate temp2 (size_of bs)
            ("Palette mode (" +:+ pretty (unique_colors (pixels img)) +:+ " colors)")]
       ∧ files s' !! temp2 = Some bs)
    ∧ (pixels v' ≠ pixels img →
       strategies s' = strategies s ∧ files s' !! temp2 = None)) s.
Proof.
  intros Happ Hconv Hsave Hopen Hback.
  unfold strategy2, when. rewrite Happ. wp_run.
  all: try apply bool_decide_eq_true in Heqb0.
  all: try apply bool_decide_eq_false in Heqb0.
  all: split_and!; [done | by eexists | intros ? | intros ?]; try done.
  all: rewrite ?recorded_strategies, ?recorded_files; cbn [files strategies set_files].
  all: by simplify_map_eq.
Qed.

Lemma filter_attempt_after_palette k :
  k ∈ [0; 1; 2; 3; 4] →
  only_ranks (λ f, f ≠ temp2) (filter_attempt img k) ∧ keeps temp2 (filter_attempt img k).
Proof.
  intros Hk.
  assert (temp3 k ≠ temp2) as Hne.
  { repeat (apply elem_of_cons in Hk as [->|Hk]; [by vm_compute|]).
    by apply elem_of_nil in Hk. }
  assert (∀ s, wp (filter_attempt img k) (λ _ s' _, touched img (temp3 k) s s') s)
    as Ht.
  { intros s. eapply wp_mono; [by apply filter_attempt_touched|by intros r s' o [_ ?]]. }
  split.
  - apply (only_ranks_mono (eq (temp3 k))); [by intros f <-|].
    by apply (only_ranks_touched img).
  - by apply (keeps_touched img _ (temp3 k)).
Qed.

Lemma strategy3_after_palette :
  only_ranks (λ f, f ≠ temp2) (strategy3 img) ∧ keeps temp2 (strategy3 img).
Proof.
  unfold strategy3. split.
  - apply only_ranks_bind; [apply only_ranks_print|]. cbn [for_each].
    repeat (apply only_ranks_bind;
      [apply filter_attempt_after_palette; set_solver|]).
    apply only_ranks_skip.
  - apply keeps_bind; [apply keeps_print|]. intros _. cbn [for_each].
    repeat (apply keeps_bind;
      [apply filter_attempt_after_palette; set_solver|intros _]).
    apply keeps_ret.
Qed.

Lemma bits_attempt_not_palette b :
  b ∈ [4; 2; 1] →
  only_ranks (λ f, f ≠ temp2) (bits_attempt img (unique_colors (pixels img)) b).
Proof.
  intros Hb. apply (only_ranks_mono (eq (temp4 b))).
  - intros f <-. clear -Hb.
    repeat (apply elem_of_cons in Hb as [->|Hb]; [by vm_compute|]).
    by apply elem_of_nil in Hb.
  - apply (only_ranks_touched img). intros s. apply bits_attempt_touched.
    + repeat (apply elem_of_cons in Hb as [->|Hb]; [by vm_compute|]).
      by apply elem_of_nil in Hb.
    + repeat (apply elem_of_cons in Hb as [->|Hb];
              [apply (bool_decide_unpack _); by vm_compute|]).
      by apply elem_of_nil in Hb.
Qed.

Lemma strategy4_after_palette :
  only_ranks (λ f, f ≠ temp2) (strategy4 img) ∧ keeps temp2 (strategy4 img).
Proof.
  split.
  - unfold strategy4, when. destruct (bool_decide _); [|apply only_ranks_skip].
    apply only_ranks_bind; [apply only_ranks_print|]. cbn [for_each].
    repeat (apply only_ranks_bind;
      [apply bits_attempt_not_palette; set_solver|]).
    apply only_ranks_skip.
  - apply strategy4_keeps. apply (bool_decide_unpack _). by vm_compute.
Qed.

Lemma strategy1_before_palette :
  only_ranks (λ f, f ≠ temp2) (strategy1 img) ∧ keeps temp2 (strategy1 img).
Proof.
  assert (∀ s, wp (strategy1 img) (λ _ s' _, touched img temp1 s s') s) as Ht.
  { intros s. eapply wp_mono; [apply strategy1_touched|]. by intros r s' o [? _]. }
  split.
  - apply (only_ranks_mono (eq temp1)); [by intros f <-|].
    by apply (only_ranks_touched img).
  - by apply (keeps_touched img _ temp1).
Qed.

(** What the rest of candidate generation leaves of the palette
    attempt: the file, and which candidates are ranked for it. *)
Lemma rest_after_palette s :
  wp (strategy3 img;; strategy4 img) (λ _ s' _,
    files s' !! temp2 = files s !! temp2
    ∧ ∃ new, strategies s' = strategies s ++ new
             ∧ ∀ c, c ∈ new → cand_file c ≠ temp2) s.
Proof.
  destruct strategy3_after_palette as [Hr3 Hk3].
  destruct strategy4_after_palette as [Hr4 Hk4].
  apply wp_and.
  - exact (keeps_bind temp2 _ _ Hk3 (λ _, Hk4) s).
  - exact (only_ranks_bind (λ f, f ≠ temp2) _ _ Hr3 Hr4 s).
Qed.

End PaletteInRun.

Lemma state_bind_Ok {A B} (m : M A) (k : A → M B) s a :
  result_of (m s) = Ok a →
  state_of ((m ≫= k) s) = state_of (k a (state_of (m s))).
Proof.
  rewrite run_bind. unfold result_of, state_of.
  destruct (m s) as [[r s1] o1]; cbn [fst snd]. by intros ->.
Qed.

Section PaletteAttempted.
Context {lib : ImageLib} (img : image).

(** C9.  In a run that reaches line 59, that is, whose strategy 1
    returns, the palette strategy is attempted exactly when the image
    has at most 256 distinct pixel values and its mode is RGB, RGBA or
    L.  Attempted means what lines 60-84 do: the run announces the
    strategy, converts the image to a palette of that many colours,
    saves the result to [temp_method2.png], prints the file's size, and
    ranks the candidate when the decoded file converted back has the
    original pixels, or else removes the file.  When the strategy does
    not apply, in particular with more than 256 distinct values, it is
    excluded entirely: candidate generation is the same computation as
    strategies 1, 3 and 4 in sequence, nothing is announced or ranked
    for the palette file, which stays as it was, and strategies 1 and 3
    are still evaluated. *)
Theorem palette_attempted_iff fs :
  let c := collect img (start fs) in
  let n := unique_colors (pixels img) in
  result_of (strategy1 img (start fs)) = Ok tt →
  (PStrategy 2 ∈ output_of c ↔ n ≤ 256 ∧ mode img ∈ ["RGB"; "RGBA"; "L"])
  ∧ (n ≤ 256 ∧ mode img ∈ ["RGB"; "RGBA"; "L"] →
     ∀ pimg bs v v',
       convert_adaptive img n = Some pimg →
       png_save pimg None = Some bs →
       png_open bs = Some v →
       convert v (mode img) = Some v' →
       (∃ pre post,
          output_of c = pre ++ [PStrategy 2; PResult (size_of bs)] ++ post)
       ∧ (pixels v' = pixels img →
          Candidate temp2 (size_of bs)
            ("Palette mode (" +:+ pretty n +:+ " colors)") ∈ strategies (state_of c)
          ∧ files (state_of c) !! temp2 = Some bs)
       ∧ (pixels v' ≠ pixels img →
          (temp2 ∉ cand_file <$> strategies (state_of c))
          ∧ files (state_of c) !! temp2 = None))
  ∧ (¬ (n ≤ 256 ∧ mode img ∈ ["RGB"; "RGBA"; "L"]) →
     collect img (start fs)
     = (strategy1 img;; strategy3 img;; strategy4 img) (start fs)
     ∧ (temp2 ∉ cand_file <$> strategies (state_of c))
     ∧ files (state_of c) !! temp2 = fs !! temp2
     ∧ PStrategy 1 ∈ output_of c
     ∧ PStrategy 3 ∈ output_of c).
Proof.
  cbn zeta. intros H1. rewrite <- palette_applicable_spec.
  (* strategy 1 leaves the palette file and ranks nothing for it *)
  destruct (strategy1_before_palette img) as [Hr1 Hk1].
  specialize (Hr1 (start fs)). specialize (Hk1 (start fs)). unfold wp in Hr1, Hk1.
  destruct Hr1 as (new1 & Hnew1 & Hno1). cbn [strategies start app] in Hnew1.
  cbn [files start] in Hk1.
  assert (Hout1 : PStrategy 1 ∈ output_of (collect img (start fs))).
  { destruct (output_bind (strategy1 img)
                (λ _, strategy2 img;; strategy3 img;; strategy4 img) (start fs))
      as [rest Hrest].
    unfold collect. rewrite Hrest. apply elem_of_app. left.
    unfold strategy1. rewrite run_print_bind. apply list_elem_of_here. }
  (* the run after strategy 1 *)
  assert (Hout : output_of (collect img (start fs))
                 = output_of (strategy1 img (start fs))
                   ++ output_of ((strategy2 img;; strategy3 img;; strategy4 img)
                                   (state_of (strategy1 img (start fs)))))
    by (unfold collect; by rewrite (output_bind_Ok _ _ _ _ H1)).
  assert (Hst : state_of (collect img (start fs))
                = state_of ((strategy2 img;; strategy3 img;; strategy4 img)
                              (state_of (strategy1 img (start fs)))))
    by (unfold collect; by rewrite (state_bind_Ok _ _ _ _ H1)).
  set (s1 := state_of (strategy1 img (start fs))) in *.
  destruct (palette_applicable img) eqn:Happ.
  - (* the strategy applies *)
    split_and!.
    + split; [done|]. intros _. rewrite Hout. apply elem_of_app. right.
      destruct (output_bind (strategy2 img) (λ _, strategy3 img;; strategy4 img) s1)
        as [rest ->]. apply elem_of_app. left.
      unfold strategy2, when. rewrite Happ, run_print_bind. apply list_elem_of_here.
    + intros _ pimg bs v v' Hconv Hsave Hopen Hback.
      pose proof (strategy2_attempt img s1 pimg bs v v' Happ Hconv Hsave Hopen Hback)
        as (Hr2 & [verdict Ho2] & Hyes & Hno).
      pose proof (rest_after_palette img (state_of (strategy2 img s1)))
        as (Hfile & new & Hnew & Hnot).
      rewrite (output_bind_Ok _ _ _ _ Hr2), Ho2 in Hout.
      rewrite (state_bind_Ok _ _ _ _ Hr2) in Hst.
      rewrite Hst, Hfile, Hnew. split_and!.
      * exists (output_of (strategy1 img (start fs))),
               (verdict :: output_of ((strategy3 img;; strategy4 img)
                                        (state_of (strategy2 img s1)))).
        exact Hout.
      * intros Hpx. destruct (Hyes Hpx) as [-> ->]. split; [|done].
        apply elem_of_app. left. apply elem_of_app. right. apply list_elem_of_here.
      * intros Hpx. destruct (Hno Hpx) as [-> ->]. split; [|done].
        rewrite Hnew1, fmap_app.
        intros [(c & Hc & Hin)%list_elem_of_fmap|(c & Hc & Hin)%list_elem_of_fmap]%elem_of_app.
        -- by apply (Hno1 c Hin).
        -- by apply (Hnot c Hin).
    + by intros [].
  - (* the strategy does not apply *)
    assert (Hskip : ∀ s, strategy2 img s = (Ok tt, s, [])).
    { intros s. unfold strategy2, when. by rewrite Happ. }
    assert (Hcollect : collect img (start fs)
                       = (strategy1 img;; strategy3 img;; strategy4 img) (start fs)).
    { unfold collect. apply bind_ext. intros _ s. by apply bind_skip. }
    pose proof (rest_after_palette img s1) as (Hfile & new & Hnew & Hnot).
    assert (Hrest : (strategy2 img;; strategy3 img;; strategy4 img) s1
                    = (strategy3 img;; strategy4 img) s1)
      by (by apply bind_skip).
    rewrite Hrest in Hout, Hst.
    assert (Hnever : PStrategy 2 ∉ output_of (collect img (start fs))).
    { rewrite Hout. intros [Hin|Hin]%elem_of_app.
      - by apply (strategy1_never_announces_palette img (start fs)).
      - revert Hin. apply never_prints_bind.
        + apply strategy3_never_announces_palette.
        + intros _. apply strategy4_never_announces_palette. }
    split_and!; [by split | done | intros _ ].
    split_and!; [exact Hcollect | | | exact Hout1 |].
    + rewrite Hst, Hnew, Hnew1, fmap_app.
      intros [(c & Hc & Hin)%list_elem_of_fmap|(c & Hc & Hin)%list_elem_of_fmap]%elem_of_app.
      * by apply (Hno1 c Hin).
      * by apply (Hnot c Hin).
    + by rewrite Hst, Hfile.
    + rewrite Hout. apply elem_of_app. right.
      destruct (output_bind (strategy3 img) (λ _, strategy4 img) s1) as [rest ->].
      apply elem_of_app. left.
      unfold strategy3. rewrite run_print_bind. apply list_elem_of_here.
Qed.

End PaletteAttempted.

Lemma palette_attempted_iff_witness :
  (result_of (strategy1 (lib:=RefLib) rgb8 (start ∅)) = Ok tt
   ∧ PStrategy 2 ∈ output_of (collect (lib:=RefLib) rgb8 (start ∅))
   ∧ ∃ bs, files (state_of (collect (lib:=RefLib) rgb8 (start ∅))) !! temp2 = Some bs
           ∧ Candidate temp2 (size_of bs)
               ("Palette mode (" +:+ pretty (unique_colors (pixels rgb8)) +:+ " colors)")
             ∈ strategies (state_of (collect (lib:=RefLib) rgb8 (start ∅))))
  ∧ (result_of (strategy1 (lib:=RefLib) rgb300 (start ∅)) = Ok tt
     ∧ (PStrategy 2 ∉ output_of (collect (lib:=RefLib) rgb300 (start ∅)))
     ∧ PStrategy 3 ∈ output_of (collect (lib:=RefLib) rgb300 (start ∅))
     ∧ files (state_of (collect (lib:=RefLib) rgb300 (start ∅))) !! temp2 = None).
Proof.
  assert (result_of (strategy1 (lib:=RefLib) rgb8 (start ∅)) = Ok tt) as H8
    by (by vm_compute).
  assert (result_of (strategy1 (lib:=RefLib) rgb300 (start ∅)) = Ok tt) as H300
    by (by vm_compute).
  assert (unique_colors (pixels rgb8) ≤ 256 ∧ mode rgb8 ∈ ["RGB"; "RGBA"; "L"])
    as Happ by (apply palette_applicable_spec; by vm_compute).
  assert (¬ (unique_colors (pixels rgb300) ≤ 256
             ∧ mode rgb300 ∈ ["RGB"; "RGBA"; "L"])) as Hnot.
  { intros Hyes%palette_applicable_spec. by vm_compute in Hyes. }
  destruct (convert_adaptive (ImageLib:=RefLib) rgb8 (unique_colors (pixels rgb8)))
    as [pimg|] eqn:Hconv; [|by vm_compute in Hconv].
  destruct (png_save (ImageLib:=RefLib) pimg None) as [bs|] eqn:Hsave;
    [|vm_compute in Hconv; injection Hconv as <-; by vm_compute in Hsave].
  destruct (png_open (ImageLib:=RefLib) bs) as [v|] eqn:Hopen;
    [|vm_compute in Hconv; injection Hconv as <-;
      vm_compute in Hsave; injection Hsave as <-; by vm_compute in Hopen].
  destruct (convert (ImageLib:=RefLib) v (mode rgb8)) as [v'|] eqn:Hback;
    [|vm_compute in Hconv; injection Hconv as <-;
      vm_compute in Hsave; injection Hsave as <-;
      vm_compute in Hopen; injection Hopen as <-; by vm_compute in Hback].
  assert (pixels v' = pixels rgb8) as Hpx.
  { vm_compute in Hconv; injection Hconv as <-.
    vm_compute in Hsave; injection Hsave as <-.
    vm_compute in Hopen; injection Hopen as <-.
    vm_compute in Hback; injection Hback as <-. by vm_compute. }
  destruct (palette_attempted_iff (lib:=RefLib) rgb8 ∅ H8) as (Hiff8 & Hdo8 & _).
  destruct (palette_attempted_iff (lib:=RefLib) rgb300 ∅ H300) as (Hiff300 & _ & Hskip).
  destruct (Hdo8 Happ pimg bs v v' Hconv Hsave Hopen Hback) as (_ & Hyes & _).
  destruct (Hyes Hpx) as [Hcand Hfile].
  destruct (Hskip Hnot) as (_ & _ & Hkept & _ & Hthird).
  assert (PStrategy 2 ∉ output_of (collect (lib:=RefLib) rgb300 (start ∅))) as Hnever
    by (intros Hin; by apply Hnot, Hiff300).
  split.
  - split; [exact H8|]. split; [exact (proj2 Hiff8 Happ)|].
    exists bs. split; [exact Hfile|exact Hcand].
  - exact (conj H300 (conj Hnever (conj Hthird (eq_trans Hkept (lookup_empty _))))).
Defined.

(** ** What a run reads *)

Lemma oblivious_bind {A B} P (m : M A) (k : A → M B) :
  oblivious P m → (∀ a, oblivious P (k a)) → oblivious P (m ≫= k).
Proof.
  intros Hm Hk s1 s2 Hs. destruct (Hm s1 s2 Hs) as (Hr & Ho & Ha).
  unfold mbind, M_bind.
  destruct (m s1) as [[r1 t1] o1], (m s2) as [[r2 t2] o2].
  cbn in Hr, Ho, Ha. subst r2 o2. destruct r1 as [a|e]; [|done].
  destruct (Hk a t1 t2 Ha) as (Hr' & Ho' & Ha').
  destruct (k a t1) as [[r1' t1'] o1'], (k a t2) as [[r2' t2'] o2'].
  cbn in *. by subst.
Qed.

Lemma oblivious_ret {A} P (a : A) : oblivious P (mret a).
Proof. by intros s1 s2 Hs. Qed.

Lemma oblivious_raise {A} P e : oblivious P (raise (A:=A) e).
Proof. by intros s1 s2 Hs. Qed.

Lemma oblivious_print P l : oblivious P (print l).
Proof. by intros s1 s2 Hs. Qed.

Lemma oblivious_try_pass P m : oblivious P m → oblivious P (try_pass m).
Proof.
  intros Hm s1 s2 Hs. destruct (Hm s1 s2 Hs) as (Hr & Ho & Ha).
  unfold try_pass. destruct (m s1) as [[r1 t1] o1], (m s2) as [[r2 t2] o2].
  by cbn in *.
Qed.

Lemma oblivious_when P (b : bool) m : oblivious P m → oblivious P (when b m).
Proof. destruct b; [done|]. intros _. apply oblivious_ret. Qed.

Lemma oblivious_for_each {A} P (xs : list A) body :
  (∀ x, x ∈ xs → oblivious P (body x)) → oblivious P (for_each xs body).
Proof.
  induction xs as [|x xs IH]; intros Hb; [apply oblivious_ret|].
  cbn [for_each]. apply oblivious_bind; [apply Hb; left|].
  intros _. apply IH. intros y Hy. apply Hb. by right.
Qed.

(** Calls that read a file *)

Lemma oblivious_getsize (P : string → Prop) p : P p → oblivious P (getsize p).
Proof.
  intros Hp s1 s2 Hs. unfold getsize.
  destruct Hs as (? & ? & ? & Hf). rewrite <- (Hf p) by by left.
  by destruct (files s1 !! p).
Qed.

Lemma oblivious_path_exists (P : string → Prop) p :
  P p → oblivious P (path_exists p).
Proof.
  intros Hp s1 s2 Hs. unfold path_exists.
  destruct Hs as (? & ? & ? & Hf). by rewrite <- (Hf p) by by left.
Qed.

Lemma oblivious_open_rb (P : string → Prop) p : P p → oblivious P (open_rb p).
Proof.
  intros Hp s1 s2 Hs. unfold open_rb.
  destruct Hs as (? & ? & ? & Hf). rewrite <- (Hf p) by by left.
  by destruct (files s1 !! p).
Qed.

Lemma oblivious_read_all (P : string → Prop) p : P p → oblivious P (read_all p).
Proof.
  intros Hp s1 s2 Hs. unfold read_all.
  destruct Hs as (? & ? & ? & Hf). by rewrite <- (Hf p) by by left.
Qed.

Lemma agree_set_files P g s1 s2 :
  agree P s1 s2 →
  (∀ f, files s1 !! f = files s2 !! f →
        g (files s1) !! f = g (files s2) !! f) →
  agree P (set_files g s1) (set_files g s2).
Proof.
  intros (? & ? & ? & Hf) Hg. repeat split; try done.
  intros f Hin. cbn [files set_files]. by apply Hg, Hf.
Qed.

Lemma oblivious_os_remove (P : string → Prop) p : P p → oblivious P (os_remove p).
Proof.
  intros Hp s1 s2 Hs. unfold os_remove.
  pose proof Hs as (? & ? & ? & Hf). rewrite <- (Hf p) by by left.
  destruct (files s1 !! p); [|done]. refine (conj eq_refl (conj eq_refl _)).
  apply agree_set_files; [done|]. intros f Hfe.
  destruct (decide (f = p)) as [->|]; by simplify_map_eq.
Qed.

Lemma oblivious_open_wb {lib : ImageLib} P p : oblivious P (open_wb p).
Proof.
  intros s1 s2 Hs. unfold open_wb. destruct (can_create p); [|done].
  refine (conj eq_refl (conj eq_refl _)).
  apply agree_set_files; [done|]. intros f Hfe.
  destruct (decide (f = p)) as [->|]; by simplify_map_eq.
Qed.

Lemma oblivious_write_all P p data : oblivious P (write_all p data).
Proof.
  intros s1 s2 Hs. unfold write_all. refine (conj eq_refl (conj eq_refl _)).
  apply agree_set_files; [done|]. intros f Hfe.
  destruct (decide (f = p)) as [->|]; by simplify_map_eq.
Qed.

Lemma oblivious_get_best_size {A} P (k : pynum → M A) :
  (∀ b, oblivious P (k b)) → oblivious P (get_best_size ≫= k).
Proof.
  intros Hk. apply oblivious_bind; [|done]. intros s1 s2 Hs.
  unfold get_best_size. split; [|done]. cbn. f_equal. apply Hs.
Qed.

(** Reading a local variable that names files: these files agree. *)
Lemma oblivious_get_strategies {A} (P : string → Prop) (k : list candidate → M A) :
  (∀ l, oblivious (λ f, P f ∨ f ∈ cand_file <$> l) (k l)) →
  oblivious P (get_strategies ≫= k).
Proof.
  intros Hk s1 s2 Hs. unfold mbind, M_bind, get_strategies.
  destruct Hs as (Hb & Hf & Hl & Ha).
  destruct (Hk (strategies s1) s1 s2) as (Hr' & Ho' & (? & ? & ? & Ha')).
  { repeat split; try done. intros f [[?|?]|?]; apply Ha; auto. }
  rewrite <- Hl.
  destruct (k (strategies s1) s1) as [[r1' t1'] o1'],
           (k (strategies s1) s2) as [[r2' t2'] o2'].
  cbn in *. subst. repeat split; try done. intros f Hin. apply Ha'. tauto.
Qed.

Lemma oblivious_get_best_file {A} (P : string → Prop) (k : option string → M A) :
  (∀ b, oblivious (λ f, P f ∨ b = Some f) (k b)) →
  oblivious P (get_best_file ≫= k).
Proof.
  intros Hk s1 s2 Hs. unfold mbind, M_bind, get_best_file.
  destruct Hs as (Hb & Hf & Hl & Ha).
  destruct (Hk (best_file s1) s1 s2) as (Hr' & Ho' & (? & ? & ? & Ha')).
  { repeat split; try done. intros f [[?|?]|?]; apply Ha; auto. }
  rewrite <- Hf.
  destruct (k (best_file s1) s1) as [[r1' t1'] o1'],
           (k (best_file s1) s2) as [[r2' t2'] o2'].
  cbn in *. subst. repeat split; try done. intros f Hin. apply Ha'. tauto.
Qed.

Section Oblivious.
Context {lib : ImageLib}.

Lemma oblivious_image_open (P : string → Prop) p : P p → oblivious P (image_open p).
Proof.
  intros Hp s1 s2 Hs. unfold image_open.
  destruct Hs as (? & ? & ? & Hf). rewrite <- (Hf p) by by left.
  destruct (files s1 !! p) as [bs|]; [|done]. by destruct (png_open bs).
Qed.

Lemma oblivious_img_convert_adaptive P img n :
  oblivious P (img_convert_adaptive img n).
Proof.
  intros s1 s2 Hs. unfold img_convert_adaptive.
  by destruct (convert_adaptive img n).
Qed.

Lemma oblivious_img_convert P img m : oblivious P (img_convert img m).
Proof. intros s1 s2 Hs. unfold img_convert. by destruct (convert img m). Qed.

Lemma oblivious_record_candidate (P : string → Prop) p size method :
  P p → oblivious P (record_candidate p size method).
Proof.
  intros Hp s1 s2 (Hb & Hf & Hl & Ha). unfold record_candidate.
  rewrite <- Hb, <- Hf, <- Hl.
  assert (∀ f, P f ∨ f ∈ cand_file <$> (strategies s1 ++ [Candidate p size method])
               ∨ best_file s1 = Some f ∨ f = p →
               files s1 !! f = files s2 !! f) as Ha'.
  { intros f [?|[Hin|[?| ->]]]; try (apply Ha; by auto).
    rewrite fmap_app in Hin. apply elem_of_app in Hin as [?|Hin]; [apply Ha; auto|].
    apply list_elem_of_singleton in Hin as ->. apply Ha; auto. }
  destruct (py_lt _ _); repeat split; cbn [files best_file strategies state_of fst snd];
    intros f [?|[?|Hx]]; apply Ha'; auto.
  injection Hx as <-. auto.
Qed.

(** A save makes the two directories agree at the file it writes: what
    follows may read that file. *)
Lemma oblivious_save {A} (P : string → Prop) img p bits (k : M A) :
  oblivious (λ f, P f ∨ f = p) k → oblivious P (img_save img p bits ;; k).
Proof.
  intros Hk s1 s2 Hs. unfold mbind, M_bind, img_save.
  destruct (png_save img bits) as [bs|]; [|done].
  destruct (Hk (set_files <[p:=bs]> s1) (set_files <[p:=bs]> s2))
    as (Hr & Ho & (? & ? & ? & Ha)).
  { destruct Hs as (? & ? & ? & Ha). repeat split; try done.
    intros f Hin. cbn [files set_files].
    destruct (decide (f = p)) as [->|]; simplify_map_eq; [done|].
    apply Ha. cbn [strategies best_file set_files] in Hin. tauto. }
  destruct (k (set_files <[p:=bs]> s1)) as [[r1 t1] o1],
           (k (set_files <[p:=bs]> s2)) as [[r2 t2] o2].
  cbn in *. subst. repeat split; try done. intros f Hin. apply Ha. tauto.
Qed.

End Oblivious.

Ltac obl :=
  lazymatch goal with
  | |- oblivious _ (mbind _ (img_save _ _ _)) => apply oblivious_save
  | |- oblivious _ (mbind _ get_strategies) => apply oblivious_get_strategies
  | |- oblivious _ (mbind _ get_best_file) => apply oblivious_get_best_file
  | |- oblivious _ (mbind _ get_best_size) => apply oblivious_get_best_size
  | |- oblivious _ (mbind _ _) => apply oblivious_bind; [|intros]
  | |- oblivious _ (mret _) => apply oblivious_ret
  | |- oblivious _ (raise _) => apply oblivious_raise
  | |- oblivious _ (print _) => apply oblivious_print
  | |- oblivious _ (try_pass _) => apply oblivious_try_pass
  | |- oblivious _ (when _ _) => apply oblivious_when
  | |- oblivious _ (getsize _) => apply oblivious_getsize; tauto
  | |- oblivious _ (path_exists _) => apply oblivious_path_exists; tauto
  | |- oblivious _ (os_remove _) => apply oblivious_os_remove; tauto
  | |- oblivious _ (open_rb _) => apply oblivious_open_rb; tauto
  | |- oblivious _ (read_all _) => apply oblivious_read_all; tauto
  | |- oblivious _ (open_wb _) => apply oblivious_open_wb
  | |- oblivious _ (write_all _ _) => apply oblivious_write_all
  | |- oblivious _ (image_open _) => apply oblivious_image_open; tauto
  | |- oblivious _ (img_convert_adaptive _ _) => apply oblivious_img_convert_adaptive
  | |- oblivious _ (img_convert _ _) => apply oblivious_img_convert
  | |- oblivious _ (record_candidate _ _ _) => apply oblivious_record_candidate; tauto
  | |- oblivious _ (if ?b then _ else _) => destruct b
  end.

Section ObliviousProgram.
Context {lib : ImageLib}.

Lemma strategy1_oblivious P img : oblivious P (strategy1 img).
Proof. unfold strategy1. repeat obl. Qed.

Lemma strategy2_oblivious P img : oblivious P (strategy2 img).
Proof. unfold strategy2. repeat obl. Qed.

Lemma strategy3_oblivious P img : oblivious P (strategy3 img).
Proof.
  unfold strategy3. obl; [obl|]. apply oblivious_for_each. intros k _.
  unfold filter_attempt. repeat obl.
Qed.

Lemma strategy4_oblivious P img : oblivious P (strategy4 img).
Proof.
  unfold strategy4. obl. obl; [obl|]. apply oblivious_for_each. intros k _.
  unfold bits_attempt. repeat obl.
Qed.

Lemma collect_oblivious P img : oblivious P (collect img).
Proof.
  unfold collect.
  apply oblivious_bind; [apply strategy1_oblivious|intros _].
  apply oblivious_bind; [apply strategy2_oblivious|intros _].
  apply oblivious_bind; [apply strategy3_oblivious|intros _].
  apply strategy4_oblivious.
Qed.

Lemma cleanup_oblivious (P : string → Prop) tried (body : candidate → M unit) :
  (∀ c, P (cand_file c) → oblivious P (body c)) →
  (∀ c, c ∈ tried → P (cand_file c)) →
  oblivious P (for_each tried body).
Proof. intros Hb Ht. apply oblivious_for_each. intros c Hc. by apply Hb, Ht. Qed.

Lemma report_success_oblivious P img orig out t :
  oblivious P (report_success img orig out t).
Proof.
  unfold report_success, copy_best. obl.
  { obl. intros [src|]; repeat obl. }
  obl. intros best. obl; [obl|]. obl; [repeat obl|]. obl; [obl|]. obl; [obl|].
  obl. intros tried. obl. intros best_f. obl; [|obl].
  apply cleanup_oblivious.
  - intros c Hc. repeat obl.
  - intros c Hc. left. right. by apply (list_elem_of_fmap_2 cand_file).
Qed.

Lemma report_cannot_oblivious P t : oblivious P (report_cannot t).
Proof.
  unfold report_cannot. obl. intros best. obl; [obl|]. obl. intros tried.
  obl; [|obl]. apply cleanup_oblivious.
  - intros c Hc. repeat obl.
  - intros c Hc. right. by apply (list_elem_of_fmap_2 cand_file).
Qed.

Lemma report_oblivious P img orig out t : oblivious P (report img orig out t).
Proof.
  unfold report. obl. intros tried. obl.
  { obl. apply oblivious_for_each. intros c _. obl. }
  obl. intros best. obl; [obl|]. obl.
  - apply report_success_oblivious.
  - apply report_cannot_oblivious.
Qed.

End ObliviousProgram.

Section Independence.
Context {lib : ImageLib}.

Lemma compress_image_same img orig out t s1 s2 :
  result_of (compress_image img orig out t s1)
  = result_of (compress_image img orig out t s2)
  ∧ output_of (compress_image img orig out t s1)
    = output_of (compress_image img orig out t s2).
Proof.
  rewrite !compress_image_unfold. cbn zeta.
  assert (agree (λ _, False) (start (files s1)) (start (files s2))) as Hs.
  { refine (conj eq_refl (conj eq_refl (conj eq_refl _))).
    intros f [[]|[Hf|[=]]]. by apply elem_of_nil in Hf. }
  destruct (collect_oblivious _ img _ _ Hs) as (Hr & Ho & Ha).
  rewrite <- Hr, <- Ho.
  destruct (result_of (collect img (start (files s1)))) as [[]|e]; [|done].
  destruct (report_oblivious _ img orig out t _ _ Ha) as (Hr' & Ho' & _).
  cbn [result_of output_of fst snd]. by rewrite Hr', Ho'.
Qed.



(** X7.  The best size a run returns depends on the image alone: runs
    with other targets, destinations, input sizes or directory contents
    that return, return the same best size. *)
Theorem best_size_independent_of_budget img orig orig' out out' t t' s0 s0' p p' x x' :
  result_of (compress_image img orig out t s0) = Ok (p, x) →
  result_of (compress_image img orig' out' t' s0') = Ok (p', x') →
  x = x'.
Proof.
  intros Hr Hr'.
  rewrite (proj1 (compress_image_same img orig' out' t' s0' s0)) in Hr'.
  destruct (run_locals img orig out t s0) as (_ & _ & _ & Hret).
  destruct (run_locals img orig' out' t' s0) as (_ & _ & _ & Hret').
  by rewrite (Hret p x Hr), (Hret' p' x' Hr').
Qed.

End Independence.

Lemma best_size_independent_of_budget_witness :
  (result_of (compress_image (lib:=RefLib) gray1 100 "out.png" 400 (start ∅))
   = Ok (Some "out.png", Int 5)
   ∧ result_of (compress_image (lib:=RefLib) gray1 7 "b.png" 3 (start {[temp1 := []]}))
     = Ok (None, Int 5))
  ∧ Int 5 = Int 5.
Proof.
  assert (result_of (compress_image (lib:=RefLib) gray1 100 "out.png" 400 (start ∅))
          = Ok (Some "out.png", Int 5)) as Hr by (by vm_compute).
  assert (result_of (compress_image (lib:=RefLib) gray1 7 "b.png" 3
                       (start {[temp1 := []]}))
          = Ok (None, Int 5)) as Hr' by (by vm_compute).
  split; [exact (conj Hr Hr')|].
  exact (best_size_independent_of_budget (lib:=RefLib) gray1 100 7 "out.png" "b.png"
           400 3 (start ∅) (start {[temp1 := []]}) _ _ _ _ Hr Hr').
Defined.



(** ** The script *)

Section Script.
Context {lib : ImageLib}.


(** X15.  The script never fails on a missing file: without the input
    file it prints its two messages and leaves the directory alone, and
    with it the only possible exceptions are those of the image library
    and the division by zero. *)
Theorem main_no_missing_file s :
  match main s with
  | NotFound _ s' => files s !! input_file = None ∧ s' = s
  | Ran x =>
      is_Some (files s !! input_file)
      ∧ ∀ e, result_of x = Raise e → e = CodecError ∨ e = ZeroDivisionError
  end.
Proof.
  unfold main. case_bool_decide as Hin.
  - split; [done|]. destruct Hin as [bs Hbs]. intros e.
    destruct (png_open bs) as [img|] eqn:Himg.
    + rewrite (ultra_compress_lossless_opened _ _ _ _ _ _ Hbs Himg).
      rewrite compress_image_unfold. cbn zeta.
      pose proof (collect_raises img (start (files s))) as Hc.
      destruct (result_of (collect img (start (files s)))) as [[]|e'] eqn:Hr;
        cbn [result_of fst].
      * intros He. right.
        destruct (report_raises img _ _ _ _ _ _ (collect_inv_Ok img _ Hr) e He)
          as [[? _]|[_ Hcan]]; [done|]. by vm_compute in Hcan.
      * intros [= <-]. left. symmetry. by apply Hc.
    + unfold ultra_compress_lossless. rewrite run_bind.
      unfold image_open at 1. rewrite Hbs, Himg. cbn. intros [= <-]. auto.
  - split; [|done]. by apply eq_None_not_Some.
Qed.

(** X16.  When the script's run returns a path, it is the script's
    output file, the best size is under 400, and the output file holds
    exactly that many bytes, verified against the image that the input
    file decodes to. *)
Theorem main_output_verified s x p b :
  main s = Ran x →
  result_of x = Ok (Some p, b) →
  p = output_file
  ∧ ∃ bs0 img n bs,
      files s !! input_file = Some bs0 ∧ png_open bs0 = Some img
      ∧ b = Int n ∧ n < 400
      ∧ files (state_of x) !! output_file = Some bs
      ∧ size_of bs = n
      ∧ ((∃ v, png_open bs = Some v ∧ pixels v = pixels img)
         ∨ (∃ v v', png_open bs = Some v ∧ convert v (mode img) = Some v'
                    ∧ pixels v' = pixels img)).
Proof.
  unfold main. case_bool_decide as Hin; [|done]. intros [= <-].
  destruct Hin as [bs0 Hbs0].
  destruct (png_open bs0) as [img|] eqn:Himg.
  2: { unfold ultra_compress_lossless. rewrite run_bind.
       unfold image_open at 1. rewrite Hbs0, Himg. by cbn. }
  rewrite (ultra_compress_lossless_opened _ _ _ _ _ _ Hbs0 Himg). intros Hr.
  destruct (returned_path_branch _ _ _ _ _ _ _ Hr)
    as (Hc & Hcan & n & Hn & Hlt & Horig).
  destruct (run_success img (size_of bs0) output_file 400 s n Hc Hn Hlt)
    as (f & bs & _ & _ & Hsz & Hver & Hr' & _ & Hfile); [|done|done|].
  { apply (bool_decide_unpack _). by vm_compute. }
  rewrite Hr in Hr'. injection Hr' as -> ->.
  split; [done|]. exists bs0, img, n, bs. split_and!; try done.
  unfold verified in Hver. destruct (decide (f = temp2)); [right; auto | left; auto].
Qed.

End Script.

(** ** The latency endpoint *)

Section LatencyFacts.
Context {fl : PyFloat}.

Lemma latency_fold_lookup telemetry threshold (l : list string)
    (m : gmap string region_stats) r :
  foldl (λ response r,
           let records := records_of telemetry r in
           match records with
           | [] => response
           | _ :: _ => <[r := stats_of records threshold]> response
           end) m l !! r
  = if bool_decide (r ∈ l ∧ records_of telemetry r ≠ [])
    then Some (stats_of (records_of telemetry r) threshold)
    else m !! r.
Proof.
  revert m. induction l as [|r' l IH]; intros m.
  - cbn [foldl]. rewrite bool_decide_false; [done|]. by intros [?%elem_of_nil _].
  - cbn [foldl]. rewrite IH. cbn zeta.
    destruct (decide (r = r')) as [->|Hne].
    + destruct (records_of telemetry r') as [|rec recs] eqn:Hrecs.
      * rewrite !bool_decide_false; [done | by intros [_ ?] | by intros [_ ?]].
      * rewrite lookup_insert_eq, (bool_decide_true (r' ∈ r' :: l ∧ _)).
        -- by case_bool_decide.
        -- split; [apply list_elem_of_here | done].
    + assert (Hiff : (r ∈ l ∧ records_of telemetry r ≠ [])
                     ↔ (r ∈ r' :: l ∧ records_of telemetry r ≠ [])).
      { rewrite elem_of_cons.
        split; [intros [? ?]; auto | intros [[Heq|?] ?]; [by destruct Hne | auto]]. }
      rewrite (bool_decide_ext _ _ Hiff).
      destruct (records_of telemetry r'); [done|].
      by rewrite lookup_insert_ne.
Qed.

Lemma latency_entry telemetry req r :
  latency telemetry req !! r
  = if bool_decide (r ∈ regions req ∧ records_of telemetry r ≠ [])
    then Some (stats_of (records_of telemetry r) (threshold_ms req))
    else None.
Proof. unfold latency. by rewrite latency_fold_lookup, lookup_empty. Qed.

(** X17.  The response has an entry for a region exactly when the
    region was requested and the telemetry has a record of it, and the
    entry holds the statistics of the region's records with the
    requested threshold; however often and wherever the region occurs
    in the request. *)
Theorem latency_lookup telemetry req r st :
  latency telemetry req !! r = Some st
  ↔ r ∈ regions req ∧ records_of telemetry r ≠ []
    ∧ st = stats_of (records_of telemetry r) (threshold_ms req).
Proof.
  rewrite latency_entry. case_bool_decide as Hr.
  - split; [intros [= <-]; by destruct Hr | by intros (_ & _ & ->)].
  - split; [done | intros (? & ? & _); by destruct Hr].
Qed.

(** X18.  The response depends on the set of requested regions only:
    requests with the same threshold that name the same regions, in any
    order and with any repetitions, get the same response. *)
Theorem latency_order_irrelevant telemetry req req' :
  threshold_ms req = threshold_ms req' →
  (∀ r, r ∈ regions req ↔ r ∈ regions req') →
  latency telemetry req = latency telemetry req'.
Proof.
  intros Ht Hr. apply map_eq. intros r. rewrite !latency_entry, Ht.
  apply (f_equal (λ b : bool, if b then _ else _)).
  apply bool_decide_ext. by rewrite Hr.
Qed.

(** X19.  In every entry of the response the number of breaches is
    between zero and the number of the region's records, of which
    there is at least one. *)
Theorem latency_breaches_bounded telemetry req r st :
  latency telemetry req !! r = Some st →
  0 ≤ breaches st ≤ Z.of_nat (length (records_of telemetry r))
  ∧ (1 ≤ length (records_of telemetry r))%nat.
Proof.
  rewrite latency_entry. case_bool_decide as Hr; [|done].
  intros [= <-]. destruct Hr as [_ Hrec]. cbn [breaches stats_of].
  split.
  - split; [lia|]. apply inj_le.
    etrans; [apply length_filter|]. by rewrite length_fmap.
  - destruct (records_of telemetry r); [done | cbn; lia].
Qed.

(** X20.  A request without regions, a request for regions that the
    telemetry does not know, and any request against empty telemetry
    all get the empty response. *)
Theorem latency_empty telemetry req :
  (∀ r, r ∈ regions req → r ∉ region <$> telemetry) →
  latency telemetry req = ∅.
Proof.
  intros Hunknown. apply map_eq. intros r.
  rewrite latency_entry, lookup_empty, bool_decide_false; [done|].
  intros [Hin Hrec]. apply (Hunknown r Hin).
  destruct (records_of telemetry r) as [|rec recs] eqn:Hrecs; [done|].
  assert (rec ∈ records_of telemetry r) as Hrec'
    by (rewrite Hrecs; apply list_elem_of_here).
  apply list_elem_of_filter in Hrec' as [<- Hin'].
  by apply list_elem_of_fmap_2.
Qed.

(** X24.  Raising the threshold never raises a region's number of
    breaches, [>] on floats being transitive. *)
Theorem latency_breaches_antitone telemetry req req' r st st' :
  (∀ a b c, py_gt a b = true → py_gt b c = true → py_gt a c = true) →
  py_gt (threshold_ms req') (threshold_ms req) = true →
  latency telemetry req !! r = Some st →
  latency telemetry req' !! r = Some st' →
  breaches st' ≤ breaches st.
Proof.
  intros Htrans Hgt. rewrite !latency_entry.
  case_bool_decide; [|done]. case_bool_decide; [|done].
  intros [= <-] [= <-]. cbn [breaches stats_of]. apply inj_le.
  induction (latency_ms <$> records_of telemetry r) as [|l ls IH]; [done|].
  rewrite !filter_cons.
  destruct (decide (py_gt l (threshold_ms req') = true)) as [Hl|Hl].
  - rewrite decide_True by (by eapply Htrans). cbn [length]. lia.
  - destruct (decide (py_gt l (threshold_ms req) = true)); cbn [length]; lia.
Qed.

End LatencyFacts.

Lemma latency_order_irrelevant_witness :
  let req := Build_LatencyRequest (fl:=QFloat) ["apac"; "emea"; "apac"] 180%Q in
  let req' := Build_LatencyRequest (fl:=QFloat) ["emea"; "apac"] 180%Q in
  (threshold_ms req = threshold_ms req'
   ∧ ∀ r, r ∈ regions req ↔ r ∈ regions req')
  ∧ latency sample_telemetry req = latency sample_telemetry req'.
Proof.
  assert (threshold_ms (Build_LatencyRequest (fl:=QFloat) ["apac"; "emea"; "apac"] 180%Q)
          = threshold_ms (Build_LatencyRequest (fl:=QFloat) ["emea"; "apac"] 180%Q))
    as Ht by reflexivity.
  assert (∀ r, r ∈ regions (Build_LatencyRequest (fl:=QFloat) ["apac"; "emea"; "apac"] 180%Q)
               ↔ r ∈ regions (Build_LatencyRequest (fl:=QFloat) ["emea"; "apac"] 180%Q))
    as Hr by (intros r; cbn [regions]; rewrite !elem_of_cons, !elem_of_nil; tauto).
  split; [exact (conj Ht Hr)|].
  exact (latency_order_irrelevant sample_telemetry _ _ Ht Hr).
Defined.

Lemma sample_apac_records :
  records_of sample_telemetry "apac"
  = [TelemetryRecord (fl:=QFloat) "apac" 100%Q 99%Q;
     TelemetryRecord (fl:=QFloat) "apac" 200%Q 98%Q].
Proof. reflexivity. Qed.

Lemma sample_regions : region <$> sample_telemetry = ["apac"; "emea"; "apac"].
Proof. reflexivity. Qed.

Lemma latency_breaches_bounded_witness :
  ∃ st, latency sample_telemetry (Build_LatencyRequest (fl:=QFloat) ["apac"] 180%Q)
          !! "apac" = Some st
        ∧ 0 ≤ breaches st ≤ Z.of_nat (length (records_of sample_telemetry "apac")).
Proof.
  assert (latency sample_telemetry (Build_LatencyRequest (fl:=QFloat) ["apac"] 180%Q)
            !! "apac"
          = Some (stats_of (records_of sample_telemetry "apac") (180%Q : @num QFloat)))
    as Hst.
  { rewrite latency_entry, bool_decide_true; [reflexivity|].
    split; [apply list_elem_of_here|]. by rewrite sample_apac_records. }
  eexists. split; [exact Hst|].
  exact (proj1 (latency_breaches_bounded sample_telemetry _ "apac" _ Hst)).
Defined.

Lemma latency_empty_witness :
  let req := Build_LatencyRequest (fl:=QFloat) ["amer"] 180%Q in
  (∀ r, r ∈ regions req → r ∉ region <$> sample_telemetry)
  ∧ latency sample_telemetry req = ∅.
Proof.
  assert (∀ r, r ∈ regions (Build_LatencyRequest (fl:=QFloat) ["amer"] 180%Q)
               → r ∉ region <$> sample_telemetry) as Hun.
  { intros r ->%list_elem_of_singleton. rewrite sample_regions.
    rewrite !not_elem_of_cons. split_and!; try done. apply not_elem_of_nil. }
  split; [exact Hun|].
  exact (latency_empty sample_telemetry _ Hun).
Defined.


Lemma main_output_verified_witness :
  let s := start {[input_file := ["001"; "001"; "001"; "000"; "007"]%byte]} in
  ∃ x, (main (lib:=RefLib) s = Ran x
        ∧ result_of x = Ok (Some output_file, Int 5))
       ∧ ∃ bs, files (state_of x) !! output_file = Some bs ∧ size_of bs = 5.
Proof.
  exists (ultra_compress_lossless (lib:=RefLib) input_file output_file 400
            (start {[input_file := ["001"; "001"; "001"; "000"; "007"]%byte]})).
  assert (main (lib:=RefLib)
            (start {[input_file := ["001"; "001"; "001"; "000"; "007"]%byte]})
          = Ran (ultra_compress_lossless (lib:=RefLib) input_file output_file 400
                   (start {[input_file := ["001"; "001"; "001"; "000"; "007"]%byte]})))
    as Hm by (by vm_compute).
  assert (result_of (ultra_compress_lossless (lib:=RefLib) input_file output_file 400
                       (start {[input_file := ["001"; "001"; "001"; "000"; "007"]%byte]}))
          = Ok (Some output_file, Int 5)) as Hr by (by vm_compute).
  split; [exact (conj Hm Hr)|].
  destruct (main_output_verified (lib:=RefLib) _ _ _ _ Hm Hr)
    as (_ & bs0 & img & n & bs & _ & _ & Hn & _ & Hfile & Hsz & _).
  injection Hn as <-. exists bs. exact (conj Hfile Hsz).
Defined.

Lemma QFloat_gt_trans (a b c : @num QFloat) :
  py_gt a b = true → py_gt b c = true → py_gt a c = true.
Proof.
  cbn [py_gt QFloat]. rewrite !negb_true_iff, <- !not_true_iff_false, !Qle_bool_iff.
  intros Hab%Qnot_le_lt Hbc%Qnot_le_lt. apply Qlt_not_le.
  exact (Qlt_trans _ _ _ Hbc Hab).
Qed.

Lemma latency_breaches_antitone_witness :
  let req := Build_LatencyRequest (fl:=QFloat) ["apac"] 50%Q in
  let req' := Build_LatencyRequest (fl:=QFloat) ["apac"] 150%Q in
  ∃ st st',
    (py_gt (threshold_ms req') (threshold_ms req) = true
     ∧ latency sample_telemetry req !! "apac" = Some st
     ∧ latency sample_telemetry req' !! "apac" = Some st')
    ∧ breaches st' ≤ breaches st.
Proof.
  assert (py_gt (threshold_ms (Build_LatencyRequest (fl:=QFloat) ["apac"] 150%Q))
                (threshold_ms (Build_LatencyRequest (fl:=QFloat) ["apac"] 50%Q)) = true)
    as Hgt by reflexivity.
  assert (∀ t : @num QFloat,
            latency sample_telemetry (Build_LatencyRequest (fl:=QFloat) ["apac"] t)
              !! "apac"
            = Some (stats_of (records_of sample_telemetry "apac") t)) as Hst.
  { intros t. rewrite latency_entry, bool_decide_true; [reflexivity|].
    split; [apply list_elem_of_here|]. by rewrite sample_apac_records. }
  eexists _, _. split; [exact (conj Hgt (conj (Hst _) (Hst _)))|].
  exact (latency_breaches_antitone sample_telemetry _ _ "apac" _ _
           QFloat_gt_trans Hgt (Hst _) (Hst _)).
Defined.
